(** * meas_base: aperture fluxes, adaptive moments and input guards

    A shallow embedding of [SdssShape.cc], [ApertureFlux.cc],
    [InputUtilities.cc] and [ScaledApertureFlux.cc].  C++ [double] values
    are Rocq's primitive binary64 floats; a C++ [float] is a binary64 value
    that has been rounded to binary32 ([Ieee.to_f32]); [int] is [Z]; output
    parameters and mutated objects are passed and returned explicitly;
    exceptions are values of a result type.  Collaborators that live outside
    the repository (the fast exponential, the ellipse conversions, Eigen's
    inverse and reductions, the sinc-coefficient cache, the pixel-region
    rasterizer) are section variables.  The integer boxes of afw and the
    view of an image on a box are modelled as afw has them: a box that is
    clipped away is the empty box at (0, 0), and the constructor of a view
    throws when the offset of the box does not fit ([ApertureFlux.boxFits]).
    The sub-pixel loops of [calcmom], which step a [float] by 0.25, are run
    for 8 passes at most; [SdssShape.step_quarter_ends] tells whether a loop
    is over by then, and [getFixedMomentsFlux], where the pixels can lie far
    from the centre, gives no result where it is not.  The [assert]
    statements of [SdssShape.cc] are compiled out (NDEBUG) and have no
    counterpart here. *)

From Stdlib Require Import ZArith Bool List Lia Ascii String.
From Stdlib Require Import Floats.
Import ListNotations.

Set Implicit Arguments.

(** ** IEEE 754 helpers *)

Module Ieee.
Local Open Scope float_scope.

Definition NaN : float := nan.

(** [std::numeric_limits<float>::epsilon()] and its [double] sibling. *)
Definition float_epsilon : float := 0x1p-23.
Definition double_epsilon : float := 0x1p-52.

(** [afwGeom::PI]. *)
Definition PI : float := 0x1.921fb54442d18p+1.

Definition isnan (x : float) : bool := is_nan x.
Definition fabs (x : float) : float := abs x.

(** [a > b] and [a >= b] as C++ evaluates them (false on NaN). *)
Definition gtb (a b : float) : bool := b <? a.
Definition geb (a b : float) : bool := b <=? a.

(** Conversion of a [double] to [float]: round to nearest even at 24 bits
    of precision, overflow to infinity. NaN, infinities and zeros pass. *)
Definition to_f32 (x : float) : float :=
  match Prim2SF x with
  | S754_finite s m e => SF2Prim (binary_round 24 128 s m e)
  | _ => x
  end.

(** An [int] converted to [double] (always exact for 32-bit values). *)
Definition of_int (z : Z) : float :=
  SF2Prim (binary_normalize prec emax z 0 false).

(** An [int] converted to [float]. *)
Definition f32_of_int (z : Z) : float := to_f32 (of_int z).

Definition INT_MIN : Z := - 2 ^ 31.
Definition INT_MAX : Z := 2 ^ 31 - 1.

(** The integer part of a finite value, rounded toward zero. *)
Definition trunc (x : float) : option Z :=
  match Prim2SF x with
  | S754_zero _ => Some 0%Z
  | S754_finite s m e =>
      let mag := if (0 <=? e)%Z then (Zpos m * 2 ^ e)%Z
                 else Z.shiftr (Zpos m) (- e) in
      Some (if s then (- mag)%Z else mag)
  | _ => None
  end.

(** The integer part of a finite value, rounded toward minus infinity. *)
Definition floorZ (x : float) : option Z :=
  match Prim2SF x with
  | S754_zero _ => Some 0%Z
  | S754_finite s m e =>
      if (0 <=? e)%Z then
        let mag := (Zpos m * 2 ^ e)%Z in Some (if s then (- mag)%Z else mag)
      else
        let q := if s then (- Zpos m)%Z else Zpos m in
        Some (Z.shiftr q (- e))
  | _ => None
  end.

Definition in_int_range (z : Z) : bool :=
  ((INT_MIN <=? z) && (z <=? INT_MAX))%Z.

(** [static_cast<int>(x)]. A value outside the range of [int] (or a NaN)
    has no defined result in C++; the model returns what the x86-64
    conversion instruction delivers, [INT_MIN]. *)
Definition static_cast_int (x : float) : Z :=
  match trunc x with
  | Some z => if in_int_range z then z else INT_MIN
  | None => INT_MIN
  end.

(** [static_cast<int>(std::floor(x))]. *)
Definition floor_int (x : float) : Z :=
  match floorZ x with
  | Some z => if in_int_range z then z else INT_MIN
  | None => INT_MIN
  end.
End Ieee.

(** ** Integer boxes

    [lsst::afw::geom::BoxI] belongs to a library outside the repository; the
    model keeps what the sources here use of it: a minimum corner and
    dimensions, the empty box, the two-corner constructor (which swaps
    corners given in the wrong order), [contains] and [clip]. *)

Module Geom.
Local Open Scope Z_scope.

Record BoxI : Type := mkBoxI { minX : Z; minY : Z; dimX : Z; dimY : Z }.

Definition emptyBox : BoxI := mkBoxI 0 0 0 0.

Definition getMinX (b : BoxI) : Z := minX b.
Definition getMinY (b : BoxI) : Z := minY b.
Definition getMaxX (b : BoxI) : Z := minX b + dimX b - 1.
Definition getMaxY (b : BoxI) : Z := minY b + dimY b - 1.
Definition getWidth (b : BoxI) : Z := dimX b.
Definition getHeight (b : BoxI) : Z := dimY b.

Definition isEmpty (b : BoxI) : bool := (dimX b =? 0) && (dimY b =? 0).

(** [BoxI(Point2I llc, Point2I urc)]. *)
Definition fromCorners (x0 y0 x1 y1 : Z) : BoxI :=
  let lx := Z.min x0 x1 in let hx := Z.max x0 x1 in
  let ly := Z.min y0 y1 in let hy := Z.max y0 y1 in
  mkBoxI lx ly (1 + hx - lx) (1 + hy - ly).

Definition contains (b other : BoxI) : bool :=
  isEmpty other
  || ((getMinX b <=? getMinX other) && (getMinY b <=? getMinY other)
      && (getMaxX other <=? getMaxX b) && (getMaxY other <=? getMaxY b)).

(** [b.clip(other)]: the intersection, the empty box when there is none. *)
Definition clip (b other : BoxI) : BoxI :=
  if isEmpty b then b
  else if isEmpty other then emptyBox
  else
    let lx := Z.max (getMinX b) (getMinX other) in
    let ly := Z.max (getMinY b) (getMinY other) in
    let hx := Z.min (getMaxX b) (getMaxX other) in
    let hy := Z.min (getMaxY b) (getMaxY other) in
    if (hx <? lx) || (hy <? ly) then emptyBox
    else mkBoxI lx ly (1 + hx - lx) (1 + hy - ly).
End Geom.

(** ** Ellipse cores

    The two parametrisations of [lsst::afw::geom::ellipses] the sources use.
    The conversions between them are the library's and are taken as
    parameters where a function needs them. *)

Module Ellipses.
Record Quadrupole : Type := mkQuadrupole { getIxx : float; getIyy : float; getIxy : float }.
Record Axes : Type := mkAxes { getA : float; getB : float; getTheta : float }.

Definition setA (ax : Axes) (a : float) : Axes := mkAxes a (getB ax) (getTheta ax).
Definition setB (ax : Axes) (b : float) : Axes := mkAxes (getA ax) b (getTheta ax).

(** A 2x2 matrix, row-major: [m00 m01 m10 m11]. *)
Record Matrix2 : Type := mkMatrix2 { m00 : float; m01 : float; m10 : float; m11 : float }.

Definition getMatrix (q : Quadrupole) : Matrix2 :=
  mkMatrix2 (getIxx q) (getIxy q) (getIxy q) (getIyy q).

Definition getDeterminant (q : Quadrupole) : float :=
  (getIxx q * getIyy q - getIxy q * getIxy q)%float.

Inductive EllipseCore : Type :=
  | CoreAxes (ax : Axes)
  | CoreQuadrupole (q : Quadrupole).

Record Ellipse : Type := mkEllipse { getCore : EllipseCore; getCenterX : float; getCenterY : float }.
End Ellipses.

(** ** Images

    [lsst::afw::image::Image<T>] and [MaskedImage<T>] as the sources read
    them: dimensions, the origin [(X0, Y0)] in the parent frame, and pixels
    read at (column, row) in image-local coordinates. *)

Module Images.
Import Ieee Geom.

(** The pixel types the templates are instantiated for. *)
Inductive PixelType : Type := PixInt | PixFloat | PixDouble.

Record Image : Type := mkImage {
  pixelType : PixelType;
  imWidth : Z;
  imHeight : Z;
  imX0 : Z;
  imY0 : Z;
  pixel : Z -> Z -> float
}.

(** A MaskedImage: the image plane and the variance plane (the mask plane
    is never read). *)
Record MaskedImage : Type := mkMaskedImage {
  getImagePlane : Image;
  variancePlane : Z -> Z -> float
}.

(** The bounding box in the parent frame. *)
Definition getBBox (im : Image) : BoxI := mkBoxI (imX0 im) (imY0 im) (imWidth im) (imHeight im).

(** A value as it is held in type [T]. *)
Definition as_pixel (ty : PixelType) (v : float) : float :=
  match ty with
  | PixDouble => v
  | PixFloat => to_f32 v
  | PixInt => of_int (static_cast_int v)
  end.
End Images.

(** ** Exceptions *)

Inductive Exception : Type :=
| DomainError (msg : string)
| LengthError (msg : string)
| RuntimeError (msg : string)
| LogicError (msg : string)
| FatalAlgorithmError (msg : string)
| MeasurementError (msg : string) (flagBit : Z).

(** ** SdssShape.cc *)

Module SdssShape.
Import Ieee Geom Ellipses Images.
Local Open Scope float_scope.

(** A 4x4 matrix as four rows of four entries. *)
Definition Matrix4 : Type := list (list float).

(** Modelled from the spec: [detail::SdssShapeImpl], declared in a header
    that is not among the sources. It carries the fields the spec lists for
    a ShapeResult and a set of flags, here the bits of an integer, numbered
    so that flag [n] is flag [n + 1] of the result record, whose order is
    given by [flagDefs]. *)
Record SdssShapeImpl : Type := mkImpl {
  getI0 : float;
  getX : float;
  getY : float;
  getIxx : float;
  getIxy : float;
  getIyy : float;
  getIxy4 : float;
  getCovar : Matrix4;
  getFlags : Z
}.

Definition UNWEIGHTED_BAD : Z := 0.
Definition UNWEIGHTED : Z := 1.
Definition SHIFT : Z := 2.
Definition MAXITER : Z := 3.
Definition N_FLAGS : Z := 4.

Definition setI0 (s : SdssShapeImpl) (v : float) : SdssShapeImpl :=
  mkImpl v (getX s) (getY s) (getIxx s) (getIxy s) (getIyy s) (getIxy4 s) (getCovar s) (getFlags s).
Definition setX (s : SdssShapeImpl) (v : float) : SdssShapeImpl :=
  mkImpl (getI0 s) v (getY s) (getIxx s) (getIxy s) (getIyy s) (getIxy4 s) (getCovar s) (getFlags s).
Definition setY (s : SdssShapeImpl) (v : float) : SdssShapeImpl :=
  mkImpl (getI0 s) (getX s) v (getIxx s) (getIxy s) (getIyy s) (getIxy4 s) (getCovar s) (getFlags s).
Definition setIxx (s : SdssShapeImpl) (v : float) : SdssShapeImpl :=
  mkImpl (getI0 s) (getX s) (getY s) v (getIxy s) (getIyy s) (getIxy4 s) (getCovar s) (getFlags s).
Definition setIxy (s : SdssShapeImpl) (v : float) : SdssShapeImpl :=
  mkImpl (getI0 s) (getX s) (getY s) (getIxx s) v (getIyy s) (getIxy4 s) (getCovar s) (getFlags s).
Definition setIyy (s : SdssShapeImpl) (v : float) : SdssShapeImpl :=
  mkImpl (getI0 s) (getX s) (getY s) (getIxx s) (getIxy s) v (getIxy4 s) (getCovar s) (getFlags s).
Definition setIxy4 (s : SdssShapeImpl) (v : float) : SdssShapeImpl :=
  mkImpl (getI0 s) (getX s) (getY s) (getIxx s) (getIxy s) (getIyy s) v (getCovar s) (getFlags s).
Definition setCovar (s : SdssShapeImpl) (m : Matrix4) : SdssShapeImpl :=
  mkImpl (getI0 s) (getX s) (getY s) (getIxx s) (getIxy s) (getIyy s) (getIxy4 s) m (getFlags s).
Definition withFlags (s : SdssShapeImpl) (f : Z) : SdssShapeImpl :=
  mkImpl (getI0 s) (getX s) (getY s) (getIxx s) (getIxy s) (getIyy s) (getIxy4 s) (getCovar s) f.

Definition getFlag (s : SdssShapeImpl) (n : Z) : bool := Z.testbit (getFlags s) n.
Definition setFlag (s : SdssShapeImpl) (n : Z) : SdssShapeImpl := withFlags s (Z.setbit (getFlags s) n).
Definition resetFlag (s : SdssShapeImpl) (n : Z) : SdssShapeImpl := withFlags s (Z.clearbit (getFlags s) n).

(** The template parameter [ImageT]: an Image or a MaskedImage. *)
Inductive ImageT : Type :=
| Plain (im : Image)
| Masked (mi : MaskedImage).

(** [ImageAdaptor<ImageT>::getImage]. *)
Definition getImage (mimage : ImageT) : Image :=
  match mimage with
  | Plain im => im
  | Masked mi => getImagePlane mi
  end.

(** [ImageAdaptor<ImageT>::getVariance]: NaN for an Image, the variance
    plane at the pixel for a MaskedImage. *)
Definition getVariance (mimage : ImageT) (ix iy : Z) : float :=
  match mimage with
  | Plain _ => NaN
  | Masked mi => variancePlane mi ix iy
  end.

(** The result of [getWeights]: [(ok, det), w11, w12, w22]. *)
Record Weights : Type := mkWeights {
  w_ok : bool; w_det : float; w_11 : float; w_12 : float; w_22 : float
}.

(** The seven sums [calcmom] accumulates. *)
Record Sums : Type := mkSums {
  sum : float; sumx : float; sumy : float;
  sumxx : float; sumxy : float; sumyy : float; sums4 : float
}.

Definition zeroSums : Sums := mkSums 0 0 0 0 0 0 0.

Section Upto.
Variable S : Type.
Variable body : Z -> S -> S.

(** [for (i = lo; i <= hi; ++i) body]. *)
Fixpoint for_count (n : nat) (i : Z) (s : S) : S :=
  match n with
  | O => s
  | Datatypes.S k => for_count k (i + 1)%Z (body i s)
  end.

Definition for_range (lo hi : Z) (s : S) : S :=
  for_count (Z.to_nat (hi - lo + 1)) lo s.
End Upto.

Section SubPixel.
Variable S : Type.
Variable body : float -> S -> S.

(** [for (V = lo; V <= hi; V += 0.25) body] over a [float] V, cut short
    after [fuel] passes. It is the loop of the source where
    [step_quarter_ends] below holds. The source calls it with [lo] and [hi]
    0.75 apart: near 0 the step then visits four points, and the fuel covers
    that with room; far from 0, where adding 0.25 no longer moves a [float],
    the loop of the source never ends. *)
Fixpoint step_quarter (fuel : nat) (V hi : float) (s : S) : S :=
  match fuel with
  | O => s
  | Datatypes.S k =>
      if V <=? hi then step_quarter k (to_f32 (V + 0.25)) hi (body V s) else s
  end.
End SubPixel.

Definition subpixel_fuel : nat := 8.

(** Whether the loop [for (V = lo; V <= hi; V += 0.25)] is over after at
    most [fuel] passes of its body: the test [V <= hi] has then failed. *)
Fixpoint step_quarter_ends (fuel : nat) (V hi : float) : bool :=
  match fuel with
  | O => negb (V <=? hi)
  | Datatypes.S k =>
      if V <=? hi then step_quarter_ends k (to_f32 (V + 0.25)) hi else true
  end.

Section Externals.
(** [lsst::utils::PowFast::exp], on [float]. *)
Variable approxExp : float -> float.
(** [std::pow]. *)
Variable pow : float -> float -> float.
(** [Axes(Quadrupole)] and [Quadrupole(Axes)]. *)
Variable quadrupoleToAxes : Quadrupole -> Axes.
Variable axesToQuadrupole : Axes -> Quadrupole.
(** Eigen's [inverse()] at 2x2 and at 4x4. *)
Variable inverse2 : Matrix2 -> Matrix2.
Variable inverse4 : Matrix4 -> Matrix4.

(** [approxExp(float x)] returning [float]. *)
Definition approxExp32 (x : float) : float := to_f32 (approxExp (to_f32 x)).

(** Calculate weights from moments. *)
Definition getWeights (sigma11 sigma12 sigma22 : float) (careful : bool) : Weights :=
  if isnan sigma11 || isnan sigma12 || isnan sigma22 then
    mkWeights false NaN NaN NaN NaN
  else
    let det := sigma11 * sigma22 - sigma12 * sigma12 in
    if isnan det || (det <? float_epsilon) then
      mkWeights false NaN NaN NaN NaN
    else if isnan det || (det <? float_epsilon) then
      let iMin := 1 / 12 in
      if negb careful then
        mkWeights false det NaN NaN NaN
      else
        let q := mkQuadrupole sigma11 sigma22 sigma12 in
        let axes := quadrupoleToAxes q in
        let axes := setA axes (sqrt (pow (getA axes) 2 + iMin)) in
        let axes := setB axes (sqrt (pow (getB axes) 2 + iMin)) in
        let q2 := axesToQuadrupole axes in
        let mat := inverse2 (getMatrix q2) in
        mkWeights true (getDeterminant q2) (m00 mat) (m10 mat) (m11 mat)
    else
      mkWeights true det (sigma22 / det) (- sigma12 / det) (sigma11 / det).

(** Should we be interpolating? *)
Definition shouldInterp (sigma11 sigma22 det : float) : bool :=
  let xinterp := 0.25 in
  (sigma11 <? xinterp) || (sigma22 <? xinterp) || (det <? to_f32 (xinterp * xinterp)).

(** Decide on the bounding box for the region to examine. [xcen], [ycen]
    and [maxRad] are [float]s. *)
Definition set_amom_bbox (width height : Z) (xcen ycen : float)
    (sigma11_w sigma12_w sigma22_w : float) (maxRad : float) : BoxI :=
  let rad := to_f32 (4 * sqrt (if gtb sigma11_w sigma22_w then sigma11_w else sigma22_w)) in
  let rad := if gtb rad maxRad then maxRad else rad in
  let ix0 := static_cast_int (to_f32 (xcen - rad) - 0.5) in
  let ix0 := if (ix0 <? 0)%Z then 0%Z else ix0 in
  let iy0 := static_cast_int (to_f32 (ycen - rad) - 0.5) in
  let iy0 := if (iy0 <? 0)%Z then 0%Z else iy0 in
  let ix1 := static_cast_int (to_f32 (xcen + rad) + 0.5) in
  let ix1 := if (ix1 >=? width)%Z then (width - 1)%Z else ix1 in
  let iy1 := static_cast_int (to_f32 (ycen + rad) + 0.5) in
  let iy1 := if (iy1 >=? height)%Z then (height - 1)%Z else iy1 in
  fromCorners ix0 iy0 ix1 iy1.

Definition default_maxRad : float := 1000.

(** [*ptr - bkgd], stored in a [float]; [p] is the pixel's value. An [int]
    pixel is first converted to [float]. *)
Definition pixel_minus_bkgd (ty : PixelType) (p bkgd : float) : float :=
  match ty with
  | PixInt => to_f32 (to_f32 p - bkgd)
  | PixFloat | PixDouble => to_f32 (p - bkgd)
  end.

(** One term of the sums: [ymod] goes to [sum]; unless [fluxOnly], the five
    moment terms and the fourth-order term go to theirs. *)
Definition accumulate (fluxOnly : bool) (ymod tx ty txx txy tyy t4 : float) (s : Sums) : Sums :=
  if fluxOnly then
    mkSums (sum s + ymod) (sumx s) (sumy s) (sumxx s) (sumxy s) (sumyy s) (sums4 s)
  else
    mkSums (sum s + ymod) (sumx s + tx) (sumy s + ty)
           (sumxx s + txx) (sumxy s + txy) (sumyy s + tyy) (sums4 s + t4).

(** The body of the pixel loop of [calcmom] when interpolating: the largest
    exponent at the four corners of the pixel decides whether the pixel
    counts, and the pixel is then sampled on a grid of spacing 0.25. *)
Definition calcmom_pixel_interp (fluxOnly : bool) (xcen ycen : float)
    (w11 w12 w22 : float) (tmod : float) (x yl yh : float) (s : Sums) : Sums :=
  let xl := to_f32 (x - 0.375) in
  let xh := to_f32 (x + 0.375) in
  let expon := to_f32 (to_f32 (xl * xl) * w11 + to_f32 (yl * yl) * w22 + 2 * xl * yl * w12) in
  let tmp := to_f32 (to_f32 (xh * xh) * w11 + to_f32 (yh * yh) * w22 + 2 * xh * yh * w12) in
  let expon := if gtb expon tmp then expon else tmp in
  let tmp := to_f32 (to_f32 (xl * xl) * w11 + to_f32 (yh * yh) * w22 + 2 * xl * yh * w12) in
  let expon := if gtb expon tmp then expon else tmp in
  let tmp := to_f32 (to_f32 (xh * xh) * w11 + to_f32 (yl * yl) * w22 + 2 * xh * yl * w12) in
  let expon := if gtb expon tmp then expon else tmp in
  if expon <=? 9 then
    step_quarter
      (fun Y s =>
         let interpY2 := to_f32 (Y * Y) in
         step_quarter
           (fun X s =>
              let interpX2 := to_f32 (X * X) in
              let interpXy := to_f32 (X * Y) in
              let expon := to_f32 (interpX2 * w11 + 2 * interpXy * w12 + interpY2 * w22) in
              let weight := approxExp32 (- 0.5 * expon) in
              let ymod := to_f32 (tmod * weight) in
              accumulate fluxOnly ymod
                (to_f32 (ymod * to_f32 (X + xcen)))
                (to_f32 (ymod * to_f32 (Y + ycen)))
                (interpX2 * ymod) (interpXy * ymod) (interpY2 * ymod)
                (to_f32 (to_f32 (expon * expon) * ymod)) s)
           subpixel_fuel xl xh s)
      subpixel_fuel yl yh s
  else s.

(** The body of the pixel loop of [calcmom] when not interpolating; [i] and
    [j] are the row and the column. *)
Definition calcmom_pixel_plain (fluxOnly : bool) (w11 w12 w22 : float)
    (tmod : float) (i j : Z) (x y y2 : float) (s : Sums) : Sums :=
  let x2 := to_f32 (x * x) in
  let xy := to_f32 (x * y) in
  let expon := to_f32 (x2 * w11 + to_f32 (2 * xy) * w12 + y2 * w22) in
  if expon <=? 14 then
    let weight := approxExp32 (- 0.5 * expon) in
    let ymod := to_f32 (tmod * weight) in
    accumulate fluxOnly ymod
      (to_f32 (ymod * f32_of_int j))
      (to_f32 (ymod * f32_of_int i))
      (to_f32 (x2 * ymod)) (to_f32 (xy * ymod)) (to_f32 (y2 * ymod))
      (to_f32 (to_f32 (expon * expon) * ymod)) s
  else s.

(** Calculate weighted moments of an object up to 2nd order.

    [xcen], [ycen] and [bkgd] are [float]s. [outs] holds the caller's
    variables behind [pI0] and the seven sum pointers; the result is the
    status and those variables after the call. [psum] and [psums4] say
    whether the pointer of that name is non-null. Nothing is stored on the
    two early returns. *)
Definition calcmom (fluxOnly : bool) (image : Image) (xcen ycen : float) (bbox : BoxI)
    (bkgd : float) (interpflag : bool) (w11 w12 w22 : float)
    (psum psums4 : bool) (outs : float * Sums) : Z * (float * Sums) :=
  if gtb (fabs w11) 1e6 || gtb (fabs w12) 1e6 || gtb (fabs w22) 1e6 then
    ((-1)%Z, outs)
  else
    let ix0 := getMinX bbox in
    let ix1 := getMaxX bbox in
    let iy0 := getMinY bbox in
    let iy1 := getMaxY bbox in
    if ((ix0 <? 0) || (ix1 >=? imWidth image) || (iy0 <? 0) || (iy1 >=? imHeight image))%Z then
      ((-1)%Z, outs)
    else
      let s :=
        for_range
          (fun i s =>
             let y := to_f32 (f32_of_int i - ycen) in
             let y2 := to_f32 (y * y) in
             let yl := to_f32 (y - 0.375) in
             let yh := to_f32 (y + 0.375) in
             for_range
               (fun j s =>
                  let x := to_f32 (f32_of_int j - xcen) in
                  let tmod := pixel_minus_bkgd (pixelType image) (pixel image j i) bkgd in
                  if interpflag then
                    calcmom_pixel_interp fluxOnly xcen ycen w11 w12 w22 tmod x yl yh s
                  else
                    calcmom_pixel_plain fluxOnly w11 w12 w22 tmod i j x y y2 s)
               ix0 ix1 s)
          iy0 iy1 zeroSums in
      let weights := getWeights w11 w12 w22 true in
      let detW := w_11 weights * w_22 weights - pow (w_12 weights) 2 in
      let I0 := sum s / (PI * sqrt detW) in
      let old := snd outs in
      let stored :=
        mkSums (if psum then sum s else sum old)
               (if fluxOnly then sumx old else sumx s)
               (if fluxOnly then sumy old else sumy s)
               (if fluxOnly then sumxx old else sumxx s)
               (if fluxOnly then sumxy old else sumxy s)
               (if fluxOnly then sumyy old else sumyy s)
               (if fluxOnly || negb psums4 then sums4 old else sums4 s) in
      ((if fluxOnly || (gtb (sum s) 0 && gtb (sumxx s) 0 && gtb (sumyy s) 0) then 0 else -1)%Z,
       (I0, stored)).

(** Whether the two sub-pixel loops of [calcmom_pixel_interp] are over
    within their fuel on a pixel: the loop over Y, and the loop over X that
    it runs in each of its passes. A pixel that is not sampled has none. *)
Definition calcmom_pixel_interp_ends (w11 w12 w22 : float) (x yl yh : float) : bool :=
  let xl := to_f32 (x - 0.375) in
  let xh := to_f32 (x + 0.375) in
  let expon := to_f32 (to_f32 (xl * xl) * w11 + to_f32 (yl * yl) * w22 + 2 * xl * yl * w12) in
  let tmp := to_f32 (to_f32 (xh * xh) * w11 + to_f32 (yh * yh) * w22 + 2 * xh * yh * w12) in
  let expon := if gtb expon tmp then expon else tmp in
  let tmp := to_f32 (to_f32 (xl * xl) * w11 + to_f32 (yh * yh) * w22 + 2 * xl * yh * w12) in
  let expon := if gtb expon tmp then expon else tmp in
  let tmp := to_f32 (to_f32 (xh * xh) * w11 + to_f32 (yl * yl) * w22 + 2 * xh * yl * w12) in
  let expon := if gtb expon tmp then expon else tmp in
  if expon <=? 9 then
    step_quarter_ends subpixel_fuel yl yh
    && (negb (yl <=? yh) || step_quarter_ends subpixel_fuel xl xh)
  else true.

(** Whether every sub-pixel loop of a call of [calcmom] is over within its
    fuel, so that [calcmom] above is what the source computes. There is no
    such loop on the two early returns and when not interpolating. *)
Definition calcmom_ends (image : Image) (xcen ycen : float) (bbox : BoxI)
    (interpflag : bool) (w11 w12 w22 : float) : bool :=
  if gtb (fabs w11) 1e6 || gtb (fabs w12) 1e6 || gtb (fabs w22) 1e6 then true
  else
    let ix0 := getMinX bbox in
    let ix1 := getMaxX bbox in
    let iy0 := getMinY bbox in
    let iy1 := getMaxY bbox in
    if ((ix0 <? 0) || (ix1 >=? imWidth image) || (iy0 <? 0) || (iy1 >=? imHeight image))%Z then
      true
    else if negb interpflag then true
    else
      for_range
        (fun i ok =>
           let y := to_f32 (f32_of_int i - ycen) in
           let yl := to_f32 (y - 0.375) in
           let yh := to_f32 (y + 0.375) in
           for_range
             (fun j ok =>
                let x := to_f32 (f32_of_int j - xcen) in
                ok && calcmom_pixel_interp_ends w11 w12 w22 x yl yh)
             ix0 ix1 ok)
        iy0 iy1 true.

(** The Fisher matrix of the four Gaussian parameters; [bkgd_var] is a
    [float]. It throws on a small determinant or a non-positive variance. *)
Definition calc_fisher (shape : SdssShapeImpl) (bkgd_var : float) : Exception + Matrix4 :=
  let A := to_f32 (getI0 shape) in
  let sigma11W := to_f32 (getIxx shape) in
  let sigma12W := to_f32 (getIxy shape) in
  let sigma22W := to_f32 (getIyy shape) in
  let D := to_f32 (to_f32 (sigma11W * sigma22W) - to_f32 (sigma12W * sigma12W)) in
  if D <=? double_epsilon then
    inl (DomainError "Determinant is too small calculating Fisher matrix")
  else if bkgd_var <=? 0 then
    inl (DomainError "Background variance must be positive")
  else
    let F := PI * sqrt D / bkgd_var in
    let fac := F * A / (4 * D) in
    let f00 := F in
    let f01 := fac * sigma22W in
    let f02 := fac * sigma11W in
    let f03 := - fac * 2 * sigma12W in
    let fac := 3 * F * A * A / (16 * D * D) in
    let f11 := fac * sigma22W * sigma22W in
    let f22 := fac * sigma11W * sigma11W in
    let f33 := fac * 4 * (to_f32 (sigma12W * sigma12W) + D / 3) in
    let f12 := f33 / 4 in
    let f13 := fac * (to_f32 (to_f32 (-2 * sigma22W) * sigma12W)) in
    let f23 := fac * (to_f32 (to_f32 (-2 * sigma11W) * sigma12W)) in
    inr [ [f00; f01; f02; f03];
          [f01; f11; f12; f13];
          [f02; f12; f22; f23];
          [f03; f13; f23; f33] ].

(** [lsst::afw::image::positionToIndex]: the pixel a position falls in. *)
Definition positionToIndex (pos : float) : Z := floor_int (pos + 0.5).

(** The local variables of [getAdaptiveMoments] that live across
    iterations, together with the shape being filled in. *)
Record LoopState : Type := mkLoop {
  ls_shape : SdssShapeImpl;
  ls_I0 : float;
  ls_sums : Sums;
  ls_sigma11W : float; ls_sigma12W : float; ls_sigma22W : float;
  ls_w11 : float; ls_w12 : float; ls_w22 : float;
  ls_e1_old : float; ls_e2_old : float; ls_sigma11_ow_old : float;
  ls_interpflag : bool;
  ls_bbox : BoxI;
  ls_iter : Z
}.

(** How one pass through the loop body ends. *)
Inductive Control : Type := Break | Continue.

Section Workhorse.
Variable mimage : ImageT.
Variable bkgd xcen ycen shiftmax : float.
Variable maxIter : Z.
Variable tol1 tol2 : float.

Definition image : Image := getImage mimage.
Definition xcen0 : float := to_f32 xcen.
Definition ycen0 : float := to_f32 ycen.

(** The centroid update and the shift test. *)
Definition update_centroid (shape : SdssShapeImpl) (s : Sums) : SdssShapeImpl :=
  let shape := setX shape (sumx s / sum s) in
  let shape := setY shape (sumy s / sum s) in
  if gtb (fabs (getX shape - xcen0)) shiftmax || gtb (fabs (getY shape - ycen0)) shiftmax
  then setFlag shape SHIFT
  else shape.

(** The body of the iteration loop, up to the [break] or the end of the
    body; the loop's [iter++] is not part of it. *)
Definition iteration (st : LoopState) : LoopState * Control :=
  let sigma11W := ls_sigma11W st in
  let sigma12W := ls_sigma12W st in
  let sigma22W := ls_sigma22W st in
  let bbox := set_amom_bbox (imWidth image) (imHeight image) (to_f32 xcen) (to_f32 ycen)
                sigma11W sigma12W sigma22W default_maxRad in
  let weights := getWeights sigma11W sigma12W sigma22W true in
  if negb (w_ok weights) then
    (mkLoop (setFlag (ls_shape st) UNWEIGHTED) (ls_I0 st) (ls_sums st)
       sigma11W sigma12W sigma22W (ls_w11 st) (ls_w12 st) (ls_w22 st)
       (ls_e1_old st) (ls_e2_old st) (ls_sigma11_ow_old st)
       (ls_interpflag st) bbox (ls_iter st), Break)
  else
    let detW := w_det weights in
    let entering := shouldInterp sigma11W sigma22W detW && negb (ls_interpflag st) in
    let rewind := entering && (ls_iter st >? 0)%Z in
    let interpflag := ls_interpflag st || entering in
    let sigma11_ow_old := if rewind then 1e6 else ls_sigma11_ow_old st in
    let w11 := if rewind then ls_w11 st else w_11 weights in
    let w12 := if rewind then ls_w12 st else w_12 weights in
    let w22 := if rewind then ls_w22 st else w_22 weights in
    let iter := if rewind then (ls_iter st - 1)%Z else ls_iter st in
    let '(status, (I0, s)) :=
      calcmom false image (to_f32 xcen) (to_f32 ycen) bbox (to_f32 bkgd) interpflag
        w11 w12 w22 true true (ls_I0 st, ls_sums st) in
    if (status <? 0)%Z then
      (mkLoop (setFlag (ls_shape st) UNWEIGHTED) I0 s
         sigma11W sigma12W sigma22W w11 w12 w22
         (ls_e1_old st) (ls_e2_old st) sigma11_ow_old interpflag bbox iter, Break)
    else
      let shape := update_centroid (ls_shape st) s in
      let sigma11_ow := to_f32 (sumxx s / sum s) in
      let sigma22_ow := to_f32 (sumyy s / sum s) in
      let sigma12_ow := to_f32 (sumxy s / sum s) in
      if (sigma11_ow <=? 0) || (sigma22_ow <=? 0) then
        (mkLoop (setFlag shape UNWEIGHTED) I0 s
           sigma11W sigma12W sigma22W w11 w12 w22
           (ls_e1_old st) (ls_e2_old st) sigma11_ow_old interpflag bbox iter, Break)
      else
        let d := to_f32 (sigma11_ow + sigma22_ow) in
        let e1 := to_f32 (to_f32 (sigma11_ow - sigma22_ow) / d) in
        let e2 := to_f32 (2 * sigma12_ow / d) in
        if (iter >? 0)%Z
           && (fabs (to_f32 (e1 - ls_e1_old st)) <? tol1)
           && (fabs (to_f32 (e2 - ls_e2_old st)) <? tol1)
           && (fabs (to_f32 (sigma11_ow / sigma11_ow_old) - 1) <? tol2)
        then
          (mkLoop shape I0 s sigma11W sigma12W sigma22W w11 w12 w22
             (ls_e1_old st) (ls_e2_old st) sigma11_ow_old interpflag bbox iter, Break)
        else
          let weights := getWeights sigma11_ow sigma12_ow sigma22_ow true in
          if negb (w_ok weights) then
            (mkLoop (setFlag shape UNWEIGHTED) I0 s
               sigma11W sigma12W sigma22W w11 w12 w22
               e1 e2 sigma11_ow interpflag bbox iter, Break)
          else
            let ow11 := to_f32 (w_11 weights) in
            let ow12 := to_f32 (w_12 weights) in
            let ow22 := to_f32 (w_22 weights) in
            let n11 := to_f32 (ow11 - w11) in
            let n12 := to_f32 (ow12 - w12) in
            let n22 := to_f32 (ow22 - w22) in
            let weights := getWeights n11 n12 n22 false in
            if negb (w_ok weights) then
              (mkLoop (setFlag shape UNWEIGHTED) I0 s
                 sigma11W sigma12W sigma22W w11 w12 w22
                 e1 e2 sigma11_ow interpflag bbox iter, Break)
            else
              let sigma11W := w_11 weights in
              let sigma12W := w_12 weights in
              let sigma22W := w_22 weights in
              if (sigma11W <=? 0) || (sigma22W <=? 0) then
                (mkLoop (setFlag shape UNWEIGHTED) I0 s
                   sigma11W sigma12W sigma22W w11 w12 w22
                   e1 e2 sigma11_ow interpflag bbox iter, Break)
              else
                (mkLoop shape I0 s sigma11W sigma12W sigma22W w11 w12 w22
                   e1 e2 sigma11_ow interpflag bbox iter, Continue).

Definition next_iter (st : LoopState) : LoopState :=
  mkLoop (ls_shape st) (ls_I0 st) (ls_sums st)
    (ls_sigma11W st) (ls_sigma12W st) (ls_sigma22W st)
    (ls_w11 st) (ls_w12 st) (ls_w22 st)
    (ls_e1_old st) (ls_e2_old st) (ls_sigma11_ow_old st)
    (ls_interpflag st) (ls_bbox st) (ls_iter st + 1)%Z.

(** [for (; iter < maxIter; iter++) body]. [None] when the fuel runs out
    with the loop still running. *)
Fixpoint iterate (fuel : nat) (st : LoopState) : option LoopState :=
  if (ls_iter st <? maxIter)%Z then
    match fuel with
    | O => None
    | Datatypes.S k =>
        match iteration st with
        | (st', Break) => Some st'
        | (st', Continue) => iterate k (next_iter st')
        end
    end
  else Some st.

(** The body runs once per value of [iter], and once more when the switch
    to interpolation takes an iteration back. *)
Definition loop_fuel : nat := Datatypes.S (Z.to_nat maxIter).

(** The state in which the loop is entered. The sums have no initialiser in
    the source: [garbage] stands for what they hold. *)
Definition initial_state (shape : SdssShapeImpl) (garbage : Sums) : LoopState :=
  mkLoop shape 0 garbage 1.5 0 1.5 (-1) (-1) (-1) 1e6 1e6 1e6 false emptyBox 0%Z.

(** How a call ends: it returns a value, or an exception leaves it; the
    shape is the caller's object as the call left it. *)
Inductive Outcome : Type :=
| Returned (ok : bool) (shape : SdssShapeImpl)
| Raised (e : Exception) (shape : SdssShapeImpl).

(** The two tests that follow the loop: too many iterations, and no
    signal at all. *)
Definition after_loop_flags (st : LoopState) : SdssShapeImpl :=
  let shape := ls_shape st in
  let shape :=
    if (ls_iter st =? maxIter)%Z then setFlag (setFlag shape UNWEIGHTED) MAXITER else shape in
  if sumxx (ls_sums st) + sumyy (ls_sums st) =? 0 then setFlag shape UNWEIGHTED else shape.

(** The un-weighted moments: [calcmom] with all three weights zero and no
    pointer for the fourth-order sum. *)
Definition unweighted_moments (st : LoopState) : Z * (float * Sums) :=
  calcmom false image (to_f32 xcen) (to_f32 ycen) (ls_bbox st) (to_f32 bkgd)
    (ls_interpflag st) 0 0 0 true false (ls_I0 st, ls_sums st).

(** The end of the function: the amplitude, the three moments and the
    fourth-order moment are stored, and the covariance when the image has a
    positive variance at the centre. *)
Definition store (shape : SdssShapeImpl) (I0 : float) (s : Sums)
    (sigma11W sigma12W sigma22W : float) : Outcome :=
  let shape := setI0 shape I0 in
  let shape := setIxx shape sigma11W in
  let shape := setIxy shape sigma12W in
  let shape := setIyy shape sigma22W in
  let shape := setIxy4 shape (sums4 s / sum s) in
  if negb (getIxx shape + getIyy shape =? 0) then
    let ix := positionToIndex xcen in
    let iy := positionToIndex ycen in
    if ((ix >=? 0) && (ix <? imWidth image) && (iy >=? 0) && (iy <? imHeight image))%Z then
      let bkgd_var := to_f32 (getVariance mimage ix iy) in
      if gtb bkgd_var 0 then
        if negb (getFlag shape UNWEIGHTED) then
          match calc_fisher shape bkgd_var with
          | inl e => Raised e shape
          | inr fisher => Returned true (setCovar shape (inverse4 fisher))
          end
        else Returned true shape
      else Returned true shape
    else Returned true shape
  else Returned true shape.

(** What follows the loop. *)
Definition finish (st : LoopState) : Outcome :=
  let shape := after_loop_flags st in
  if getFlag shape UNWEIGHTED then
    let '(status, (I0, s)) := unweighted_moments st in
    if (status <? 0)%Z || (sum s <=? 0) then
      let shape := resetFlag shape UNWEIGHTED in
      let shape := setFlag shape UNWEIGHTED_BAD in
      let shape :=
        if gtb (sum s) 0 then setIyy (setIxy (setIxx shape (1 / 12)) 0) (1 / 12) else shape in
      Returned false shape
    else
      store shape I0 s (sumxx s / sum s) (sumxy s / sum s) (sumyy s / sum s)
  else
    store shape (ls_I0 st) (ls_sums st) (ls_sigma11W st) (ls_sigma12W st) (ls_sigma22W st).

(** Workhorse for adaptive moments. The branch for a loop that outlives
    its fuel is never taken ([getAdaptiveMoments_reaches_finish] below). *)
Definition getAdaptiveMoments (shape : SdssShapeImpl) (garbage : Sums) : Outcome :=
  if isnan xcen || isnan ycen then
    Returned false (setFlag shape UNWEIGHTED_BAD)
  else
    match iterate loop_fuel (initial_state shape garbage) with
    | Some st => finish st
    | None => Returned false shape
    end.
End Workhorse.

(** [SdssShapeControl]. *)
Record SdssShapeControl : Type := mkControl {
  background : float;
  maxIter : Z;
  maxShift : float;
  tol1 : float;
  tol2 : float
}.

(** The part of [SdssShapeResult] that [apply] fills in, and its flags in
    the order of [flagDefs]. *)
Record SdssShapeResult : Type := mkResult {
  x : float; y : float; xSigma : float; ySigma : float;
  xx : float; yy : float; xy : float;
  xxSigma : float; yySigma : float; xySigma : float;
  flags : Z
}.

Definition FAILURE : Z := 0.
Definition RESULT_UNWEIGHTED_BAD : Z := 1.
Definition RESULT_UNWEIGHTED : Z := 2.
Definition RESULT_SHIFT : Z := 3.
Definition RESULT_MAXITER : Z := 4.

Section Apply.
(** The default-constructed [SdssShapeImpl] and its error getters, all from
    the header that is not among the sources. *)
Variable defaultImpl : SdssShapeImpl.
Variable getXErr getYErr getIxxErr getIyyErr getIxyErr : SdssShapeImpl -> float.

(** The shape an outcome leaves in the caller's object. *)
Definition shapeOf (o : Outcome) : SdssShapeImpl :=
  match o with
  | Returned _ s => s
  | Raised _ s => s
  end.

(** [float shiftmax = control.maxShift], kept within [2, 10]. *)
Definition clampShift (maxShift : float) : float :=
  let shiftmax := to_f32 maxShift in
  if shiftmax <? 2 then 2 else if gtb shiftmax 10 then 10 else shiftmax.

(** The solver as [apply] calls it, on the default-constructed shape. *)
Definition solve (mimage : MaskedImage) (centerX centerY : float)
    (control : SdssShapeControl) (garbage : Sums) : Outcome :=
  let xcen := centerX - of_int (imX0 (getImagePlane mimage)) in
  let ycen := centerY - of_int (imY0 (getImagePlane mimage)) in
  getAdaptiveMoments (Masked mimage) (background control) xcen ycen
    (clampShift (maxShift control)) (maxIter control)
    (to_f32 (tol1 control)) (to_f32 (tol2 control)) defaultImpl garbage.

(** The loop that copies the flags of the SdssShapeImpl into the result. *)
Definition copyFlags (shapeImpl : SdssShapeImpl) (flags0 : Z) : Z :=
  for_range
    (fun n fl =>
       if getFlag shapeImpl n then Z.setbit (Z.setbit fl (n + 1)) FAILURE else fl)
    0%Z (N_FLAGS - 1)%Z flags0.

(** [SdssShapeAlgorithm::apply] on a MaskedImage. *)
Definition apply (mimage : MaskedImage) (centerX centerY : float)
    (control : SdssShapeControl) (garbage : Sums) : SdssShapeResult :=
  let outcome := solve mimage centerX centerY control garbage in
  let flags0 :=
    match outcome with
    | Raised _ _ => Z.setbit 0 FAILURE
    | Returned _ _ => 0%Z
    end in
  let shapeImpl := shapeOf outcome in
  mkResult
    (getX shapeImpl + of_int (imX0 (getImagePlane mimage)))
    (getY shapeImpl + of_int (imY0 (getImagePlane mimage)))
    (getXErr shapeImpl) (getYErr shapeImpl)
    (getIxx shapeImpl) (getIyy shapeImpl) (getIxy shapeImpl)
    (getIxxErr shapeImpl) (getIyyErr shapeImpl) (getIxyErr shapeImpl)
    (copyFlags shapeImpl flags0).
End Apply.

Section FixedMoments.
(** [SdssShapeImpl::getFluxScale] and [getI0Err], from the header that is
    not among the sources. *)
Variable getFluxScale getI0Err : SdssShapeImpl -> float.

(** [getFixedMomentsFlux]: the flux of an object and its error, with the
    Gaussian of [shape_] as the aperture, or the exception [calc_fisher]
    throws. The status of [calcmom] is not looked at, and the variance is
    read at the centre without a test of the bounds. The centre goes to
    [set_amom_bbox] in the parent frame and to [calcmom] in the frame of the
    image, so that the box does not keep the pixels near the centre as it
    does in [getAdaptiveMoments]. The result is [None] for a call in which a
    sub-pixel loop of [calcmom] is still running when its fuel is used
    up. *)
Definition getFixedMomentsFlux (image : ImageT) (bkgd xcen ycen : float)
    (shape_ : SdssShapeImpl) : option (Exception + (float * float)) :=
  let shape := shape_ in
  let im := getImage image in
  let bbox := set_amom_bbox (imWidth im) (imHeight im) (to_f32 xcen) (to_f32 ycen)
                (getIxx shape) (getIxy shape) (getIyy shape) default_maxRad in
  let weights := getWeights (getIxx shape) (getIxy shape) (getIyy shape) true in
  if negb (w_ok weights) then Some (inr (NaN, NaN))
  else
    let w11 := w_11 weights in
    let w12 := w_12 weights in
    let w22 := w_22 weights in
    let interp := shouldInterp (getIxx shape) (getIyy shape) (w_det weights) in
    if negb (calcmom_ends im (to_f32 (xcen - of_int (imX0 im)))
               (to_f32 (ycen - of_int (imY0 im))) bbox interp w11 w12 w22)
    then None
    else
      let I0 :=
        fst (snd (calcmom true im (to_f32 (xcen - of_int (imX0 im)))
                    (to_f32 (ycen - of_int (imY0 im))) bbox (to_f32 bkgd) interp
                    w11 w12 w22 false false (0, zeroSums))) in
      let shape := setI0 shape I0 in
      let ix := static_cast_int (xcen - of_int (imX0 im)) in
      let iy := static_cast_int (ycen - of_int (imY0 im)) in
      let bkgd_var := to_f32 (getVariance image ix iy) in
      match calc_fisher shape bkgd_var with
      | inl e => Some (inl e)
      | inr fisher =>
          let shape := setCovar shape (inverse4 fisher) in
          let scale := getFluxScale shape in
          Some (inr (getI0 shape * scale, getI0Err shape * scale))
      end.
End FixedMoments.
End Externals.
End SdssShape.

(** ** ApertureFlux.cc *)

Module ApertureFlux.
Import Ieee Geom Ellipses Images.
Local Open Scope float_scope.

(** The flags in the order they are added to [flagDefinitions]. *)
Definition FAILURE : Z := 0.
Definition APERTURE_TRUNCATED : Z := 1.
Definition SINC_COEFFS_TRUNCATED : Z := 2.

Record Result : Type := mkResult { instFlux : float; instFluxErr : float; resultFlags : Z }.

Definition getFlag (r : Result) (n : Z) : bool := Z.testbit (resultFlags r) n.
Definition setFlag (r : Result) (n : Z) : Result :=
  mkResult (instFlux r) (instFluxErr r) (Z.setbit (resultFlags r) n).
Definition setInstFlux (r : Result) (v : float) : Result :=
  mkResult v (instFluxErr r) (resultFlags r).
Definition setInstFluxErr (r : Result) (v : float) : Result :=
  mkResult (instFlux r) v (resultFlags r).

Record Control : Type := mkControl {
  radii : list float;
  maxSincRadius : float;
  shiftKernel : string
}.

(** A horizontal run of pixels of a pixel region. *)
Record Span : Type := mkSpan { getY : Z; getBeginX : Z; getWidth : Z }.

(** What [computeNaiveFlux] reads of a [PixelRegion]. *)
Record PixelRegion : Type := mkRegion { regionBBox : BoxI; spans : list Span }.

(** The pixels of a row from column [c], [n] of them, in order. *)
Definition row_pixels (px : Z -> Z -> float) (c r : Z) (n : Z) : list float :=
  map (fun k => px (c + Z.of_nat k)%Z r) (seq 0 (Z.to_nat n)).

(** [std::accumulate(first, first + n, 0.0)]. *)
Definition accumulate (vs : list float) : float := fold_left add vs 0.

(** The test the constructor of a view makes: the offset of the corner of
    [bbox] from the origin of the image must not be negative, and the offset
    plus the dimensions of [bbox] must not pass the dimensions of the image.
    An empty box is held to the same test, with the corner it has. *)
Definition boxFits (image : Image) (bbox : BoxI) : bool :=
  let offsetX := (getMinX bbox - imX0 image)%Z in
  let offsetY := (getMinY bbox - imY0 image)%Z in
  negb ((offsetX <? 0)%Z || (offsetY <? 0)%Z
        || (offsetX + Geom.getWidth bbox >? imWidth image)%Z
        || (offsetY + Geom.getHeight bbox >? imHeight image)%Z).

(** [Image(image, bbox)]: the view of [image] on [bbox], given in the parent
    frame. The constructor is afw's and is not among the sources; it throws a
    LengthError when [bbox] does not pass [boxFits]. The box that [clip]
    leaves when two boxes have no pixel in common is the empty box at
    (0, 0): it fits only in an image whose frame holds that corner. *)
Definition subImage (image : Image) (bbox : BoxI) : Exception + Image :=
  if boxFits image bbox then
    inr (mkImage (pixelType image) (Geom.getWidth bbox) (Geom.getHeight bbox)
           (getMinX bbox) (getMinY bbox)
           (fun c r => pixel image (c + getMinX bbox - imX0 image)%Z
                                   (r + getMinY bbox - imY0 image)%Z))
  else inl (LengthError "Box does not fit in the image").

(** [getArray()]: the pixels, row by row. *)
Definition getArray (px : Z -> Z -> float) (width height : Z) : list float :=
  flat_map (fun r => row_pixels px 0 (Z.of_nat r) width) (seq 0 (Z.to_nat height)).

(** The product of two arrays of pixel type [T], element by element. *)
Fixpoint times (ty : PixelType) (a b : list float) : list float :=
  match a, b with
  | u :: a', v :: b' => as_pixel ty (u * v) :: times ty a' b'
  | _, _ => []
  end.

Section Externals.
(** The value a default-constructed result holds in its two numbers. *)
Variable unset : float.
(** [SincCoeffs<T>::get(core, rInner)]. *)
Variable sincCoeffs : EllipseCore -> float -> Image.
(** [afw::math::offsetImage(image, dx, dy, kernelName)]. *)
Variable offsetImage : Image -> float -> float -> string -> Image.
(** [geom::Box2I(ellipse.computeBBox())]. *)
Variable ellipseBBox : Ellipse -> BoxI.
(** [PixelRegion(ellipse)]. *)
Variable pixelRegion : Ellipse -> PixelRegion.
(** [Axes(Quadrupole)]. *)
Variable quadrupoleToAxes : Quadrupole -> Axes.
(** Eigen's [sum()] of an array of pixel type [T]. *)
Variable arraySum : PixelType -> list float -> float.

(** Modelled from the spec: the default-constructed result, declared in a
    header that is not among the sources: no flag is set, and the two
    numbers hold a sentinel. *)
Definition defaultResult : Result := mkResult unset unset 0.

(** [Axes(ellipse.getCore())]. *)
Definition axesOf (core : EllipseCore) : Axes :=
  match core with
  | CoreAxes ax => ax
  | CoreQuadrupole q => quadrupoleToAxes q
  end.

(** Get the sinc coefficients, and handle the cases where the coefficient
    image has to be clipped to fit in the measurement image. [bbox] is the
    box of the measurement image; the result is the coefficient image and
    [result] with the flags set, or the exception the view of the clipped
    coefficients throws. *)
Definition getSincCoeffs (bbox : BoxI) (ellipse : Ellipse) (result : Result) (ctrl : Control)
    : Exception + (Image * Result) :=
  let cImage := sincCoeffs (getCore ellipse) 0 in
  let cImage := offsetImage cImage (getCenterX ellipse) (getCenterY ellipse) (shiftKernel ctrl) in
  if negb (contains bbox (getBBox cImage)) then
    let result := setFlag result SINC_COEFFS_TRUNCATED in
    let overlap := clip (getBBox cImage) bbox in
    let result :=
      if negb (contains overlap (ellipseBBox ellipse)) then
        setFlag (setFlag result APERTURE_TRUNCATED) FAILURE
      else result in
    match subImage cImage overlap with
    | inl e => inl e
    | inr clipped => inr (clipped, result)
    end
  else inr (cImage, result).

(** [computeSincFlux] on an Image. *)
Definition computeSincFlux_Image (image : Image) (ellipse : Ellipse) (ctrl : Control)
    : Exception + Result :=
  match getSincCoeffs (getBBox image) ellipse defaultResult ctrl with
  | inl e => inl e
  | inr (cImage, result) =>
      if getFlag result APERTURE_TRUNCATED then inr result
      else
        match subImage image (getBBox cImage) with
        | inl e => inl e
        | inr sub =>
            let T := pixelType image in
            inr (setInstFlux result
                   (arraySum T
                      (times T (getArray (pixel sub) (imWidth sub) (imHeight sub))
                               (getArray (pixel cImage) (imWidth cImage) (imHeight cImage)))))
        end
  end.

(** [computeSincFlux] on a MaskedImage. *)
Definition computeSincFlux_MaskedImage (image : MaskedImage) (ellipse : Ellipse) (ctrl : Control)
    : Exception + Result :=
  let im := getImagePlane image in
  match getSincCoeffs (getBBox im) ellipse defaultResult ctrl with
  | inl e => inl e
  | inr (cImage, result) =>
      if getFlag result APERTURE_TRUNCATED then inr result
      else
        match subImage im (getBBox cImage) with
        | inl e => inl e
        | inr sub =>
            let T := pixelType im in
            let box := getBBox cImage in
            let var := fun c r => variancePlane image (c + getMinX box - imX0 im)%Z
                                                      (r + getMinY box - imY0 im)%Z in
            let c := getArray (pixel cImage) (imWidth cImage) (imHeight cImage) in
            let result :=
              setInstFlux result
                (arraySum T (times T (getArray (pixel sub) (imWidth sub) (imHeight sub)) c)) in
            inr (setInstFluxErr result
                   (as_pixel T (sqrt (arraySum T
                            (times T (map (as_pixel T) (getArray var (imWidth sub) (imHeight sub)))
                                     (times T c c))))))
        end
  end.

(** The loop over the spans of [computeNaiveFlux]: each span adds the sum
    of its pixels to the running value. *)
Fixpoint sumSpans (px : Z -> Z -> float) (X0 Y0 : Z) (region : list Span) (acc : float) : float :=
  match region with
  | [] => acc
  | span :: rest =>
      sumSpans px X0 Y0 rest
        (acc + accumulate (row_pixels px (getBeginX span - X0) (getY span - Y0) (getWidth span)))
  end.

(** [computeNaiveFlux] on an Image. *)
Definition computeNaiveFlux_Image (image : Image) (ellipse : Ellipse) (ctrl : Control) : Result :=
  let result := defaultResult in
  let region := pixelRegion ellipse in
  if negb (contains (getBBox image) (regionBBox region)) then
    setFlag (setFlag result APERTURE_TRUNCATED) FAILURE
  else
    setInstFlux result (sumSpans (pixel image) (imX0 image) (imY0 image) (spans region) 0).

(** [computeNaiveFlux] on a MaskedImage. *)
Definition computeNaiveFlux_MaskedImage (image : MaskedImage) (ellipse : Ellipse) (ctrl : Control)
    : Result :=
  let im := getImagePlane image in
  let result := defaultResult in
  let region := pixelRegion ellipse in
  if negb (contains (getBBox im) (regionBBox region)) then
    setFlag (setFlag result APERTURE_TRUNCATED) FAILURE
  else
    let result := setInstFlux result (sumSpans (pixel im) (imX0 im) (imY0 im) (spans region) 0) in
    let result :=
      setInstFluxErr result (sumSpans (variancePlane image) (imX0 im) (imY0 im) (spans region) 0) in
    setInstFluxErr result (sqrt (instFluxErr result)).

(** [computeFlux] on an Image. *)
Definition computeFlux_Image (image : Image) (ellipse : Ellipse) (ctrl : Control)
    : Exception + Result :=
  if getB (axesOf (getCore ellipse)) <=? maxSincRadius ctrl
  then computeSincFlux_Image image ellipse ctrl
  else inr (computeNaiveFlux_Image image ellipse ctrl).

(** [computeFlux] on a MaskedImage. *)
Definition computeFlux_MaskedImage (image : MaskedImage) (ellipse : Ellipse) (ctrl : Control)
    : Exception + Result :=
  if getB (axesOf (getCore ellipse)) <=? maxSincRadius ctrl
  then computeSincFlux_MaskedImage image ellipse ctrl
  else inr (computeNaiveFlux_MaskedImage image ellipse ctrl).
End Externals.

(** [ApertureFluxControl::ApertureFluxControl()]. *)
Definition defaultControl : Control :=
  mkControl [3; 4.5; 6; 9; 12; 17; 25; 35; 50; 70] 10 "lanczos5".

(** A flag definition: its name and its number in the list. *)
Record FlagDefinition : Type := mkFlag { flagName : string; flagNumber : Z }.

(** [flagDefinitions], in the order the three flags are added. Modelled from
    the spec: the name of the failure flag, which [addFailureFlag] chooses
    in a header that is not among the sources, is the one the persisted
    field [prefix_flag] has. *)
Definition flagDefinitions : list FlagDefinition :=
  [ mkFlag "flag" FAILURE;
    mkFlag "flag_apertureTruncated" APERTURE_TRUNCATED;
    mkFlag "flag_sincCoeffsTruncated" SINC_COEFFS_TRUNCATED ].

(** [flag == ApertureFluxAlgorithm::SINC_COEFFS_TRUNCATED]. *)
Definition isSincCoeffsTruncated (flag : FlagDefinition) : bool :=
  String.eqb (flagName flag) "flag_sincCoeffsTruncated"
  && (flagNumber flag =? SINC_COEFFS_TRUNCATED)%Z.

(** [boost::replace_all_copy(s, from, to)] for a [from] and a [to] of one
    character each, the only way the source calls it. *)
Fixpoint replace_all_copy (s : string) (from to : Ascii.ascii) : string :=
  match s with
  | EmptyString => EmptyString
  | String c rest =>
      String (if Ascii.eqb c from then to else c) (replace_all_copy rest from to)
  end.

Section Fields.
(** The radius as [boost::format] prints it for [%.1f]. *)
Variable formatRadius : float -> string.

(** [ApertureFluxAlgorithm::makeFieldPrefix]. *)
Definition makeFieldPrefix (name : string) (radius : float) : string :=
  let prefix := (name ++ "_" ++ formatRadius radius)%string in
  replace_all_copy prefix "."%char "_"%char.

(** Modelled from the spec: the flag fields that [Keys::Keys] adds to the
    schema through [FlagHandler::addFields], which is not among the
    sources: one field [prefix_name] for each flag definition that is not
    in the exclusion list, in the order of the definitions. The exclusion
    list is empty for a sinc aperture and holds SINC_COEFFS_TRUNCATED
    otherwise. *)
Definition keysFlagFields (prefix : string) (isSinc : bool) : list string :=
  map (fun flag => (prefix ++ "_" ++ flagName flag)%string)
    (filter (fun flag => isSinc || negb (isSincCoeffsTruncated flag)) flagDefinitions).

(** The flag fields the constructor of [ApertureFluxAlgorithm] adds: those
    of one [Keys] for each radius, sinc when the radius is at most
    [maxSincRadius]. *)
Definition algorithmFlagFields (ctrl : Control) (name : string) : list string :=
  flat_map
    (fun radius =>
       keysFlagFields (makeFieldPrefix name radius) (radius <=? maxSincRadius ctrl))
    (radii ctrl).

(** The flag fields the constructor of [ApertureFluxTransform] looks up in
    the input schema and maps, in order. *)
Definition transformFlagFields (ctrl : Control) (name : string) : list string :=
  flat_map
    (fun radius =>
       flat_map
         (fun flag =>
            if gtb radius (maxSincRadius ctrl) && isSincCoeffsTruncated flag then []
            else [(makeFieldPrefix name radius ++ "_" ++ flagName flag)%string])
         flagDefinitions)
    (radii ctrl).
End Fields.
End ApertureFlux.

(** ** InputUtilities.cc *)

Module InputUtilities.
Import Ieee Ellipses.
Local Open Scope float_scope.

(** What [SafeShapeExtractor] reads of a source record and its table: the
    validity of the shape key and of the shape-flag key, the two slot
    values, and the flags of the calling algorithm, which it may set. *)
Record SourceRecord : Type := mkRecord {
  shapeKeyValid : bool;
  shapeFlagKeyValid : bool;
  getShape : Quadrupole;
  getShapeFlag : bool;
  algorithmFlags : Z
}.

(** A flag handler: the bit of the general failure flag. *)
Record FlagHandler : Type := mkHandler { getFailureFlagNumber : Z }.

(** [flags.setValue(record, n, true)]. *)
Definition setValue (record : SourceRecord) (n : Z) : SourceRecord :=
  mkRecord (shapeKeyValid record) (shapeFlagKeyValid record) (getShape record)
    (getShapeFlag record) (Z.setbit (algorithmFlags record) n).

(** [SafeShapeExtractor::operator()]: the shape, with the record as the
    call left it, or the exception thrown. *)
Definition SafeShapeExtractor_call (record : SourceRecord) (flags : FlagHandler)
    : Exception + (Quadrupole * SourceRecord) :=
  if negb (shapeKeyValid record) then
    inl (FatalAlgorithmError "requires a shape, but the shape slot is not defined")
  else
    let result := getShape record in
    if isnan (getIxx result) || isnan (getIyy result) || isnan (getIxy result)
       || (getIxx result * getIyy result <? (1 + 0x1.0c6f7a0b5ed8dp-20) * getIxy result * getIxy result)
    then
      if negb (shapeFlagKeyValid record) then
        inl (RuntimeError "Shape slot value is NaN, but there is no Shape slot flag")
      else if negb (getShapeFlag record) then
        inl (RuntimeError "Shape slot value is NaN, but the Shape slot flag is not set")
      else
        inl (MeasurementError "Shape needed, and Shape slot measurement failed."
               (getFailureFlagNumber flags))
    else if shapeFlagKeyValid record && getShapeFlag record then
      inr (result, setValue record (getFailureFlagNumber flags))
    else inr (result, record).

(** [geom::Point2D]. *)
Record Point2D : Type := mkPoint { getX : float; getY : float }.

(** A peak of a footprint and a footprint, as [extractPeak] reads them. *)
Record Peak : Type := mkPeak { getFx : float; getFy : float }.
Record Footprint : Type := mkFootprint { getPeaks : list Peak }.

(** What [SafeCentroidExtractor] reads of a source record and its table:
    the validity of the centroid key and of the centroid-flag key, the two
    slot values, the footprint if there is one, and the flags of the calling
    algorithm, which it may set. *)
Record CentroidRecord : Type := mkCentroidRecord {
  centroidKeyValid : bool;
  centroidFlagKeyValid : bool;
  getCentroid : Point2D;
  getCentroidFlag : bool;
  getFootprint : option Footprint;
  centroidAlgorithmFlags : Z
}.

(** [flags.setValue(record, n, true)] on such a record. *)
Definition setCentroidValue (record : CentroidRecord) (n : Z) : CentroidRecord :=
  mkCentroidRecord (centroidKeyValid record) (centroidFlagKeyValid record)
    (getCentroid record) (getCentroidFlag record) (getFootprint record)
    (Z.setbit (centroidAlgorithmFlags record) n).

(** [extractPeak]: the position of the first peak of the footprint. *)
Definition extractPeak (record : CentroidRecord) : Exception + Point2D :=
  match getFootprint record with
  | None =>
      inl (RuntimeError "Centroid slot value is NaN, but no Footprint attached to record")
  | Some footprint =>
      match getPeaks footprint with
      | [] => inl (RuntimeError "Centroid slot value is NaN, but Footprint has no Peaks")
      | peak :: _ => inr (mkPoint (getFx peak) (getFy peak))
      end
  end.

(** [SafeCentroidExtractor::operator()]: the centroid, with the record as
    the call left it, or the exception thrown. *)
Definition SafeCentroidExtractor_call (isCentroider : bool) (record : CentroidRecord)
    (flags : FlagHandler) : Exception + (Point2D * CentroidRecord) :=
  if negb (centroidKeyValid record) then
    if isCentroider then
      match extractPeak record with
      | inl e => inl e
      | inr peak => inr (peak, record)
      end
    else inl (FatalAlgorithmError "requires a centroid, but the centroid slot is not defined")
  else
    let result := getCentroid record in
    if isnan (getX result) || isnan (getY result) then
      if negb (centroidFlagKeyValid record) then
        if isCentroider then
          match extractPeak record with
          | inl e => inl e
          | inr peak => inr (peak, record)
          end
        else
          inl (RuntimeError "Centroid slot value is NaN, but there is no Centroid slot flag")
      else if negb (getCentroidFlag record) && negb isCentroider then
        inl (RuntimeError "Centroid slot value is NaN, but the Centroid slot flag is not set")
      else
        match extractPeak record with
        | inl e => inl e
        | inr peak =>
            if negb isCentroider then
              inr (peak, setCentroidValue record (getFailureFlagNumber flags))
            else inr (peak, record)
        end
    else if negb isCentroider && centroidFlagKeyValid record && getCentroidFlag record then
      inr (result, setCentroidValue record (getFailureFlagNumber flags))
    else inr (result, record).
End InputUtilities.

(** ** ScaledApertureFlux.cc *)

Module ScaledApertureFlux.
Import Ieee Geom Ellipses Images InputUtilities.
Local Open Scope float_scope.

(** [ScaledApertureFluxControl]. *)
Record Control : Type := mkControl { scale : float; shiftKernel : string }.

(** The record being measured: what the centroid extractor reads and sets,
    and the two numbers behind [_instFluxResultKey]. *)
Record MeasRecord : Type := mkMeasRecord {
  source : CentroidRecord;
  instFluxField : float;
  instFluxErrField : float
}.

(** How [measure] ends: it returns, or an exception leaves it; the record is
    the caller's as the call left it. *)
Inductive Ended : Type :=
| Done (record : MeasRecord)
| Thrown (e : Exception) (record : MeasRecord).

(** The flag handler of the algorithm, made of the flag definitions of
    [ApertureFluxAlgorithm]: its failure flag is FAILURE. *)
Definition flagHandler : FlagHandler := mkHandler ApertureFlux.FAILURE.

Section Externals.
(** The mode of [_centroidExtractor], which the constructor builds without
    the third argument: the default of a header that is not among the
    sources. *)
Variable isCentroider : bool.
(** [exposure.getPsf()->computeShape(center).getDeterminantRadius()]. *)
Variable psfRadius : Point2D -> float.
(** [std::log(2)]. *)
Variable log2 : float.
(** The collaborators of [ApertureFluxAlgorithm::computeSincFlux]. *)
Variable unset : float.
Variable sincCoeffs : EllipseCore -> float -> Image.
Variable offsetImage : Image -> float -> float -> string -> Image.
Variable ellipseBBox : Ellipse -> BoxI.
Variable arraySum : PixelType -> list float -> float.

(** The ellipse of the aperture: a circle, its radius the FWHM of the PSF at
    the centre times [ctrl.scale]. *)
Definition aperture (ctrl : Control) (center : Point2D) : Ellipse :=
  let radius := psfRadius center in
  let fwhm := 2 * sqrt (2 * log2) * radius in
  let size := scale ctrl * fwhm in
  mkEllipse (CoreAxes (mkAxes size size 0)) (getX center) (getY center).

(** The loop that sets in the record the flags the result has. *)
Definition copyFlags (result : ApertureFlux.Result) (record : CentroidRecord) : CentroidRecord :=
  fold_left
    (fun record flag =>
       if ApertureFlux.getFlag result (ApertureFlux.flagNumber flag)
       then setCentroidValue record (ApertureFlux.flagNumber flag)
       else record)
    ApertureFlux.flagDefinitions record.

(** [ScaledApertureFluxAlgorithm::measure]. *)
Definition measure (ctrl : Control) (measRecord : MeasRecord) (exposure : MaskedImage) : Ended :=
  match SafeCentroidExtractor_call isCentroider (source measRecord) flagHandler with
  | inl e => Thrown e measRecord
  | inr (center, src) =>
      let measRecord := mkMeasRecord src (instFluxField measRecord) (instFluxErrField measRecord) in
      let apCtrl :=
        ApertureFlux.mkControl (ApertureFlux.radii ApertureFlux.defaultControl)
          (ApertureFlux.maxSincRadius ApertureFlux.defaultControl) (shiftKernel ctrl) in
      match ApertureFlux.computeSincFlux_MaskedImage unset sincCoeffs offsetImage ellipseBBox
              arraySum exposure (aperture ctrl center) apCtrl with
      | inl e => Thrown e measRecord
      | inr result =>
          Done (mkMeasRecord (copyFlags result src)
                  (ApertureFlux.instFlux result) (ApertureFlux.instFluxErr result))
      end
  end.
End Externals.
End ScaledApertureFlux.

(** ** SdssShape.cc: the record *)

Module SdssShapeAlgorithm.
Import Ieee Images InputUtilities SdssShape.
Local Open Scope float_scope.

(** [SdssShapeAlgorithm::N_FLAGS]: the length of [flagDefs]. *)
Definition N_FLAGS : Z := 5.

(** The record being measured: what the centroid extractor reads and sets,
    whose flags are the flag fields of the algorithm in the order of
    [flagDefs], and the numbers behind [_resultKey], kept as the result
    they were written from. *)
Record MeasRecord : Type := mkMeasRecord {
  source : CentroidRecord;
  numbers : SdssShapeResult
}.

(** How [measure] ends: it returns, or an exception leaves it; the record is
    the caller's as the call left it. *)
Inductive Ended : Type :=
| Done (record : MeasRecord)
| Thrown (e : Exception) (record : MeasRecord).

(** [_flagHandler.setValue(record, n, value)] and
    [_flagHandler.getValue(record, n)]. *)
Definition setFlagValue (record : CentroidRecord) (n : Z) (value : bool) : CentroidRecord :=
  mkCentroidRecord (centroidKeyValid record) (centroidFlagKeyValid record)
    (getCentroid record) (getCentroidFlag record) (getFootprint record)
    (if value then Z.setbit (centroidAlgorithmFlags record) n
     else Z.clearbit (centroidAlgorithmFlags record) n).

Definition getFlagValue (record : CentroidRecord) (n : Z) : bool :=
  Z.testbit (centroidAlgorithmFlags record) n.

(** [SdssShapeResultKey::set]: the numbers, then the flags one by one. *)
Definition SdssShapeResultKey_set (record : MeasRecord) (value : SdssShapeResult) : MeasRecord :=
  mkMeasRecord
    (for_range (fun n src => setFlagValue src n (Z.testbit (flags value) n))
       0%Z (N_FLAGS - 1)%Z (source record))
    value.

(** [SdssShapeResultKey::get]: the numbers, then the flags one by one into
    a result that starts with none set. *)
Definition SdssShapeResultKey_get (record : MeasRecord) : SdssShapeResult :=
  let value := numbers record in
  mkResult (x value) (y value) (xSigma value) (ySigma value)
    (xx value) (yy value) (xy value) (xxSigma value) (yySigma value) (xySigma value)
    (for_range
       (fun n fl => if getFlagValue (source record) n then Z.setbit fl n else Z.clearbit fl n)
       0%Z (N_FLAGS - 1)%Z 0%Z).

(** The flag handler of the result key: its failure flag is the first of
    [flagDefs]. *)
Definition flagHandler : FlagHandler := mkHandler FAILURE.

Section Externals.
(** The mode of [_centroidExtractor], which the constructor builds without
    the third argument: the default of a header that is not among the
    sources. *)
Variable isCentroider : bool.
Variable approxExp : float -> float.
Variable pow : float -> float -> float.
Variable quadrupoleToAxes : Ellipses.Quadrupole -> Ellipses.Axes.
Variable axesToQuadrupole : Ellipses.Axes -> Ellipses.Quadrupole.
Variable inverse2 : Ellipses.Matrix2 -> Ellipses.Matrix2.
Variable inverse4 : Matrix4 -> Matrix4.
Variable defaultImpl : SdssShapeImpl.
Variable getXErr getYErr getIxxErr getIyyErr getIxyErr : SdssShapeImpl -> float.

(** [SdssShapeAlgorithm::measure]; [garbage] stands for what the sums of
    the solver hold before they are first written. *)
Definition measure (ctrl : SdssShapeControl) (measRecord : MeasRecord)
    (exposure : MaskedImage) (garbage : Sums) : Ended :=
  match getFootprint (source measRecord) with
  | None => Thrown (RuntimeError "No Footprint attached to SourceRecord") measRecord
  | Some _ =>
      match SafeCentroidExtractor_call isCentroider (source measRecord) flagHandler with
      | inl e => Thrown e measRecord
      | inr (center, src) =>
          let result :=
            apply approxExp pow quadrupoleToAxes axesToQuadrupole inverse2 inverse4
              defaultImpl getXErr getYErr getIxxErr getIyyErr getIxyErr
              exposure (InputUtilities.getX center) (InputUtilities.getY center) ctrl garbage in
          Done (SdssShapeResultKey_set (mkMeasRecord src (numbers measRecord)) result)
      end
  end.
End Externals.
End SdssShapeAlgorithm.

(** ** Concrete inputs

    Stand-ins for the outside collaborators and a few small images, on
    which the models are run. *)

Module Demo.
Import Ieee Geom Ellipses Images.
Local Open Scope float_scope.

Fixpoint squarings (n : nat) (v : float) : float :=
  match n with
  | O => v
  | S k => squarings k (v * v)
  end.

(** An approximation of the exponential: [(1 + x/1024)^1024]. *)
Definition demoExp (x : float) : float := squarings 10 (1 + x / 1024).

(** [pow(x, 2)]; no other exponent is asked for. *)
Definition demoPow (x y : float) : float := if y =? 2 then x * x else nan.

(** Circles only: the two conversions for an ellipse without ellipticity. *)
Definition demoQuadrupoleToAxes (q : Quadrupole) : Axes :=
  mkAxes (sqrt (Ellipses.getIxx q)) (sqrt (Ellipses.getIyy q)) 0.
Definition demoAxesToQuadrupole (a : Axes) : Quadrupole :=
  mkQuadrupole (getA a * getA a) (getB a * getB a) 0.

(** The inverse of a diagonal 2x2 matrix. *)
Definition demoInverse2 (m : Matrix2) : Matrix2 :=
  mkMatrix2 (1 / m00 m) 0 0 (1 / m11 m).

(** No run below reaches the covariance. *)
Definition demoInverse4 (m : SdssShape.Matrix4) : SdssShape.Matrix4 := m.

(** Pixels given row by row, zero outside. *)
Definition rows_pixel (rows : list (list float)) (c r : Z) : float :=
  nth (Z.to_nat c) (nth (Z.to_nat r) rows []) 0.

(** A fresh shape: every number NaN, no flag set. *)
Definition nanShape : SdssShape.SdssShapeImpl :=
  SdssShape.mkImpl nan nan nan nan nan nan nan [] 0.

Definition noErr (s : SdssShape.SdssShapeImpl) : float := nan.

Definition zeroGarbage : SdssShape.Sums := SdssShape.zeroSums.

(** The default tolerances, as [float]s. *)
Definition tol1 : float := to_f32 0x1.4f8b588e368f1p-17.
Definition tol2 : float := to_f32 0x1.a36e2eb1c432dp-14.

(** A 3x3 image with pixels of both signs: positive on one diagonal,
    negative on the other. *)
Definition crossImage : Image :=
  mkImage PixDouble 3 3 0 0 (rows_pixel [[4; 0; -3]; [0; 8; 0]; [-3; 0; 4]]).

(** A 15x15 image of a round Gaussian of variance 2 centred on (7, 7). *)
Definition gaussImage : Image :=
  mkImage PixDouble 15 15 0 0
    (fun c r =>
       let dx := of_int (c - 7) in
       let dy := of_int (r - 7) in
       1000 * demoExp (- (dx * dx + dy * dy) / 4)).

(** A 15x15 image, zero but for one pixel at (7, 7). *)
Definition dotImage : Image :=
  mkImage PixDouble 15 15 0 0 (fun c r => if ((c =? 7) && (r =? 7))%Z then 100 else 0).

(** [getAdaptiveMoments] with the stand-ins, 100 iterations at most and the
    default tolerances, on a fresh shape. *)
Definition solveDemo (mimage : SdssShape.ImageT) (xcen ycen shiftmax : float) : SdssShape.Outcome :=
  SdssShape.getAdaptiveMoments demoExp demoPow demoQuadrupoleToAxes demoAxesToQuadrupole
    demoInverse2 demoInverse4 mimage 0 xcen ycen shiftmax 100 tol1 tol2 nanShape zeroGarbage.

(** The state the loop ends in, for the same call. *)
Definition loopDemo (mimage : SdssShape.ImageT) (xcen ycen shiftmax : float)
    : option SdssShape.LoopState :=
  SdssShape.iterate demoExp demoPow demoQuadrupoleToAxes demoAxesToQuadrupole demoInverse2
    mimage 0 xcen ycen shiftmax 100 tol1 tol2 (SdssShape.loop_fuel 100)
    (SdssShape.initial_state nanShape zeroGarbage).

(** The un-weighted pass from a loop state, for the same call. *)
Definition unweightedDemo (mimage : SdssShape.ImageT) (xcen ycen : float)
    (st : SdssShape.LoopState) : Z * (float * SdssShape.Sums) :=
  SdssShape.unweighted_moments demoExp demoPow demoQuadrupoleToAxes demoAxesToQuadrupole
    demoInverse2 mimage 0 xcen ycen st.



(** The stand-ins for the aperture fluxes: a 5x5 coefficient image of
    quarters around the origin, moved by whole pixels; a 3x3 aperture. *)
Definition demoCoeffs (core : EllipseCore) (rInner : float) : Image :=
  mkImage PixDouble 5 5 (-2) (-2) (fun _ _ => 0.25).
Definition demoOffset (im : Image) (dx dy : float) (kernel : string) : Image :=
  mkImage (pixelType im) (imWidth im) (imHeight im)
    (imX0 im + floor_int (dx + 0.5)) (imY0 im + floor_int (dy + 0.5)) (pixel im).
Definition demoEllipseBBox (e : Ellipse) : BoxI :=
  mkBoxI (floor_int (getCenterX e + 0.5) - 1) (floor_int (getCenterY e + 0.5) - 1) 3 3.
Definition demoPixelRegion (e : Ellipse) : ApertureFlux.PixelRegion :=
  let cx := floor_int (getCenterX e + 0.5) in
  let cy := floor_int (getCenterY e + 0.5) in
  ApertureFlux.mkRegion (demoEllipseBBox e)
    [ ApertureFlux.mkSpan (cy - 1) (cx - 1) 3;
      ApertureFlux.mkSpan cy (cx - 1) 3;
      ApertureFlux.mkSpan (cy + 1) (cx - 1) 3 ].
Definition demoArraySum (ty : PixelType) (vs : list float) : float := fold_left add vs 0.

Definition demoAperture : ApertureFlux.Control :=
  ApertureFlux.mkControl [3] 10 "lanczos5".

(** An 8x8 image of ones, with a variance plane of the given value. *)
Definition onesImage : Image := mkImage PixDouble 8 8 0 0 (fun _ _ => 1).
Definition onesMasked (v : float) : MaskedImage := mkMaskedImage onesImage (fun _ _ => v).

Definition circle (cx cy r : float) : Ellipse := mkEllipse (CoreAxes (mkAxes r r 0)) cx cy.

(** An 8x8 MaskedImage whose pixel in column [c] and row [r] holds
    [c + 10 r], with the variance [1 + c] there; and 5x5 coefficients around
    the origin, the one in column [c] and row [r] holding [(1 + c + 5 r)/4]. *)
Definition rampImage : Image := mkImage PixDouble 8 8 0 0 (fun c r => of_int (c + 10 * r)).
Definition rampMasked : MaskedImage := mkMaskedImage rampImage (fun c r => of_int (1 + c)).
Definition rampCoeffs (core : EllipseCore) (rInner : float) : Image :=
  mkImage PixDouble 5 5 (-2) (-2) (fun c r => of_int (1 + c + 5 * r) / 4).

(** Whether a position is inside a [w] by [h] image. *)
Definition inBounds (w h c r : Z) : bool := ((0 <=? c) && (c <? w) && (0 <=? r) && (r <? h))%Z.

(** The image with one bright pixel again, holding 7 where it has no
    pixel. *)
Definition paddedDotImage : Image :=
  mkImage PixDouble 15 15 0 0 (fun c r => if inBounds 15 15 c r then pixel dotImage c r else 7).

(** The 8x8 MaskedImage of ones with a variance of 4, holding -1 in both
    planes where it has no pixel. *)
Definition paddedOnesMasked : MaskedImage :=
  mkMaskedImage (mkImage PixDouble 8 8 0 0 (fun c r => if inBounds 8 8 c r then 1 else -1))
    (fun c r => if inBounds 8 8 c r then 4 else -1).

(** The print of the default radii with one decimal. *)
Definition demoFormatRadius (radius : float) : string :=
  if radius =? 3 then "3.0" else if radius =? 4.5 then "4.5"
  else if radius =? 6 then "6.0" else if radius =? 9 then "9.0"
  else if radius =? 12 then "12.0" else if radius =? 17 then "17.0"
  else if radius =? 25 then "25.0" else if radius =? 35 then "35.0"
  else if radius =? 50 then "50.0" else "70.0".

(** A footprint with two peaks; a record whose centroid slot holds a NaN
    and is flagged; a record whose shape slot holds a round shape and is
    flagged. *)
Definition demoFootprint : InputUtilities.Footprint :=
  InputUtilities.mkFootprint [InputUtilities.mkPeak 3 4; InputUtilities.mkPeak 8 9].
Definition flaggedNanRecord : InputUtilities.CentroidRecord :=
  InputUtilities.mkCentroidRecord true true (InputUtilities.mkPoint nan 5) true
    (Some demoFootprint) 0.
Definition flaggedShapeRecord : InputUtilities.SourceRecord :=
  InputUtilities.mkRecord true true (mkQuadrupole 2 2 1) true 0.

(** A control with a NaN for the largest shift. *)
Definition nanShiftControl : SdssShape.SdssShapeControl :=
  SdssShape.mkControl 0 100 nan tol1 tol2.

(** A round shape of amplitude 1 and moments (2, 2, 0). *)
Definition roundShape : SdssShape.SdssShapeImpl :=
  SdssShape.mkImpl 1 7 7 2 0 2 0 [] 0.

(** A shape narrow enough to be interpolated, with moments (1/8, 1/8, 0);
    a shape as narrow in x and very long in y; and the 8x8 MaskedImage of
    ones with its origin five million rows below that of the parent frame. *)
Definition thinShape : SdssShape.SdssShapeImpl :=
  SdssShape.mkImpl 1 4 4 0.125 0 0.125 0 [] 0.
Definition tallShape : SdssShape.SdssShapeImpl :=
  SdssShape.mkImpl 1 4 4 0.125 0 1e13 0 [] 0.
Definition farMasked : MaskedImage :=
  mkMaskedImage (mkImage PixDouble 8 8 0 (-5000000) (fun _ _ => 1)) (fun _ _ => 1).

(** A record whose centroid slot holds (100, 100), far off the 8x8 images,
    and is flagged. *)
Definition offImageRecord : InputUtilities.CentroidRecord :=
  InputUtilities.mkCentroidRecord true true (InputUtilities.mkPoint 100 100) true None 0.

(** [ScaledApertureFluxAlgorithm::measure] with the stand-ins, for a
    consumer of centroids, a PSF of radius 1 everywhere and a scale
    of 1. *)
Definition measureDemo (record : ScaledApertureFlux.MeasRecord) (exposure : MaskedImage)
    : ScaledApertureFlux.Ended :=
  ScaledApertureFlux.measure false (fun _ => 1) 0x1.62e42fefa39efp-1 nan rampCoeffs demoOffset
    demoEllipseBBox demoArraySum (ScaledApertureFlux.mkControl 1 "lanczos5") record exposure.

(** [computeFlux] with the stand-ins, on the ramp. *)
Definition rampFlux (ellipse : Ellipse) : Exception + ApertureFlux.Result :=
  ApertureFlux.computeFlux_Image nan rampCoeffs demoOffset demoEllipseBBox demoPixelRegion
    demoQuadrupoleToAxes demoArraySum rampImage ellipse demoAperture.
Definition rampFluxMasked (ellipse : Ellipse) : Exception + ApertureFlux.Result :=
  ApertureFlux.computeFlux_MaskedImage nan rampCoeffs demoOffset demoEllipseBBox
    demoPixelRegion demoQuadrupoleToAxes demoArraySum rampMasked ellipse demoAperture.

(** [getFixedMomentsFlux] with the stand-ins. *)
Definition fixedFluxDemo (mimage : MaskedImage) (xcen ycen : float)
    (shape : SdssShape.SdssShapeImpl) : option (Exception + (float * float)) :=
  SdssShape.getFixedMomentsFlux demoExp demoPow demoQuadrupoleToAxes demoAxesToQuadrupole
    demoInverse2 demoInverse4 noErr noErr (SdssShape.Masked mimage) 0 xcen ycen shape.
End Demo.

(** ** Statements

    The predicates the properties below are stated with. *)

Module Statements.
Import Ieee SdssShape.
Local Open Scope float_scope.

(** The test both branches of [getWeights] apply to the determinant. *)
Definition det_too_small (sigma11 sigma12 sigma22 : float) : bool :=
  let det := sigma11 * sigma22 - sigma12 * sigma12 in
  isnan det || (det <? float_epsilon).

(** The inequality between the stored moments, with the slack of one float
    epsilon: Ixx*Iyy >= Ixy^2 - epsilon. *)
Definition psd_eps (ixx iyy ixy : float) : bool :=
  geb (ixx * iyy) (ixy * ixy - float_epsilon).

(** What is left of the loop: the values of [iter] still to come, and one
    more pass while interpolation has not been switched on. *)
Definition passes_left (maxIter : Z) (st : LoopState) : nat :=
  (Z.to_nat (maxIter - ls_iter st) + (if ls_interpflag st then 0 else 1))%nat.

(** The test of the shift of the centroid, as [update_centroid] makes it. *)
Definition shift_exceeds (xcen ycen shiftmax : float) (s : Sums) : bool :=
  gtb (fabs (sumx s / sum s - xcen0 xcen)) shiftmax
  || gtb (fabs (sumy s / sum s - ycen0 ycen)) shiftmax.

(** The sums a pass of the loop computes from the state [st] it starts in,
    when it comes as far as the centroid update; [None] when the pass ends
    before it: the weights are not usable, or [calcmom] finds no signal. *)
Definition pass_moments (approxExp : float -> float) (pow : float -> float -> float)
    (quadrupoleToAxes : Ellipses.Quadrupole -> Ellipses.Axes)
    (axesToQuadrupole : Ellipses.Axes -> Ellipses.Quadrupole)
    (inverse2 : Ellipses.Matrix2 -> Ellipses.Matrix2) (mimage : ImageT)
    (bkgd xcen ycen : float) (st : LoopState) : option Sums :=
  let im := getImage mimage in
  let bbox := set_amom_bbox (Images.imWidth im) (Images.imHeight im) (to_f32 xcen)
                (to_f32 ycen) (ls_sigma11W st) (ls_sigma12W st) (ls_sigma22W st)
                default_maxRad in
  let weights := getWeights pow quadrupoleToAxes axesToQuadrupole inverse2
                   (ls_sigma11W st) (ls_sigma12W st) (ls_sigma22W st) true in
  if w_ok weights then
    let entering :=
      shouldInterp (ls_sigma11W st) (ls_sigma22W st) (w_det weights)
      && negb (ls_interpflag st) in
    let rewind := entering && (ls_iter st >? 0)%Z in
    let w11 := if rewind then ls_w11 st else w_11 weights in
    let w12 := if rewind then ls_w12 st else w_12 weights in
    let w22 := if rewind then ls_w22 st else w_22 weights in
    let '(status, (_, s)) :=
      calcmom approxExp pow quadrupoleToAxes axesToQuadrupole inverse2 false im
        (to_f32 xcen) (to_f32 ycen) bbox (to_f32 bkgd) (ls_interpflag st || entering)
        w11 w12 w22 true true (ls_I0 st, ls_sums st) in
    if (status <? 0)%Z then None else Some s
  else None.

(** The states in which the body of [for (; iter < maxIter; iter++)] is
    entered in a run that starts in [st0]: [st0] itself, and the state a pass
    leaves when it ends without a [break], after [iter++]; each time while
    [iter < maxIter]. *)
Inductive enters (body : LoopState -> LoopState * Control) (maxIter : Z) (st0 : LoopState)
    : LoopState -> Prop :=
| enters_first : (ls_iter st0 < maxIter)%Z -> enters body maxIter st0 st0
| enters_next (st st' : LoopState) :
    enters body maxIter st0 st ->
    body st = (st', Continue) ->
    (ls_iter (next_iter st') < maxIter)%Z ->
    enters body maxIter st0 (next_iter st').

(** A shape, a loop state and an outcome with the SHIFT flag put out of
    sight: two of them agree but for SHIFT when these are equal. *)
Definition forget_shift (s : SdssShapeImpl) : SdssShapeImpl :=
  withFlags s (Z.clearbit (getFlags s) SHIFT).

Definition forget_shift_state (st : LoopState) : LoopState :=
  mkLoop (forget_shift (ls_shape st)) (ls_I0 st) (ls_sums st)
    (ls_sigma11W st) (ls_sigma12W st) (ls_sigma22W st)
    (ls_w11 st) (ls_w12 st) (ls_w22 st)
    (ls_e1_old st) (ls_e2_old st) (ls_sigma11_ow_old st)
    (ls_interpflag st) (ls_bbox st) (ls_iter st).

Definition forget_shift_outcome (o : Outcome) : Outcome :=
  match o with
  | Returned ok s => Returned ok (forget_shift s)
  | Raised e s => Raised e (forget_shift s)
  end.
(** The pixels of an image plane inside a box of the parent frame, row by
    row; [X0] and [Y0] are the origin of the plane. *)
Definition window (px : Z -> Z -> float) (X0 Y0 : Z) (box : Geom.BoxI) : list float :=
  ApertureFlux.getArray
    (fun c r => px (c + Geom.getMinX box - X0)%Z (r + Geom.getMinY box - Y0)%Z)
    (Geom.getWidth box) (Geom.getHeight box).

(** The products of two arrays of pixel type [T], element by element, up to
    the end of the shorter one. *)
Definition products (ty : Images.PixelType) (a b : list float) : list float :=
  map (fun uv => Images.as_pixel ty (fst uv * snd uv)) (combine a b).

(** The sum of the pixels of one span. *)
Definition spanTotal (px : Z -> Z -> float) (X0 Y0 : Z) (span : ApertureFlux.Span) : float :=
  ApertureFlux.accumulate
    (ApertureFlux.row_pixels px (ApertureFlux.getBeginX span - X0) (ApertureFlux.getY span - Y0)
       (ApertureFlux.getWidth span)).

(** The sum over all spans: the totals of the spans, added up in order. *)
Definition regionTotal (px : Z -> Z -> float) (X0 Y0 : Z) (region : list ApertureFlux.Span)
    : float :=
  fold_left add (map (spanTotal px X0 Y0) region) 0.

(** The coefficient image of an ellipse, moved to its centre. *)
Definition shiftedCoeffs (sincCoeffs : Ellipses.EllipseCore -> float -> Images.Image)
    (offsetImage : Images.Image -> float -> float -> string -> Images.Image)
    (ellipse : Ellipses.Ellipse) (ctrl : ApertureFlux.Control) : Images.Image :=
  offsetImage (sincCoeffs (Ellipses.getCore ellipse) 0)
    (Ellipses.getCenterX ellipse) (Ellipses.getCenterY ellipse) (ApertureFlux.shiftKernel ctrl).

(** The test [SafeShapeExtractor] applies to the slot value. *)
Definition fails_shape_test (q : Ellipses.Quadrupole) : bool :=
  isnan (Ellipses.getIxx q) || isnan (Ellipses.getIyy q) || isnan (Ellipses.getIxy q)
  || (Ellipses.getIxx q * Ellipses.getIyy q
      <? (1 + 0x1.0c6f7a0b5ed8dp-20) * Ellipses.getIxy q * Ellipses.getIxy q).

(** Two images of the same pixel type and size whose pixels agree inside
    their bounds. *)
Definition same_pixels_inside (a b : Images.Image) : Prop :=
  Images.pixelType a = Images.pixelType b
  /\ Images.imWidth a = Images.imWidth b /\ Images.imHeight a = Images.imHeight b
  /\ forall c r : Z,
      (0 <= c < Images.imWidth a)%Z -> (0 <= r < Images.imHeight a)%Z ->
      Images.pixel a c r = Images.pixel b c r.

(** The same for the argument of the solver: two Images, or two
    MaskedImages whose variance planes agree inside the bounds as well. *)
Definition same_inside (a b : ImageT) : Prop :=
  match a, b with
  | Plain ia, Plain ib => same_pixels_inside ia ib
  | Masked ma, Masked mb =>
      same_pixels_inside (Images.getImagePlane ma) (Images.getImagePlane mb)
      /\ forall c r : Z,
          (0 <= c < Images.imWidth (Images.getImagePlane ma))%Z ->
          (0 <= r < Images.imHeight (Images.getImagePlane ma))%Z ->
          Images.variancePlane ma c r = Images.variancePlane mb c r
  | _, _ => False
  end.

(** An image, a MaskedImage, a box, a span and a pixel region moved by
    [(dx, dy)] in the parent frame; the pixels stay what they are. *)
Definition translate_image (dx dy : Z) (im : Images.Image) : Images.Image :=
  Images.mkImage (Images.pixelType im) (Images.imWidth im) (Images.imHeight im)
    (Images.imX0 im + dx) (Images.imY0 im + dy) (Images.pixel im).

Definition translate_masked (dx dy : Z) (mi : Images.MaskedImage) : Images.MaskedImage :=
  Images.mkMaskedImage (translate_image dx dy (Images.getImagePlane mi))
    (Images.variancePlane mi).

Definition translate_box (dx dy : Z) (b : Geom.BoxI) : Geom.BoxI :=
  Geom.mkBoxI (Geom.minX b + dx) (Geom.minY b + dy) (Geom.dimX b) (Geom.dimY b).

Definition translate_span (dx dy : Z) (s : ApertureFlux.Span) : ApertureFlux.Span :=
  ApertureFlux.mkSpan (ApertureFlux.getY s + dy) (ApertureFlux.getBeginX s + dx)
    (ApertureFlux.getWidth s).

Definition translate_region (dx dy : Z) (r : ApertureFlux.PixelRegion)
    : ApertureFlux.PixelRegion :=
  ApertureFlux.mkRegion (translate_box dx dy (ApertureFlux.regionBBox r))
    (map (translate_span dx dy) (ApertureFlux.spans r)).

(** A span that lies in a box. *)
Definition span_inside (box : Geom.BoxI) (s : ApertureFlux.Span) : Prop :=
  (Geom.getMinY box <= ApertureFlux.getY s <= Geom.getMaxY box
   /\ Geom.getMinX box <= ApertureFlux.getBeginX s
   /\ ApertureFlux.getBeginX s + ApertureFlux.getWidth s - 1 <= Geom.getMaxX box)%Z.
End Statements.

(** * Properties *)

(** ** Bits of a flag set *)

Lemma testbit_setbit (a n m : Z) :
  (0 <= n)%Z -> Z.testbit (Z.setbit a n) m = (n =? m)%Z || Z.testbit a m.
Proof.
  intros Hn. rewrite Z.setbit_eqb by assumption. reflexivity.
Qed.

Lemma testbit_clearbit (a n m : Z) :
  (0 <= n)%Z -> Z.testbit (Z.clearbit a n) m = Z.testbit a m && negb (n =? m)%Z.
Proof.
  intros Hn. rewrite Z.clearbit_eqb by assumption. reflexivity.
Qed.

(** ** Comparisons of floats *)

Lemma float_gt_zero_not_le (v : float) :
  Ieee.gtb v 0 = true -> (v <=? 0)%float = false.
Proof.
  unfold Ieee.gtb. rewrite ltb_spec, leb_spec.
  change (Prim2SF 0) with (S754_zero false).
  destruct (Prim2SF v) as [s|s| |s m e]; try destruct s; cbn; congruence.
Qed.

(** ** getWeights *)

Section GetWeightsFacts.
Import Ieee Ellipses SdssShape Statements.
Local Open Scope float_scope.

Variable pow : float -> float -> float.
Variable quadrupoleToAxes : Quadrupole -> Axes.
Variable axesToQuadrupole : Axes -> Quadrupole.
Variable inverse2 : Matrix2 -> Matrix2.

Local Abbreviation weightsOf := (getWeights pow quadrupoleToAxes axesToQuadrupole inverse2).

(** A small (or NaN) determinant ends in the first failure return, whatever
    [careful] says: the branch that inflates the axes is never entered. *)
Lemma getWeights_small_det (sigma11 sigma12 sigma22 : float) (careful : bool) :
  det_too_small sigma11 sigma12 sigma22 = true ->
  weightsOf sigma11 sigma12 sigma22 careful = mkWeights false NaN NaN NaN NaN.
Proof.
  unfold det_too_small, getWeights. intros Hdet.
  destruct (isnan sigma11 || isnan sigma12 || isnan sigma22); [reflexivity|].
  cbv zeta. rewrite Hdet. reflexivity.
Qed.

(** A success is the plain inverse, and its determinant passed the test. *)
Lemma getWeights_ok (sigma11 sigma12 sigma22 : float) (careful : bool) :
  w_ok (weightsOf sigma11 sigma12 sigma22 careful) = true ->
  det_too_small sigma11 sigma12 sigma22 = false
  /\ weightsOf sigma11 sigma12 sigma22 careful
     = let det := sigma11 * sigma22 - sigma12 * sigma12 in
       mkWeights true det (sigma22 / det) (- sigma12 / det) (sigma11 / det).
Proof.
  unfold det_too_small, getWeights.
  destruct (isnan sigma11 || isnan sigma12 || isnan sigma22); [discriminate|].
  cbv zeta.
  destruct (isnan (sigma11 * sigma22 - sigma12 * sigma12)
            || (sigma11 * sigma22 - sigma12 * sigma12 <? float_epsilon)).
  - discriminate.
  - intros _. split; reflexivity.
Qed.

(** X1: the outcome of [getWeights] does not depend on [careful]. *)
Lemma getWeights_careful_irrelevant (sigma11 sigma12 sigma22 : float) (c1 c2 : bool) :
  getWeights pow quadrupoleToAxes axesToQuadrupole inverse2 sigma11 sigma12 sigma22 c1
  = getWeights pow quadrupoleToAxes axesToQuadrupole inverse2 sigma11 sigma12 sigma22 c2.
Proof.
  unfold getWeights.
  destruct (isnan sigma11 || isnan sigma12 || isnan sigma22); [reflexivity|].
  cbv zeta.
  destruct (isnan (sigma11 * sigma22 - sigma12 * sigma12)
            || (sigma11 * sigma22 - sigma12 * sigma12 <? float_epsilon)); reflexivity.
Qed.

(** C1: for the moments (1, 1, 1), whose determinant is 0, [getWeights] asked
    to be careful does not inflate the axes: it reports failure with NaN
    weights, whatever the ellipse conversions and the matrix inverse are. *)
Theorem getWeights_careful_singular_fails :
  weightsOf 1 1 1 true = mkWeights false NaN NaN NaN NaN.
Proof.
  apply getWeights_small_det. vm_compute. reflexivity.
Qed.
End GetWeightsFacts.

(** ** The iteration loop *)

Section WorkhorseFacts.
Import Ieee Geom Ellipses Images SdssShape Statements.
Local Open Scope float_scope.

Variable approxExp : float -> float.
Variable pow : float -> float -> float.
Variable quadrupoleToAxes : Quadrupole -> Axes.
Variable axesToQuadrupole : Axes -> Quadrupole.
Variable inverse2 : Matrix2 -> Matrix2.
Variable inverse4 : Matrix4 -> Matrix4.
Variable mimage : ImageT.
Variable bkgd xcen ycen : float.
Variable maxIter : Z.
Variable tol1 tol2 : float.

Local Abbreviation weightsOf := (getWeights pow quadrupoleToAxes axesToQuadrupole inverse2).
Local Abbreviation calcmomOf :=
  (calcmom approxExp pow quadrupoleToAxes axesToQuadrupole inverse2).
Local Abbreviation iterationOf shiftmax :=
  (iteration approxExp pow quadrupoleToAxes axesToQuadrupole inverse2 mimage bkgd xcen ycen
     shiftmax tol1 tol2).
Local Abbreviation iterateOf shiftmax :=
  (iterate approxExp pow quadrupoleToAxes axesToQuadrupole inverse2 mimage bkgd xcen ycen
     shiftmax maxIter tol1 tol2).
Local Abbreviation unweightedOf :=
  (unweighted_moments approxExp pow quadrupoleToAxes axesToQuadrupole inverse2 mimage bkgd
     xcen ycen).
Local Abbreviation finishOf :=
  (finish approxExp pow quadrupoleToAxes axesToQuadrupole inverse2 inverse4 mimage bkgd
     xcen ycen maxIter).
Local Abbreviation solverOf shiftmax :=
  (getAdaptiveMoments approxExp pow quadrupoleToAxes axesToQuadrupole inverse2 inverse4
     mimage bkgd xcen ycen shiftmax maxIter tol1 tol2).
Local Abbreviation momentsOf :=
  (pass_moments approxExp pow quadrupoleToAxes axesToQuadrupole inverse2 mimage bkgd xcen ycen).

(** Case analysis on the tests of a function body, outermost first. *)
Ltac split_test :=
  match goal with
  | |- context [match ?c with (_, _) => _ end] => destruct c eqn:?
  | |- context [if ?c then _ else _] => destruct c eqn:?
  end.

Lemma iteration_keeps_interpolating (shiftmax : float) (st : LoopState) :
  ls_interpflag st = true ->
  ls_interpflag (fst (iterationOf shiftmax st)) = true
  /\ ls_iter (fst (iterationOf shiftmax st)) = ls_iter st.
Proof.
  intros Hi. unfold iteration. cbv zeta. rewrite Hi.
  cbn [orb negb andb]; rewrite ?andb_false_r; cbn [orb negb andb].
  repeat split_test; cbn [fst ls_iter ls_interpflag]; auto.
Qed.

Lemma iteration_rewinds_once (shiftmax : float) (st : LoopState) :
  ls_interpflag st = false ->
  ls_iter (fst (iterationOf shiftmax st)) = ls_iter st
  \/ (ls_iter (fst (iterationOf shiftmax st)) = (ls_iter st - 1)%Z
      /\ ls_interpflag (fst (iterationOf shiftmax st)) = true).
Proof.
  intros Hi. unfold iteration. cbv zeta. rewrite Hi.
  cbn [orb negb andb]; rewrite ?andb_true_r.
  match goal with
  | |- context [shouldInterp ?a ?b ?c] => destruct (shouldInterp a b c)
  end; cbn [orb negb andb];
  destruct (ls_iter st >? 0)%Z;
  repeat split_test; cbn [fst ls_iter ls_interpflag]; auto.
Qed.

Lemma iteration_progress (shiftmax : float) (st st' : LoopState) :
  iterationOf shiftmax st = (st', Continue) ->
  (ls_iter st < maxIter)%Z ->
  (passes_left maxIter (next_iter st') < passes_left maxIter st)%nat.
Proof.
  intros H Hlt. unfold passes_left, next_iter. cbn [ls_iter ls_interpflag].
  destruct (ls_interpflag st) eqn:Hi.
  - destruct (@iteration_keeps_interpolating shiftmax st Hi) as [A B].
    rewrite H in A, B. cbn [fst] in A, B. rewrite A, B. lia.
  - destruct (@iteration_rewinds_once shiftmax st Hi) as [A | [A B]];
      rewrite H in *; cbn [fst] in *.
    + rewrite A. destruct (ls_interpflag st'); lia.
    + rewrite A, B. lia.
Qed.

(** The loop always comes to an end within its fuel. *)
Lemma iterate_ends (shiftmax : float) (fuel : nat) :
  forall st, (passes_left maxIter st <= fuel)%nat -> exists st', iterateOf shiftmax fuel st = Some st'.
Proof.
  induction fuel as [|k IH]; intros st Hfuel; cbn [iterate].
  - destruct (ls_iter st <? maxIter)%Z eqn:Hlt; [|eauto].
    apply Z.ltb_lt in Hlt. unfold passes_left in Hfuel. lia.
  - destruct (ls_iter st <? maxIter)%Z eqn:Hlt; [|eauto].
    apply Z.ltb_lt in Hlt.
    destruct (iterationOf shiftmax st) as [st' [|]] eqn:Hit; [eauto|].
    apply IH. pose proof (@iteration_progress shiftmax st st' Hit Hlt). lia.
Qed.

Lemma iterate_from_start_ends (shiftmax : float) (shape : SdssShapeImpl) (garbage : Sums) :
  exists st,
    iterateOf shiftmax (loop_fuel maxIter) (initial_state shape garbage) = Some st.
Proof.
  apply iterate_ends. unfold passes_left, loop_fuel, initial_state.
  cbn [ls_iter ls_interpflag]. rewrite Z.sub_0_r. lia.
Qed.

(** X3: the loop of [getAdaptiveMoments] leaves a final state within
    [maxIter + 1] passes of its body, and the call is the early return for a
    NaN centroid or what follows the loop from that state. *)
Theorem getAdaptiveMoments_reaches_finish
    (shiftmax : float) (shape : SdssShapeImpl) (garbage : Sums) :
  exists st,
    iterateOf shiftmax (loop_fuel maxIter) (initial_state shape garbage) = Some st
    /\ solverOf shiftmax shape garbage
       = if isnan xcen || isnan ycen then Returned false (setFlag shape UNWEIGHTED_BAD)
         else finishOf st.
Proof.
  destruct (iterate_from_start_ends shiftmax shape garbage) as [st Hst].
  exists st. split; [exact Hst|].
  unfold getAdaptiveMoments. rewrite Hst. reflexivity.
Qed.

(** *** The shift test does not steer the run *)

Lemma clear_shift_setbit (f1 f2 n : Z) :
  (0 <= n)%Z ->
  Z.clearbit f1 SHIFT = Z.clearbit f2 SHIFT ->
  Z.clearbit (Z.setbit f1 n) SHIFT = Z.clearbit (Z.setbit f2 n) SHIFT.
Proof.
  intros Hn H. apply Z.bits_inj'. intros m Hm.
  assert (E : Z.testbit (Z.clearbit f1 SHIFT) m = Z.testbit (Z.clearbit f2 SHIFT) m)
    by (rewrite H; reflexivity).
  rewrite !testbit_clearbit in * by (unfold SHIFT; lia).
  rewrite !testbit_setbit by assumption.
  destruct (SHIFT =? m)%Z; cbn [negb] in *; rewrite ?andb_false_r, ?andb_true_r in *.
  - reflexivity.
  - rewrite E. reflexivity.
Qed.

Lemma clear_shift_clearbit (f1 f2 n : Z) :
  (0 <= n)%Z ->
  Z.clearbit f1 SHIFT = Z.clearbit f2 SHIFT ->
  Z.clearbit (Z.clearbit f1 n) SHIFT = Z.clearbit (Z.clearbit f2 n) SHIFT.
Proof.
  intros Hn H. apply Z.bits_inj'. intros m Hm.
  assert (E : Z.testbit (Z.clearbit f1 SHIFT) m = Z.testbit (Z.clearbit f2 SHIFT) m)
    by (rewrite H; reflexivity).
  rewrite !testbit_clearbit in * by (unfold SHIFT; lia).
  destruct (SHIFT =? m)%Z; cbn [negb] in *; rewrite ?andb_false_r, ?andb_true_r in *.
  - reflexivity.
  - rewrite E. reflexivity.
Qed.

Lemma clear_shift_set_shift (f : Z) :
  Z.clearbit (Z.setbit f SHIFT) SHIFT = Z.clearbit f SHIFT.
Proof.
  apply Z.bits_inj'. intros m Hm.
  rewrite !testbit_clearbit, testbit_setbit by (unfold SHIFT; lia).
  destruct (SHIFT =? m)%Z; cbn [negb orb]; rewrite ?andb_false_r, ?andb_true_r; reflexivity.
Qed.

Lemma forget_shift_fields (s1 s2 : SdssShapeImpl) :
  forget_shift s1 = forget_shift s2 ->
  getI0 s1 = getI0 s2 /\ getX s1 = getX s2 /\ getY s1 = getY s2
  /\ getIxx s1 = getIxx s2 /\ getIxy s1 = getIxy s2 /\ getIyy s1 = getIyy s2
  /\ getIxy4 s1 = getIxy4 s2 /\ getCovar s1 = getCovar s2
  /\ Z.clearbit (getFlags s1) SHIFT = Z.clearbit (getFlags s2) SHIFT.
Proof.
  destruct s1, s2. unfold forget_shift, withFlags.
  cbn [getI0 getX getY getIxx getIxy getIyy getIxy4 getCovar getFlags].
  intros H. injection H. intros. subst. repeat split; assumption.
Qed.

Lemma forget_shift_intro (s1 s2 : SdssShapeImpl) :
  getI0 s1 = getI0 s2 -> getX s1 = getX s2 -> getY s1 = getY s2 ->
  getIxx s1 = getIxx s2 -> getIxy s1 = getIxy s2 -> getIyy s1 = getIyy s2 ->
  getIxy4 s1 = getIxy4 s2 -> getCovar s1 = getCovar s2 ->
  Z.clearbit (getFlags s1) SHIFT = Z.clearbit (getFlags s2) SHIFT ->
  forget_shift s1 = forget_shift s2.
Proof.
  destruct s1, s2. unfold forget_shift, withFlags.
  cbn [getI0 getX getY getIxx getIxy getIyy getIxy4 getCovar getFlags].
  intros. subst. f_equal. assumption.
Qed.

(** Solves [forget_shift a = forget_shift b] for shapes built by setters
    from two shapes that agree but for SHIFT. *)
Ltac agree_by H :=
  destruct (@forget_shift_fields _ _ H) as (? & ? & ? & ? & ? & ? & ? & ? & ?);
  apply forget_shift_intro;
  unfold setI0, setX, setY, setIxx, setIxy, setIyy, setIxy4, setCovar,
    setFlag, resetFlag, withFlags;
  cbn [getI0 getX getY getIxx getIxy getIyy getIxy4 getCovar getFlags];
  try congruence.

Lemma agree_getFlag (s1 s2 : SdssShapeImpl) (n : Z) :
  forget_shift s1 = forget_shift s2 -> n <> SHIFT -> getFlag s1 n = getFlag s2 n.
Proof.
  intros H Hn. destruct (@forget_shift_fields _ _ H) as (_ & _ & _ & _ & _ & _ & _ & _ & E).
  unfold getFlag.
  assert (T : Z.testbit (Z.clearbit (getFlags s1) SHIFT) n
              = Z.testbit (Z.clearbit (getFlags s2) SHIFT) n) by (rewrite E; reflexivity).
  rewrite !testbit_clearbit in T by (unfold SHIFT; lia).
  destruct (SHIFT =? n)%Z eqn:Q.
  - apply Z.eqb_eq in Q. congruence.
  - cbn [negb] in T. rewrite !andb_true_r in T. exact T.
Qed.

Lemma agree_setFlag (s1 s2 : SdssShapeImpl) (n : Z) :
  (0 <= n)%Z -> forget_shift s1 = forget_shift s2 ->
  forget_shift (setFlag s1 n) = forget_shift (setFlag s2 n).
Proof.
  intros Hn H. agree_by H. apply clear_shift_setbit; assumption.
Qed.

Lemma agree_resetFlag (s1 s2 : SdssShapeImpl) (n : Z) :
  (0 <= n)%Z -> forget_shift s1 = forget_shift s2 ->
  forget_shift (resetFlag s1 n) = forget_shift (resetFlag s2 n).
Proof.
  intros Hn H. agree_by H. apply clear_shift_clearbit; assumption.
Qed.

Lemma agree_update_centroid (sm1 sm2 : float) (s1 s2 : SdssShapeImpl) (s : Sums) :
  forget_shift s1 = forget_shift s2 ->
  forget_shift (update_centroid xcen ycen sm1 s1 s)
  = forget_shift (update_centroid xcen ycen sm2 s2 s).
Proof.
  intros H. unfold update_centroid. cbv zeta.
  repeat match goal with
  | |- context [if ?c then _ else _] => destruct c
  end; agree_by H;
  rewrite ?clear_shift_set_shift; assumption.
Qed.

Lemma iteration_shift_blind (sm1 sm2 : float) (st1 st2 : LoopState) :
  forget_shift_state st1 = forget_shift_state st2 ->
  snd (iterationOf sm1 st1) = snd (iterationOf sm2 st2)
  /\ forget_shift_state (fst (iterationOf sm1 st1))
     = forget_shift_state (fst (iterationOf sm2 st2)).
Proof.
  destruct st1 as [sh1 ? ? ? ? ? ? ? ? ? ? ? ? ? ?], st2 as [sh2 ? ? ? ? ? ? ? ? ? ? ? ? ? ?].
  unfold forget_shift_state.
  cbn [ls_shape ls_I0 ls_sums ls_sigma11W ls_sigma12W ls_sigma22W ls_w11 ls_w12 ls_w22
       ls_e1_old ls_e2_old ls_sigma11_ow_old ls_interpflag ls_bbox ls_iter].
  remember (forget_shift sh1) as a1 eqn:E1. remember (forget_shift sh2) as a2 eqn:E2.
  intros H. injection H. intros. subst.
  assert (A : forget_shift sh1 = forget_shift sh2) by assumption.
  unfold iteration.
  cbn [ls_shape ls_I0 ls_sums ls_sigma11W ls_sigma12W ls_sigma22W ls_w11 ls_w12 ls_w22
       ls_e1_old ls_e2_old ls_sigma11_ow_old ls_interpflag ls_bbox ls_iter].
  cbv zeta.
  repeat split_test; cbn [fst snd]; (split; [reflexivity|]);
    cbn [ls_shape ls_I0 ls_sums ls_sigma11W ls_sigma12W ls_sigma22W ls_w11 ls_w12 ls_w22
         ls_e1_old ls_e2_old ls_sigma11_ow_old ls_interpflag ls_bbox ls_iter];
    f_equal;
    repeat first [ apply agree_setFlag; [unfold UNWEIGHTED; lia|]
                 | apply agree_update_centroid
                 | assumption ].
Qed.

Lemma forget_shift_state_fields (st1 st2 : LoopState) :
  forget_shift_state st1 = forget_shift_state st2 ->
  forget_shift (ls_shape st1) = forget_shift (ls_shape st2)
  /\ ls_iter st1 = ls_iter st2
  /\ forget_shift_state (next_iter st1) = forget_shift_state (next_iter st2).
Proof.
  intros H. repeat split.
  - exact (f_equal ls_shape H).
  - exact (f_equal ls_iter H).
  - exact (f_equal next_iter H).
Qed.

Lemma iterate_shift_blind (sm1 sm2 : float) (fuel : nat) :
  forall st1 st2,
    forget_shift_state st1 = forget_shift_state st2 ->
    option_map forget_shift_state (iterateOf sm1 fuel st1)
    = option_map forget_shift_state (iterateOf sm2 fuel st2).
Proof.
  induction fuel as [|k IH]; intros st1 st2 H; cbn [iterate];
    destruct (forget_shift_state_fields H) as (_ & Hit & _); rewrite Hit;
    destruct (ls_iter st2 <? maxIter)%Z; cbn [option_map]; try congruence.
  destruct (iteration_shift_blind sm1 sm2 H) as [Hc Hs].
  destruct (iterationOf sm1 st1) as [a1 c1], (iterationOf sm2 st2) as [a2 c2].
  cbn [fst snd] in Hc, Hs. subst c2.
  destruct c1; cbn [option_map].
  - congruence.
  - apply IH. apply (forget_shift_state_fields Hs).
Qed.

Lemma calc_fisher_shift_blind (s1 s2 : SdssShapeImpl) (v : float) :
  forget_shift s1 = forget_shift s2 -> calc_fisher s1 v = calc_fisher s2 v.
Proof.
  intros H. destruct (@forget_shift_fields _ _ H) as (A & _ & _ & B & C & D & _).
  unfold calc_fisher. rewrite A, B, C, D. reflexivity.
Qed.

Lemma store_shift_blind (s1 s2 : SdssShapeImpl) (I0 : float) (s : Sums) (a b c : float) :
  forget_shift s1 = forget_shift s2 ->
  forget_shift_outcome (store inverse4 mimage xcen ycen s1 I0 s a b c)
  = forget_shift_outcome (store inverse4 mimage xcen ycen s2 I0 s a b c).
Proof.
  intros H. unfold store. cbv zeta.
  set (t1 := setIxy4 (setIyy (setIxy (setIxx (setI0 s1 I0) a) b) c) (sums4 s / sum s)).
  set (t2 := setIxy4 (setIyy (setIxy (setIxx (setI0 s2 I0) a) b) c) (sums4 s / sum s)).
  assert (T : forget_shift t1 = forget_shift t2) by (subst t1 t2; agree_by H).
  clearbody t1 t2.
  destruct (@forget_shift_fields _ _ T) as (_ & _ & _ & B & _ & D & _).
  rewrite (calc_fisher_shift_blind _ T), B, D.
  rewrite (@agree_getFlag t1 t2 UNWEIGHTED T) by (unfold UNWEIGHTED, SHIFT; lia).
  repeat match goal with
  | |- context [if ?c then _ else _] => destruct c
  | |- context [match ?c with inl _ => _ | inr _ => _ end] => destruct c
  end; cbn [forget_shift_outcome]; f_equal; try assumption.
  agree_by T.
Qed.

Lemma after_loop_flags_shift_blind (st1 st2 : LoopState) :
  forget_shift_state st1 = forget_shift_state st2 ->
  forget_shift (after_loop_flags maxIter st1) = forget_shift (after_loop_flags maxIter st2).
Proof.
  intros H. pose proof (f_equal ls_shape H) as A. cbn [forget_shift_state ls_shape] in A.
  unfold after_loop_flags. cbv zeta.
  rewrite (f_equal ls_iter H : ls_iter st1 = ls_iter st2).
  rewrite (f_equal ls_sums H : ls_sums st1 = ls_sums st2).
  repeat match goal with
  | |- context [if ?c then _ else _] => destruct c
  end;
  repeat first [ apply agree_setFlag; [unfold UNWEIGHTED, MAXITER; lia|] | exact A ].
Qed.

Lemma unweighted_moments_shift_blind (st1 st2 : LoopState) :
  forget_shift_state st1 = forget_shift_state st2 ->
  unweightedOf st1 = unweightedOf st2.
Proof.
  intros H. unfold unweighted_moments.
  rewrite (f_equal ls_bbox H : ls_bbox st1 = ls_bbox st2).
  rewrite (f_equal ls_interpflag H : ls_interpflag st1 = ls_interpflag st2).
  rewrite (f_equal ls_I0 H : ls_I0 st1 = ls_I0 st2).
  rewrite (f_equal ls_sums H : ls_sums st1 = ls_sums st2).
  reflexivity.
Qed.

Lemma finish_shift_blind (st1 st2 : LoopState) :
  forget_shift_state st1 = forget_shift_state st2 ->
  forget_shift_outcome (finishOf st1) = forget_shift_outcome (finishOf st2).
Proof.
  intros H. unfold finish. cbv zeta.
  pose proof (after_loop_flags_shift_blind H) as B.
  rewrite (unweighted_moments_shift_blind H).
  rewrite (@agree_getFlag _ _ UNWEIGHTED B) by (unfold UNWEIGHTED, SHIFT; lia).
  rewrite (f_equal ls_I0 H : ls_I0 st1 = ls_I0 st2).
  rewrite (f_equal ls_sums H : ls_sums st1 = ls_sums st2).
  rewrite (f_equal ls_sigma11W H : ls_sigma11W st1 = ls_sigma11W st2).
  rewrite (f_equal ls_sigma12W H : ls_sigma12W st1 = ls_sigma12W st2).
  rewrite (f_equal ls_sigma22W H : ls_sigma22W st1 = ls_sigma22W st2).
  generalize dependent (after_loop_flags maxIter st1).
  generalize dependent (after_loop_flags maxIter st2).
  intros u2 u1 B.
  repeat split_test; cbn [forget_shift_outcome];
    try (apply store_shift_blind; assumption).
  all: f_equal; agree_by B;
    repeat first [ apply clear_shift_setbit; [unfold UNWEIGHTED_BAD; lia|]
                 | apply clear_shift_clearbit; [unfold UNWEIGHTED; lia|]
                 | assumption ].
Qed.

Lemma getAdaptiveMoments_shift_blind (sm1 sm2 : float) (shape : SdssShapeImpl) (garbage : Sums) :
  forget_shift_outcome (solverOf sm1 shape garbage)
  = forget_shift_outcome (solverOf sm2 shape garbage).
Proof.
  unfold getAdaptiveMoments.
  destruct (isnan xcen || isnan ycen); [reflexivity|].
  pose proof (@iterate_shift_blind sm1 sm2 (loop_fuel maxIter)
                (initial_state shape garbage) (initial_state shape garbage) eq_refl) as H.
  destruct (iterateOf sm1 (loop_fuel maxIter) (initial_state shape garbage)) as [a1|],
           (iterateOf sm2 (loop_fuel maxIter) (initial_state shape garbage)) as [a2|];
    cbn [option_map] in H; try discriminate H.
  - apply finish_shift_blind. congruence.
  - reflexivity.
Qed.

(** *** Flags and moments along the run *)

Lemma getFlag_setFlag (s : SdssShapeImpl) (n m : Z) :
  (0 <= n)%Z -> getFlag (setFlag s n) m = (n =? m)%Z || getFlag s m.
Proof.
  intros Hn. unfold getFlag, setFlag, withFlags. cbn [getFlags]. apply testbit_setbit, Hn.
Qed.

Lemma getFlag_resetFlag (s : SdssShapeImpl) (n m : Z) :
  (0 <= n)%Z -> getFlag (resetFlag s n) m = getFlag s m && negb (n =? m)%Z.
Proof.
  intros Hn. unfold getFlag, resetFlag, withFlags. cbn [getFlags]. apply testbit_clearbit, Hn.
Qed.

Lemma update_centroid_flags (shiftmax : float) (shape : SdssShapeImpl) (s : Sums) (n : Z) :
  getFlag (update_centroid xcen ycen shiftmax shape s) n
  = ((n =? SHIFT)%Z && shift_exceeds xcen ycen shiftmax s) || getFlag shape n.
Proof.
  unfold update_centroid, shift_exceeds. cbv zeta.
  unfold setX, setY. cbn [getX getY].
  destruct (gtb (fabs (sumx s / sum s - xcen0 xcen)) shiftmax
            || gtb (fabs (sumy s / sum s - ycen0 ycen)) shiftmax).
  - rewrite getFlag_setFlag by (unfold SHIFT; lia).
    unfold getFlag. cbn [getFlags]. rewrite andb_true_r, Z.eqb_sym. reflexivity.
  - rewrite andb_false_r. reflexivity.
Qed.

Lemma update_centroid_moments (shiftmax : float) (shape : SdssShapeImpl) (s : Sums) :
  getIxx (update_centroid xcen ycen shiftmax shape s) = getIxx shape
  /\ getIyy (update_centroid xcen ycen shiftmax shape s) = getIyy shape
  /\ getIxy (update_centroid xcen ycen shiftmax shape s) = getIxy shape.
Proof.
  unfold update_centroid. cbv zeta.
  match goal with |- context [if ?c then _ else _] => destruct c end;
    repeat split; reflexivity.
Qed.

(** A flag that is set stays set through an iteration. *)
Lemma iteration_keeps_flag (shiftmax : float) (st : LoopState) (n : Z) :
  getFlag (ls_shape st) n = true ->
  getFlag (ls_shape (fst (iterationOf shiftmax st))) n = true.
Proof.
  intros H. unfold iteration. cbv zeta.
  repeat split_test; cbn [fst ls_shape];
    rewrite ?getFlag_setFlag by (unfold UNWEIGHTED; lia);
    rewrite ?update_centroid_flags; rewrite H;
    rewrite ?orb_true_r; reflexivity.
Qed.

(** The three moments of the shape are not written in the loop. *)
Lemma iteration_keeps_moments (shiftmax : float) (st : LoopState) :
  getIxx (ls_shape (fst (iterationOf shiftmax st))) = getIxx (ls_shape st)
  /\ getIyy (ls_shape (fst (iterationOf shiftmax st))) = getIyy (ls_shape st)
  /\ getIxy (ls_shape (fst (iterationOf shiftmax st))) = getIxy (ls_shape st).
Proof.
  unfold iteration. cbv zeta.
  repeat split_test; cbn [fst ls_shape];
    unfold setFlag, withFlags; cbn [getIxx getIyy getIxy];
    try apply update_centroid_moments; repeat split; reflexivity.
Qed.

(** A pass that leaves the loop has set UNWEIGHTED, unless it is the pass
    that found convergence: the weights it converged with are those whose
    determinant [getWeights] accepted at the top of the pass. *)
Lemma iteration_break (shiftmax : float) (st : LoopState) :
  snd (iterationOf shiftmax st) = Break ->
  getFlag (ls_shape (fst (iterationOf shiftmax st))) UNWEIGHTED = true
  \/ det_too_small (ls_sigma11W (fst (iterationOf shiftmax st)))
       (ls_sigma12W (fst (iterationOf shiftmax st)))
       (ls_sigma22W (fst (iterationOf shiftmax st))) = false.
Proof.
  unfold iteration. cbv zeta.
  repeat split_test;
    cbn [fst snd ls_shape ls_sigma11W ls_sigma12W ls_sigma22W];
    intros H; try discriminate H;
    try (left; rewrite getFlag_setFlag by (unfold UNWEIGHTED; lia); reflexivity).
  all: right;
    match goal with
    | Hw : negb (w_ok (weightsOf ?a ?b ?c true)) = false
      |- det_too_small ?a ?b ?c = false =>
        apply negb_false_iff in Hw; apply getWeights_ok in Hw; destruct Hw as [Hd _]
    end;
    exact Hd.
Qed.

Lemma iteration_iter_le (shiftmax : float) (st : LoopState) :
  (ls_iter (fst (iterationOf shiftmax st)) <= ls_iter st)%Z.
Proof.
  destruct (ls_interpflag st) eqn:Hi.
  - destruct (@iteration_keeps_interpolating shiftmax st Hi) as [_ B]. lia.
  - destruct (@iteration_rewinds_once shiftmax st Hi) as [A | [A _]]; lia.
Qed.

(** How the loop can end: with UNWEIGHTED set, at the iteration limit, or
    with weights whose determinant passed the test. *)
Lemma iterate_exit (shiftmax : float) (fuel : nat) :
  forall st st',
    iterateOf shiftmax fuel st = Some st' ->
    ((ls_iter st <= maxIter)%Z
     \/ det_too_small (ls_sigma11W st) (ls_sigma12W st) (ls_sigma22W st) = false) ->
    getFlag (ls_shape st') UNWEIGHTED = true
    \/ ls_iter st' = maxIter
    \/ det_too_small (ls_sigma11W st') (ls_sigma12W st') (ls_sigma22W st') = false.
Proof.
  induction fuel as [|k IH]; intros st st' H Inv; cbn [iterate] in H;
    destruct (ls_iter st <? maxIter)%Z eqn:Hlt; try discriminate H.
  - injection H as <-. apply Z.ltb_ge in Hlt. destruct Inv; [right; left; lia | auto].
  - pose proof (iteration_break shiftmax st) as Hb.
    pose proof (iteration_iter_le shiftmax st) as Hle.
    destruct (iterationOf shiftmax st) as [a [|]]; cbn [fst snd] in *.
    + injection H as <-. destruct (Hb eq_refl); auto.
    + apply (IH _ _ H). left. apply Z.ltb_lt in Hlt. unfold next_iter. cbn [ls_iter]. lia.
  - injection H as <-. apply Z.ltb_ge in Hlt. destruct Inv; [right; left; lia | auto].
Qed.

Lemma iterate_keeps_flag (shiftmax : float) (n : Z) (fuel : nat) :
  forall st st',
    iterateOf shiftmax fuel st = Some st' ->
    getFlag (ls_shape st) n = true -> getFlag (ls_shape st') n = true.
Proof.
  induction fuel as [|k IH]; intros st st' H Hf; cbn [iterate] in H;
    destruct (ls_iter st <? maxIter)%Z; try discriminate H; try (injection H as <-; exact Hf).
  pose proof (@iteration_keeps_flag shiftmax st n Hf) as K.
  destruct (iterationOf shiftmax st) as [a [|]]; cbn [fst] in K.
  - injection H as <-. exact K.
  - apply (IH _ _ H). exact K.
Qed.

Lemma iterate_keeps_moments (shiftmax : float) (fuel : nat) :
  forall st st',
    iterateOf shiftmax fuel st = Some st' ->
    getIxx (ls_shape st') = getIxx (ls_shape st)
    /\ getIyy (ls_shape st') = getIyy (ls_shape st)
    /\ getIxy (ls_shape st') = getIxy (ls_shape st).
Proof.
  induction fuel as [|k IH]; intros st st' H; cbn [iterate] in H;
    destruct (ls_iter st <? maxIter)%Z; try discriminate H;
    try (injection H as <-; repeat split; reflexivity).
  pose proof (iteration_keeps_moments shiftmax st) as K.
  destruct (iterationOf shiftmax st) as [a [|]]; cbn [fst] in K.
  - injection H as <-. exact K.
  - destruct (IH _ _ H) as (A & B & C). unfold next_iter in A, B, C. cbn [ls_shape] in A, B, C.
    destruct K as (A' & B' & C'). repeat split; congruence.
Qed.

(** *** What follows the loop *)

Lemma store_shape (shape : SdssShapeImpl) (I0 : float) (s : Sums) (a b c : float) :
  getIxx (shapeOf (store inverse4 mimage xcen ycen shape I0 s a b c)) = a
  /\ getIxy (shapeOf (store inverse4 mimage xcen ycen shape I0 s a b c)) = b
  /\ getIyy (shapeOf (store inverse4 mimage xcen ycen shape I0 s a b c)) = c
  /\ getFlags (shapeOf (store inverse4 mimage xcen ycen shape I0 s a b c)) = getFlags shape.
Proof.
  unfold store. cbv zeta.
  repeat match goal with
  | |- context [if ?c then _ else _] => destruct c
  | |- context [match ?c with inl _ => _ | inr _ => _ end] => destruct c
  end; cbn [shapeOf]; repeat split; reflexivity.
Qed.

Lemma store_returns_true (shape sh : SdssShapeImpl) (I0 : float) (s : Sums) (a b c : float) :
  store inverse4 mimage xcen ycen shape I0 s a b c <> Returned false sh.
Proof.
  unfold store. cbv zeta.
  repeat match goal with
  | |- context [if ?c then _ else _] => destruct c
  | |- context [match ?c with inl _ => _ | inr _ => _ end] => destruct c
  end; discriminate.
Qed.

Lemma after_loop_flags_spec (st : LoopState) (n : Z) :
  getFlag (after_loop_flags maxIter st) n
  = ((ls_iter st =? maxIter)%Z && ((n =? UNWEIGHTED) || (n =? MAXITER))%Z)
    || ((sumxx (ls_sums st) + sumyy (ls_sums st) =? 0) && (n =? UNWEIGHTED)%Z)
    || getFlag (ls_shape st) n.
Proof.
  unfold after_loop_flags. cbv zeta.
  destruct (ls_iter st =? maxIter)%Z, (sumxx (ls_sums st) + sumyy (ls_sums st) =? 0);
    rewrite ?getFlag_setFlag by (unfold UNWEIGHTED, MAXITER; lia);
    cbn [andb orb]; rewrite ?(Z.eqb_sym n); rewrite ?andb_true_r, ?orb_false_r;
    destruct (UNWEIGHTED =? n)%Z, (MAXITER =? n)%Z, (getFlag (ls_shape st) n); reflexivity.
Qed.

Lemma after_loop_flags_moments (st : LoopState) :
  getIxx (after_loop_flags maxIter st) = getIxx (ls_shape st)
  /\ getIyy (after_loop_flags maxIter st) = getIyy (ls_shape st)
  /\ getIxy (after_loop_flags maxIter st) = getIxy (ls_shape st).
Proof.
  unfold after_loop_flags. cbv zeta.
  repeat match goal with
  | |- context [if ?c then _ else _] => destruct c
  end; repeat split; reflexivity.
Qed.

(** A run that ends with neither UNWEIGHTED nor UNWEIGHTED_BAD set stores
    the weights the loop ended with. *)
Lemma finish_weighted (st : LoopState) :
  getFlag (shapeOf (finishOf st)) UNWEIGHTED = false ->
  getFlag (shapeOf (finishOf st)) UNWEIGHTED_BAD = false ->
  getFlag (ls_shape st) UNWEIGHTED = false
  /\ ls_iter st <> maxIter
  /\ getIxx (shapeOf (finishOf st)) = ls_sigma11W st
  /\ getIxy (shapeOf (finishOf st)) = ls_sigma12W st
  /\ getIyy (shapeOf (finishOf st)) = ls_sigma22W st.
Proof.
  unfold finish. cbv zeta.
  destruct (getFlag (after_loop_flags maxIter st) UNWEIGHTED) eqn:F.
  - destruct (unweightedOf st) as [status [I0 s]].
    destruct ((status <? 0)%Z || (sum s <=? 0)).
    + intros _ H. exfalso. revert H. cbn [shapeOf].
      destruct (gtb (sum s) 0); unfold getFlag, setIyy, setIxy, setIxx; cbn [getFlags];
        change (getFlag (setFlag (resetFlag (after_loop_flags maxIter st) UNWEIGHTED)
                  UNWEIGHTED_BAD) UNWEIGHTED_BAD = false -> False);
        rewrite getFlag_setFlag by (unfold UNWEIGHTED_BAD; lia); discriminate.
    + intros H _. exfalso. revert H. unfold getFlag.
      destruct (store_shape (after_loop_flags maxIter st) I0 s
                  (sumxx s / sum s) (sumxy s / sum s) (sumyy s / sum s)) as (_ & _ & _ & E).
      rewrite E. fold (getFlag (after_loop_flags maxIter st) UNWEIGHTED). rewrite F. discriminate.
  - intros _ _.
    destruct (store_shape (after_loop_flags maxIter st) (ls_I0 st) (ls_sums st)
                (ls_sigma11W st) (ls_sigma12W st) (ls_sigma22W st)) as (A & B & C & _).
    rewrite after_loop_flags_spec in F.
    change (UNWEIGHTED =? UNWEIGHTED)%Z with true in F. cbn [orb] in F.
    rewrite !andb_true_r in F.
    apply orb_false_iff in F. destruct F as [F1 F2].
    apply orb_false_iff in F1. destruct F1 as [F1 _].
    apply Z.eqb_neq in F1. auto.
Qed.

(** A run that returns false leaves the three moments as they were, or
    stores those of a single pixel. *)
Lemma finish_false (st : LoopState) (sh : SdssShapeImpl) :
  finishOf st = Returned false sh ->
  (getIxx sh = 1 / 12 /\ getIyy sh = 1 / 12 /\ getIxy sh = 0)
  \/ (getIxx sh = getIxx (ls_shape st) /\ getIyy sh = getIyy (ls_shape st)
      /\ getIxy sh = getIxy (ls_shape st)).
Proof.
  unfold finish. cbv zeta.
  destruct (after_loop_flags_moments st) as (A & B & C).
  destruct (getFlag (after_loop_flags maxIter st) UNWEIGHTED).
  - destruct (unweightedOf st) as [status [I0 s]].
    destruct ((status <? 0)%Z || (sum s <=? 0)).
    + destruct (gtb (sum s) 0); intros H; injection H as <-.
      * left. repeat split; reflexivity.
      * right. unfold setFlag, resetFlag, withFlags. cbn [getIxx getIyy getIxy getFlags].
        auto.
    + intros H. exfalso. exact (store_returns_true _ _ _ _ _ _ H).
  - intros H. exfalso. exact (store_returns_true _ _ _ _ _ _ H).
Qed.

Lemma finish_keeps_shift (st : LoopState) :
  getFlag (ls_shape st) SHIFT = true -> getFlag (shapeOf (finishOf st)) SHIFT = true.
Proof.
  intros H.
  assert (A : getFlag (after_loop_flags maxIter st) SHIFT = true)
    by (rewrite after_loop_flags_spec, H; apply orb_true_r).
  unfold finish. cbv zeta.
  destruct (getFlag (after_loop_flags maxIter st) UNWEIGHTED).
  - destruct (unweightedOf st) as [status [I0 s]].
    destruct ((status <? 0)%Z || (sum s <=? 0)).
    + cbn [shapeOf].
      assert (B : getFlag (setFlag (resetFlag (after_loop_flags maxIter st) UNWEIGHTED)
                    UNWEIGHTED_BAD) SHIFT = true).
      { rewrite getFlag_setFlag by (unfold UNWEIGHTED_BAD; lia).
        rewrite getFlag_resetFlag by (unfold UNWEIGHTED; lia). rewrite A. reflexivity. }
      destruct (gtb (sum s) 0); exact B.
    + unfold getFlag.
      destruct (store_shape (after_loop_flags maxIter st) I0 s
                  (sumxx s / sum s) (sumxy s / sum s) (sumyy s / sum s)) as (_ & _ & _ & E).
      rewrite E. exact A.
  - unfold getFlag.
    destruct (store_shape (after_loop_flags maxIter st) (ls_I0 st) (ls_sums st)
                (ls_sigma11W st) (ls_sigma12W st) (ls_sigma22W st)) as (_ & _ & _ & E).
    rewrite E. exact A.
Qed.

(** *** The claims about the solver *)

(** C10: with a NaN in the input centroid the solver sets UNWEIGHTED_BAD and
    returns false at once: no other flag changes, UNWEIGHTED included, and
    the moments of the shape stay as they were passed in. *)
Theorem nan_centroid_returns_unweighted_bad
    (shiftmax : float) (shape : SdssShapeImpl) (garbage : Sums) :
  isnan xcen || isnan ycen = true ->
  solverOf shiftmax shape garbage = Returned false (setFlag shape UNWEIGHTED_BAD)
  /\ getFlag (setFlag shape UNWEIGHTED_BAD) UNWEIGHTED_BAD = true
  /\ getFlag (setFlag shape UNWEIGHTED_BAD) UNWEIGHTED = getFlag shape UNWEIGHTED
  /\ getIxx (setFlag shape UNWEIGHTED_BAD) = getIxx shape
  /\ getIyy (setFlag shape UNWEIGHTED_BAD) = getIyy shape
  /\ getIxy (setFlag shape UNWEIGHTED_BAD) = getIxy shape.
Proof.
  intros H. unfold getAdaptiveMoments. rewrite H.
  rewrite !getFlag_setFlag by (unfold UNWEIGHTED_BAD; lia).
  repeat split; reflexivity.
Qed.

(** *** The passes of a run *)

Lemma update_centroid_position (shiftmax : float) (shape : SdssShapeImpl) (s : Sums) :
  getX (update_centroid xcen ycen shiftmax shape s) = sumx s / sum s
  /\ getY (update_centroid xcen ycen shiftmax shape s) = sumy s / sum s.
Proof.
  unfold update_centroid. cbv zeta.
  match goal with |- context [if ?c then _ else _] => destruct c end;
    split; reflexivity.
Qed.

(** What a pass does to the centroid and to SHIFT. *)
Lemma iteration_pass (shiftmax : float) (st : LoopState) :
  match momentsOf st with
  | Some s =>
      getX (ls_shape (fst (iterationOf shiftmax st))) = sumx s / sum s
      /\ getY (ls_shape (fst (iterationOf shiftmax st))) = sumy s / sum s
      /\ getFlag (ls_shape (fst (iterationOf shiftmax st))) SHIFT
         = shift_exceeds xcen ycen shiftmax s || getFlag (ls_shape st) SHIFT
  | None =>
      snd (iterationOf shiftmax st) = Break
      /\ ls_shape (fst (iterationOf shiftmax st)) = setFlag (ls_shape st) UNWEIGHTED
  end.
Proof.
  unfold pass_moments, iteration, image. cbv zeta.
  destruct (w_ok _) eqn:W; cbn [negb]; [|split; reflexivity].
  destruct (calcmom _ _ _ _ _ _ _ _ _ _ _ _ _ _ _ _ _ _) as [status [I0 s]].
  destruct (status <? 0)%Z; [split; reflexivity|].
  destruct (@update_centroid_position shiftmax (ls_shape st) s) as [PX PY].
  pose proof (@update_centroid_flags shiftmax (ls_shape st) s SHIFT) as PF.
  rewrite Z.eqb_refl in PF. cbn [andb] in PF.
  repeat split_test; cbn [fst ls_shape];
    rewrite ?getFlag_setFlag by (unfold UNWEIGHTED, SHIFT; lia);
    unfold setFlag, withFlags; cbn [getX getY]; auto.
Qed.

Lemma enters_running (shiftmax : float) (st0 st : LoopState) :
  enters (iterationOf shiftmax) maxIter st0 st -> (ls_iter st < maxIter)%Z.
Proof. intros H. destruct H; assumption. Qed.

(** From every state in which the body is entered, the loop goes on to the
    state the run ends in. *)
Lemma enters_reaches_the_end (shiftmax : float) (st0 final : LoopState) (fuel0 : nat) :
  iterateOf shiftmax fuel0 st0 = Some final ->
  forall st,
    enters (iterationOf shiftmax) maxIter st0 st ->
    exists fuel, iterateOf shiftmax fuel st = Some final.
Proof.
  intros H0 st H. induction H as [Hlt | st st' H IH Hbody Hlt].
  - exists fuel0. exact H0.
  - destruct IH as [fuel Hf].
    pose proof (@enters_running shiftmax st0 st H) as Hst. apply Z.ltb_lt in Hst.
    destruct fuel as [|k]; cbn [iterate] in Hf; rewrite Hst in Hf; [discriminate Hf|].
    rewrite Hbody in Hf. exists k. exact Hf.
Qed.

(** A pass in which the shift is too large leaves SHIFT set in the state the
    run ends in. *)
Lemma shift_reaches_the_end (shiftmax : float) (st0 final st : LoopState) (fuel0 : nat)
    (s : Sums) :
  iterateOf shiftmax fuel0 st0 = Some final ->
  enters (iterationOf shiftmax) maxIter st0 st ->
  momentsOf st = Some s ->
  shift_exceeds xcen ycen shiftmax s = true ->
  getFlag (ls_shape final) SHIFT = true.
Proof.
  intros H0 H Hm Hs.
  destruct (@enters_reaches_the_end shiftmax st0 final fuel0 H0 st H) as [fuel Hf].
  pose proof (@enters_running shiftmax st0 st H) as Hst. apply Z.ltb_lt in Hst.
  pose proof (@iteration_pass shiftmax st) as P. rewrite Hm in P.
  destruct P as (_ & _ & P). rewrite Hs in P. cbn [orb] in P.
  destruct fuel as [|k]; cbn [iterate] in Hf; rewrite Hst in Hf; [discriminate Hf|].
  destruct (iterationOf shiftmax st) as [st' [|]]; cbn [fst] in P.
  - injection Hf as <-. exact P.
  - apply (@iterate_keeps_flag shiftmax SHIFT k (next_iter st') final Hf). exact P.
Qed.

(** C7: the shift test only ever writes the SHIFT flag, in every pass of the
    loop, and the run still produces its result. A pass that comes to the
    centroid update stores the new centroid and has SHIFT set exactly when
    the shift exceeds the limit or SHIFT was set before; a pass that ends
    before the update only sets UNWEIGHTED. Whatever the limit is, each pass
    ends in a [break] or goes on in the same way, and leaves the same state
    but for SHIFT. The loop comes to an end within its fuel and the call is
    what follows the loop from the state it ends in; a shift that is too
    large in any pass of the run leaves SHIFT set in that state and in the
    shape the call ends with; and with any other limit the call ends in the
    same return value or exception and the same shape, but for SHIFT. *)
Theorem shift_test_only_sets_flag
    (shiftmax : float) (shape : SdssShapeImpl) (garbage : Sums) :
  let st0 := initial_state shape garbage in
  let body :=
    iteration approxExp pow quadrupoleToAxes axesToQuadrupole inverse2 mimage bkgd xcen ycen
      shiftmax tol1 tol2 in
  let moments :=
    pass_moments approxExp pow quadrupoleToAxes axesToQuadrupole inverse2 mimage bkgd xcen
      ycen in
  let solver sm :=
    getAdaptiveMoments approxExp pow quadrupoleToAxes axesToQuadrupole inverse2 inverse4
      mimage bkgd xcen ycen sm maxIter tol1 tol2 shape garbage in
  (forall st,
      match moments st with
      | Some s =>
          getX (ls_shape (fst (body st))) = sumx s / sum s
          /\ getY (ls_shape (fst (body st))) = sumy s / sum s
          /\ getFlag (ls_shape (fst (body st))) SHIFT
             = shift_exceeds xcen ycen shiftmax s || getFlag (ls_shape st) SHIFT
      | None =>
          snd (body st) = Break
          /\ ls_shape (fst (body st)) = setFlag (ls_shape st) UNWEIGHTED
      end)
  /\ (forall sm st,
         snd (iterationOf sm st) = snd (body st)
         /\ forget_shift_state (fst (iterationOf sm st)) = forget_shift_state (fst (body st)))
  /\ (exists final,
         iterateOf shiftmax (loop_fuel maxIter) st0 = Some final
         /\ (isnan xcen || isnan ycen = false -> solver shiftmax = finishOf final)
         /\ (forall st s,
                isnan xcen || isnan ycen = false ->
                enters body maxIter st0 st ->
                moments st = Some s ->
                shift_exceeds xcen ycen shiftmax s = true ->
                getFlag (ls_shape final) SHIFT = true
                /\ getFlag (shapeOf (solver shiftmax)) SHIFT = true))
  /\ (forall sm, forget_shift_outcome (solver sm) = forget_shift_outcome (solver shiftmax)).
Proof.
  intros st0 body moments solver. split; [|split; [|split]].
  - intros st. apply iteration_pass.
  - intros sm st.
    apply (@iteration_shift_blind sm shiftmax st st eq_refl).
  - destruct (@iterate_from_start_ends shiftmax shape garbage) as [final Hfinal].
    assert (Hsolver : isnan xcen || isnan ycen = false -> solver shiftmax = finishOf final).
    { intros Hnan. unfold solver, getAdaptiveMoments. rewrite Hnan, Hfinal. reflexivity. }
    exists final. split; [exact Hfinal|]. split; [exact Hsolver|].
    intros st s Hnan He Hm Hs.
    pose proof (@shift_reaches_the_end shiftmax st0 final st _ s Hfinal He Hm Hs) as F.
    split; [exact F|]. rewrite (Hsolver Hnan).
    apply (@finish_keeps_shift final F).
  - intros sm.
    apply (@getAdaptiveMoments_shift_blind sm shiftmax shape garbage).
Qed.

(** C3, as the code has it: when UNWEIGHTED is set after the loop and the
    un-weighted pass succeeds with a positive sum, the stored moments are
    Ixx = sumxx/sum, Iyy = sumyy/sum and Ixy = sumxy/sum. *)
Theorem unweighted_moments_are_stored
    (shiftmax : float) (shape : SdssShapeImpl) (garbage : Sums)
    (st : LoopState) (status : Z) (I0 : float) (s : Sums) :
  isnan xcen || isnan ycen = false ->
  iterateOf shiftmax (loop_fuel maxIter) (initial_state shape garbage) = Some st ->
  getFlag (after_loop_flags maxIter st) UNWEIGHTED = true ->
  unweightedOf st = (status, (I0, s)) ->
  (status <? 0)%Z = false ->
  gtb (sum s) 0 = true ->
  getIxx (shapeOf (solverOf shiftmax shape garbage)) = sumxx s / sum s
  /\ getIyy (shapeOf (solverOf shiftmax shape garbage)) = sumyy s / sum s
  /\ getIxy (shapeOf (solverOf shiftmax shape garbage)) = sumxy s / sum s.
Proof.
  intros Hnan Hloop Hflag Hun Hstatus Hsum.
  unfold getAdaptiveMoments. rewrite Hnan, Hloop.
  unfold finish. cbv zeta. rewrite Hflag, Hun, Hstatus, (@float_gt_zero_not_le _ Hsum).
  cbn [orb].
  destruct (store_shape (after_loop_flags maxIter st) I0 s
              (sumxx s / sum s) (sumxy s / sum s) (sumyy s / sum s)) as (A & B & C & _).
  auto.
Qed.

(** C2, as the code has it: when the run ends with neither UNWEIGHTED nor
    UNWEIGHTED_BAD set, the stored moments are weights whose determinant
    Ixx*Iyy - Ixy^2 passed the test of [getWeights]: it is not NaN and not
    below float epsilon. A run that returns false (UNWEIGHTED_BAD) stores the
    moments of a single pixel, (1/12, 1/12, 0), which satisfy the
    inequality, or leaves the moments as the caller passed them. *)
Theorem weighted_moments_pass_determinant_test
    (shiftmax : float) (shape : SdssShapeImpl) (garbage : Sums) :
  (getFlag (shapeOf (solverOf shiftmax shape garbage)) UNWEIGHTED = false ->
   getFlag (shapeOf (solverOf shiftmax shape garbage)) UNWEIGHTED_BAD = false ->
   det_too_small (getIxx (shapeOf (solverOf shiftmax shape garbage)))
     (getIxy (shapeOf (solverOf shiftmax shape garbage)))
     (getIyy (shapeOf (solverOf shiftmax shape garbage))) = false)
  /\ (forall sh,
         solverOf shiftmax shape garbage = Returned false sh ->
         (getIxx sh = 1 / 12 /\ getIyy sh = 1 / 12 /\ getIxy sh = 0)
         \/ (getIxx sh = getIxx shape /\ getIyy sh = getIyy shape /\ getIxy sh = getIxy shape))
  /\ psd_eps (1 / 12) (1 / 12) 0 = true.
Proof.
  split; [|split].
  - unfold getAdaptiveMoments.
    destruct (isnan xcen || isnan ycen).
    { cbn [shapeOf]. intros _ H. rewrite getFlag_setFlag in H by (unfold UNWEIGHTED_BAD; lia).
      discriminate H. }
    destruct (iterate_from_start_ends shiftmax shape garbage) as [st Hst]. rewrite Hst.
    intros H1 H2.
    destruct (@finish_weighted st H1 H2) as (F & I & A & B & C).
    rewrite A, B, C.
    assert (Inv : (ls_iter (initial_state shape garbage) <= maxIter)%Z
                  \/ det_too_small (ls_sigma11W (initial_state shape garbage))
                       (ls_sigma12W (initial_state shape garbage))
                       (ls_sigma22W (initial_state shape garbage)) = false)
      by (right; vm_compute; reflexivity).
    destruct (@iterate_exit shiftmax _ _ _ Hst Inv) as [E | [E | E]]; [congruence | contradiction | exact E].
  - intros sh. unfold getAdaptiveMoments.
    destruct (isnan xcen || isnan ycen).
    { intros H. injection H as <-. right. repeat split; reflexivity. }
    destruct (iterateOf shiftmax (loop_fuel maxIter) (initial_state shape garbage))
      as [st|] eqn:Hst.
    + intros H. destruct (@iterate_keeps_moments shiftmax _ _ _ Hst) as (A & B & C).
      unfold initial_state in A, B, C. cbn [ls_shape] in A, B, C.
      destruct (@finish_false _ _ H) as [L | (A' & B' & C')]; [left; exact L | right].
      repeat split; congruence.
    + intros H. injection H as <-. right. repeat split; reflexivity.
  - vm_compute. reflexivity.
Qed.
End WorkhorseFacts.

(** *** The solver on concrete images *)

Section DemoRuns.
Import Ieee Geom Ellipses Images SdssShape Statements.
Local Open Scope float_scope.

(** Witness of C10: a NaN abscissa on the Gaussian image. *)
Lemma nan_centroid_witness :
  Demo.solveDemo (Plain Demo.gaussImage) nan 7 2
  = Returned false (setFlag Demo.nanShape UNWEIGHTED_BAD)
  /\ getFlag (setFlag Demo.nanShape UNWEIGHTED_BAD) UNWEIGHTED_BAD = true
  /\ getFlag (setFlag Demo.nanShape UNWEIGHTED_BAD) UNWEIGHTED = getFlag Demo.nanShape UNWEIGHTED
  /\ getIxx (setFlag Demo.nanShape UNWEIGHTED_BAD) = getIxx Demo.nanShape
  /\ getIyy (setFlag Demo.nanShape UNWEIGHTED_BAD) = getIyy Demo.nanShape
  /\ getIxy (setFlag Demo.nanShape UNWEIGHTED_BAD) = getIxy Demo.nanShape.
Proof.
  unfold Demo.solveDemo. apply nan_centroid_returns_unweighted_bad. reflexivity.
Defined.

(** Counterexample to C2: on the 3x3 image with pixels of both signs the
    run ends with UNWEIGHTED set and stores the un-weighted moments
    (0.2, 0.2, 1.4), for which Ixx*Iyy = 0.04 is far below Ixy^2 = 1.96. *)
Lemma unweighted_moments_break_inequality :
  exists sh,
    Demo.solveDemo (Plain Demo.crossImage) 1 1 2 = Returned true sh
    /\ getFlag sh UNWEIGHTED = true
    /\ psd_eps (getIxx sh) (getIyy sh) (getIxy sh) = false.
Proof.
  eexists. split; [vm_compute; reflexivity|]. vm_compute. auto.
Qed.

(** Witness of C2: the Gaussian image converges with no flag set. *)
Lemma weighted_moments_witness :
  det_too_small
    (getIxx (shapeOf (Demo.solveDemo (Plain Demo.gaussImage) 7 7 2)))
    (getIxy (shapeOf (Demo.solveDemo (Plain Demo.gaussImage) 7 7 2)))
    (getIyy (shapeOf (Demo.solveDemo (Plain Demo.gaussImage) 7 7 2))) = false.
Proof.
  unfold Demo.solveDemo.
  apply (proj1 (@weighted_moments_pass_determinant_test Demo.demoExp Demo.demoPow
                  Demo.demoQuadrupoleToAxes Demo.demoAxesToQuadrupole Demo.demoInverse2
                  Demo.demoInverse4 (Plain Demo.gaussImage) 0 7 7 100 Demo.tol1 Demo.tol2
                  2 Demo.nanShape Demo.zeroGarbage));
    vm_compute; reflexivity.
Defined.

(** Counterexample to C3: on the same 3x3 image UNWEIGHTED is set after the
    loop and the un-weighted pass succeeds with sum = 10, sumxy = 14 and
    sumyy = 2, yet Iyy is not sumxy/sum and Ixy is not sumyy/sum. *)
Lemma unweighted_moments_not_swapped :
  exists st status I0 s,
    Demo.loopDemo (Plain Demo.crossImage) 1 1 2 = Some st
    /\ getFlag (after_loop_flags 100 st) UNWEIGHTED = true
    /\ Demo.unweightedDemo (Plain Demo.crossImage) 1 1 st = (status, (I0, s))
    /\ (status <? 0)%Z = false
    /\ gtb (sum s) 0 = true
    /\ (getIyy (shapeOf (Demo.solveDemo (Plain Demo.crossImage) 1 1 2)) =? sumxy s / sum s) = false
    /\ (getIxy (shapeOf (Demo.solveDemo (Plain Demo.crossImage) 1 1 2)) =? sumyy s / sum s) = false.
Proof.
  do 4 eexists. split; [vm_compute; reflexivity|].
  split; [vm_compute; reflexivity|].
  split; [vm_compute; reflexivity|].
  vm_compute. auto.
Qed.

(** Witness of C3: the same run stores Ixx = sumxx/sum, Iyy = sumyy/sum and
    Ixy = sumxy/sum of its un-weighted pass. *)
Lemma unweighted_moments_witness :
  exists st s,
    Demo.loopDemo (Plain Demo.crossImage) 1 1 2 = Some st
    /\ snd (snd (Demo.unweightedDemo (Plain Demo.crossImage) 1 1 st)) = s
    /\ gtb (sum s) 0 = true
    /\ getIxx (shapeOf (Demo.solveDemo (Plain Demo.crossImage) 1 1 2)) = sumxx s / sum s
    /\ getIyy (shapeOf (Demo.solveDemo (Plain Demo.crossImage) 1 1 2)) = sumyy s / sum s
    /\ getIxy (shapeOf (Demo.solveDemo (Plain Demo.crossImage) 1 1 2)) = sumxy s / sum s.
Proof.
  destruct (Demo.loopDemo (Plain Demo.crossImage) 1 1 2) as [st|] eqn:Hloop;
    [|vm_compute in Hloop; discriminate Hloop].
  destruct (Demo.unweightedDemo (Plain Demo.crossImage) 1 1 st) as [status [I0 s]] eqn:Hun.
  exists st, s.
  assert (Hst := Hloop). vm_compute in Hst. injection Hst as Hst. subst st.
  assert (Hs := Hun). vm_compute in Hs. injection Hs as Hstatus HI0 Hs. subst status I0 s.
  match type of Hloop with
  | _ = Some ?st =>
      assert (Hflag : getFlag (after_loop_flags 100 st) UNWEIGHTED = true)
        by (vm_compute; reflexivity)
  end.
  match type of Hun with
  | _ = (_, (_, ?s)) => assert (Hsum : gtb (sum s) 0 = true) by (vm_compute; reflexivity)
  end.
  split; [reflexivity|]. split; [reflexivity|]. split; [exact Hsum|].
  unfold Demo.solveDemo.
  exact (@unweighted_moments_are_stored Demo.demoExp Demo.demoPow
           Demo.demoQuadrupoleToAxes Demo.demoAxesToQuadrupole Demo.demoInverse2
           Demo.demoInverse4 (Plain Demo.crossImage) 0 1 1 100 Demo.tol1 Demo.tol2
           2 Demo.nanShape Demo.zeroGarbage _ _ _ _
           eq_refl Hloop Hflag Hun eq_refl Hsum).
Defined.

(** Witness of C7: starting three pixels away from a single bright pixel,
    the first pass finds a centroid more than 2 away and the shift test
    fires; the run still returns true with a shape, SHIFT is set in it, and
    but for SHIFT the run is the one with no limit on the shift. *)
Lemma shift_witness :
  (exists sh, Demo.solveDemo (Plain Demo.dotImage) 4 4 2 = Returned true sh
              /\ getFlag sh SHIFT = true)
  /\ (exists s,
         pass_moments Demo.demoExp Demo.demoPow Demo.demoQuadrupoleToAxes
           Demo.demoAxesToQuadrupole Demo.demoInverse2 (Plain Demo.dotImage) 0 4 4
           (initial_state Demo.nanShape Demo.zeroGarbage) = Some s
         /\ shift_exceeds 4 4 2 s = true)
  /\ getFlag (shapeOf (Demo.solveDemo (Plain Demo.dotImage) 4 4 2)) SHIFT = true
  /\ forget_shift_outcome (Demo.solveDemo (Plain Demo.dotImage) 4 4 2)
     = forget_shift_outcome (Demo.solveDemo (Plain Demo.dotImage) 4 4 infinity).
Proof.
  destruct (@shift_test_only_sets_flag Demo.demoExp Demo.demoPow Demo.demoQuadrupoleToAxes
              Demo.demoAxesToQuadrupole Demo.demoInverse2 Demo.demoInverse4
              (Plain Demo.dotImage) 0 4 4 100 Demo.tol1 Demo.tol2 2 Demo.nanShape
              Demo.zeroGarbage) as (_ & _ & (final & _ & _ & Hshift) & Hblind).
  split; [|split; [|split]].
  - eexists. split; vm_compute; reflexivity.
  - eexists. split; vm_compute; reflexivity.
  - unfold Demo.solveDemo.
    eapply (fun st s a b c d => proj2 (Hshift st s a b c d)).
    + reflexivity.
    + apply enters_first. vm_compute. reflexivity.
    + vm_compute. reflexivity.
    + vm_compute. reflexivity.
  - symmetry. apply (Hblind infinity).
Defined.
End DemoRuns.

(** ** apply *)

Section ApplyFacts.
Import Ieee Geom Ellipses Images SdssShape Statements.
Local Open Scope float_scope.

Variable approxExp : float -> float.
Variable pow : float -> float -> float.
Variable quadrupoleToAxes : Quadrupole -> Axes.
Variable axesToQuadrupole : Axes -> Quadrupole.
Variable inverse2 : Matrix2 -> Matrix2.
Variable inverse4 : Matrix4 -> Matrix4.
Variable defaultImpl : SdssShapeImpl.
Variable getXErr getYErr getIxxErr getIyyErr getIxyErr : SdssShapeImpl -> float.

Local Abbreviation solveOf :=
  (solve approxExp pow quadrupoleToAxes axesToQuadrupole inverse2 inverse4 defaultImpl).
Local Abbreviation applyOf :=
  (apply approxExp pow quadrupoleToAxes axesToQuadrupole inverse2 inverse4 defaultImpl
     getXErr getYErr getIxxErr getIyyErr getIxyErr).

(** The flag loop, pass by pass. *)
Lemma copyFlags_unrolled (shapeImpl : SdssShapeImpl) (flags0 : Z) :
  copyFlags shapeImpl flags0
  = let step := fun n fl =>
      if getFlag shapeImpl n then Z.setbit (Z.setbit fl (n + 1)) FAILURE else fl in
    step 3%Z (step 2%Z (step 1%Z (step 0%Z flags0))).
Proof. reflexivity. Qed.


End ApplyFacts.

Section ApplyRuns.
Import Ieee Geom Ellipses Images SdssShape Statements.
Local Open Scope float_scope.

End ApplyRuns.

(** ** Boxes *)

Section BoxFacts.
Import Geom.
Local Open Scope Z_scope.

Lemma contains_self (b : BoxI) : contains b b = true.
Proof.
  unfold contains. destruct (isEmpty b); [reflexivity|]. cbn [orb].
  rewrite !andb_true_iff, !Z.leb_le. lia.
Qed.

Lemma contains_empty (b : BoxI) : contains b emptyBox = true.
Proof. reflexivity. Qed.

(** The clipped box lies inside both boxes. *)
Lemma clip_inside (a b : BoxI) :
  contains a (clip a b) = true /\ contains b (clip a b) = true.
Proof.
  unfold clip.
  destruct (isEmpty a) eqn:Ea.
  - split; [apply contains_self|]. unfold contains. rewrite Ea. reflexivity.
  - destruct (isEmpty b); [split; apply contains_empty|].
    destruct ((Z.min (getMaxX a) (getMaxX b) <? Z.max (getMinX a) (getMinX b))
              || (Z.min (getMaxY a) (getMaxY b) <? Z.max (getMinY a) (getMinY b))) eqn:E;
      [split; apply contains_empty|].
    apply orb_false_iff in E. destruct E as [E1 E2].
    apply Z.ltb_ge in E1, E2.
    unfold contains, getMinX, getMinY, getMaxX, getMaxY in *. cbn [minX minY dimX dimY].
    split; apply orb_true_iff; right; rewrite !andb_true_iff, !Z.leb_le; lia.
Qed.
End BoxFacts.

(** ** The square root *)

Section SqrtFacts.
Local Open Scope Z_scope.

Lemma shr_1_nonneg (mrs : shr_record) : 0 <= shr_m mrs -> 0 <= shr_m (shr_1 mrs).
Proof.
  destruct mrs as [m r s]. cbn [shr_m]. intros H.
  destruct m as [|p|p]; [| |lia]; cbn; [lia|]. destruct p; cbn; lia.
Qed.

Lemma iter_pos_shr_1_nonneg (n : positive) :
  forall mrs, 0 <= shr_m mrs -> 0 <= shr_m (iter_pos shr_1 n mrs).
Proof.
  induction n as [n IH|n IH|]; intros mrs H; cbn [iter_pos].
  - apply IH, IH, shr_1_nonneg, H.
  - apply IH, IH, H.
  - apply shr_1_nonneg, H.
Qed.

Lemma shr_fexp_nonneg (p e : Z) (m : Z) (ex : Z) (l : location) :
  0 <= m -> 0 <= shr_m (fst (shr_fexp p e m ex l)).
Proof.
  intros H. unfold shr_fexp, shr.
  assert (A : 0 <= shr_m (shr_record_of_loc m l))
    by (destruct l as [|[| |]]; cbn; exact H).
  destruct (fexp p e (Zdigits2 m + ex) - ex) as [|n|n]; cbn [fst]; try exact A.
  apply iter_pos_shr_1_nonneg, A.
Qed.

Lemma round_nearest_even_nonneg (m : Z) (l : location) :
  0 <= m -> 0 <= round_nearest_even m l.
Proof.
  intros H. destruct l as [|[| |]]; cbn [round_nearest_even]; try lia.
  destruct (Z.even m); lia.
Qed.

(** Rounding a mantissa that is not negative, with a positive sign, gives a
    zero, a positive finite number or plus infinity. *)
Lemma binary_round_aux_nonneg (p e : Z) (m ex : Z) (l : location) :
  0 <= m ->
  SFleb (S754_zero false) (binary_round_aux p e false m ex l) = true.
Proof.
  intros H. unfold binary_round_aux.
  pose proof (shr_fexp_nonneg p e ex l H) as A.
  destruct (shr_fexp p e m ex l) as [mrs e']. cbn [fst] in A.
  pose proof (@shr_fexp_nonneg p e _ e' loc_Exact
                (round_nearest_even_nonneg (loc_of_shr_record mrs) A)) as B.
  destruct (shr_fexp p e (round_nearest_even (shr_m mrs) (loc_of_shr_record mrs)) e' loc_Exact)
    as [mrs' e'']. cbn [fst] in B.
  destruct (shr_m mrs') as [|q|q]; [reflexivity| |lia].
  destruct (e'' <=? e - p); reflexivity.
Qed.

Lemma sqrt_core_nonneg (p e : Z) (m : positive) (ex : Z) :
  0 <= fst (fst (SFsqrt_core_binary p e (Z.pos m) ex)).
Proof.
  unfold SFsqrt_core_binary. cbv zeta.
  match goal with
  | |- context [Z.sqrtrem ?a] =>
      assert (Ha : 0 <= a);
      [ | pose proof (Z.sqrtrem_spec a Ha) as S; destruct (Z.sqrtrem a) as [q r];
          cbn [fst]; lia ]
  end.
  match goal with
  | |- context [match ?s with Z0 => _ | Zpos _ => _ | Zneg _ => _ end] =>
      destruct s eqn:Hs
  end; try lia.
  apply Z.shiftl_nonneg. lia.
Qed.
End SqrtFacts.

(** [std::sqrt] is at least 0 exactly when its argument is, and NaN
    otherwise. *)
Lemma sqrt_nonneg_iff (v : float) :
  Ieee.geb (sqrt v) 0 = Ieee.geb v 0
  /\ (Ieee.geb v 0 = false -> Ieee.isnan (sqrt v) = true).
Proof.
  unfold Ieee.isnan, Ieee.geb, is_nan. rewrite !leb_spec, eqb_spec, sqrt_spec.
  change (Prim2SF 0) with (S754_zero false).
  unfold SF64sqrt, SFsqrt.
  destruct (Prim2SF v) as [s|s| |s m e]; try destruct s; cbn; auto.
  pose proof (sqrt_core_nonneg prec emax m e) as H.
  destruct (SFsqrt_core_binary prec emax (Z.pos m) e) as [[mz ez] lz]. cbn [fst] in H.
  rewrite (binary_round_aux_nonneg prec emax ez lz H). split; [reflexivity | discriminate].
Qed.

(** ** Aperture fluxes *)

Section ApertureFacts.
Import Ieee Geom Ellipses Images ApertureFlux Statements.
Local Open Scope float_scope.

Variable unset : float.
Variable sincCoeffs : EllipseCore -> float -> Image.
Variable offsetImage : Image -> float -> float -> string -> Image.
Variable ellipseBBox : Ellipse -> BoxI.
Variable pixelRegion : Ellipse -> PixelRegion.
Variable quadrupoleToAxes : Quadrupole -> Axes.
Variable arraySum : PixelType -> list float -> float.

Local Abbreviation sincImage := (computeSincFlux_Image unset sincCoeffs offsetImage ellipseBBox arraySum).
Local Abbreviation sincMasked :=
  (computeSincFlux_MaskedImage unset sincCoeffs offsetImage ellipseBBox arraySum).
Local Abbreviation naiveImage := (computeNaiveFlux_Image unset pixelRegion).
Local Abbreviation naiveMasked := (computeNaiveFlux_MaskedImage unset pixelRegion).
Local Abbreviation fluxImage :=
  (computeFlux_Image unset sincCoeffs offsetImage ellipseBBox pixelRegion quadrupoleToAxes arraySum).
Local Abbreviation fluxMasked :=
  (computeFlux_MaskedImage unset sincCoeffs offsetImage ellipseBBox pixelRegion
     quadrupoleToAxes arraySum).

Lemma subImage_fits (image : Image) (box : BoxI) :
  boxFits image box = true ->
  exists sub,
    subImage image box = inr sub
    /\ getBBox sub = mkBoxI (getMinX box) (getMinY box) (Geom.getWidth box) (Geom.getHeight box)
    /\ pixelType sub = pixelType image
    /\ getArray (pixel sub) (imWidth sub) (imHeight sub)
       = window (pixel image) (imX0 image) (imY0 image) box.
Proof.
  intros H. unfold subImage. rewrite H. eexists. split; [reflexivity|].
  repeat split; reflexivity.
Qed.

Lemma subImage_throws (image : Image) (box : BoxI) :
  boxFits image box = false ->
  subImage image box = inl (LengthError "Box does not fit in the image").
Proof. intros H. unfold subImage. rewrite H. reflexivity. Qed.

(** A box that is not empty passes the test of the view exactly when the box
    of the image holds it. *)
Lemma boxFits_contains (image : Image) (box : BoxI) :
  isEmpty box = false ->
  boxFits image box = contains (getBBox image) box.
Proof.
  intros E. unfold boxFits, contains. rewrite E. cbv zeta. cbn [orb].
  unfold getBBox, getMinX, getMinY, getMaxX, getMaxY, Geom.getWidth, Geom.getHeight.
  cbn [minX minY dimX dimY].
  apply eq_true_iff_eq.
  rewrite negb_true_iff, !orb_false_iff, !andb_true_iff, !Z.ltb_ge, !Z.gtb_ltb, !Z.ltb_ge,
    !Z.leb_le.
  lia.
Qed.

Lemma box_eta (b : BoxI) :
  mkBoxI (getMinX b) (getMinY b) (Geom.getWidth b) (Geom.getHeight b) = b.
Proof. destruct b. reflexivity. Qed.

(** The element-by-element product of the source is the list of the
    products of the pairs. *)
Lemma times_products (ty : PixelType) (a : list float) :
  forall b, times ty a b = products ty a b.
Proof.
  induction a as [|u a IH]; intros [|v b]; cbn [times]; try reflexivity.
  unfold products. cbn [combine map fst snd]. f_equal. apply IH.
Qed.

(** What [getSincCoeffs] does when the coefficient image sticks out and the
    view of the clipped coefficients can be made. *)
Lemma getSincCoeffs_clipped (bbox : BoxI) (ellipse : Ellipse) (result : Result) (ctrl : Control) :
  contains bbox (getBBox (shiftedCoeffs sincCoeffs offsetImage ellipse ctrl)) = false ->
  boxFits (shiftedCoeffs sincCoeffs offsetImage ellipse ctrl)
    (clip (getBBox (shiftedCoeffs sincCoeffs offsetImage ellipse ctrl)) bbox) = true ->
  exists clipped,
    getSincCoeffs sincCoeffs offsetImage ellipseBBox bbox ellipse result ctrl
    = inr (clipped,
           if contains (clip (getBBox (shiftedCoeffs sincCoeffs offsetImage ellipse ctrl)) bbox) (ellipseBBox ellipse)
           then setFlag result SINC_COEFFS_TRUNCATED
           else setFlag (setFlag (setFlag result SINC_COEFFS_TRUNCATED) APERTURE_TRUNCATED)
                  FAILURE)
    /\ getBBox clipped = clip (getBBox (shiftedCoeffs sincCoeffs offsetImage ellipse ctrl)) bbox
    /\ pixelType clipped = pixelType (shiftedCoeffs sincCoeffs offsetImage ellipse ctrl)
    /\ getArray (pixel clipped) (imWidth clipped) (imHeight clipped)
       = window (pixel (shiftedCoeffs sincCoeffs offsetImage ellipse ctrl)) (imX0 (shiftedCoeffs sincCoeffs offsetImage ellipse ctrl))
           (imY0 (shiftedCoeffs sincCoeffs offsetImage ellipse ctrl))
           (clip (getBBox (shiftedCoeffs sincCoeffs offsetImage ellipse ctrl)) bbox).
Proof.
  intros H F. unfold getSincCoeffs. cbv zeta. fold (shiftedCoeffs sincCoeffs offsetImage ellipse ctrl). rewrite H.
  cbn [negb].
  destruct (@subImage_fits (shiftedCoeffs sincCoeffs offsetImage ellipse ctrl) _ F)
    as (clipped & E & B & T & A).
  rewrite E. exists clipped. rewrite B, box_eta.
  destruct (contains (clip (getBBox (shiftedCoeffs sincCoeffs offsetImage ellipse ctrl)) bbox) (ellipseBBox ellipse));
    cbn [negb]; auto.
Qed.

(** When that view cannot be made, the exception of its constructor leaves
    [getSincCoeffs], and the flags set so far are lost with it. *)
Lemma getSincCoeffs_throws (bbox : BoxI) (ellipse : Ellipse) (result : Result) (ctrl : Control) :
  contains bbox (getBBox (shiftedCoeffs sincCoeffs offsetImage ellipse ctrl)) = false ->
  boxFits (shiftedCoeffs sincCoeffs offsetImage ellipse ctrl)
    (clip (getBBox (shiftedCoeffs sincCoeffs offsetImage ellipse ctrl)) bbox) = false ->
  getSincCoeffs sincCoeffs offsetImage ellipseBBox bbox ellipse result ctrl
  = inl (LengthError "Box does not fit in the image").
Proof.
  intros H F. unfold getSincCoeffs. cbv zeta.
  fold (shiftedCoeffs sincCoeffs offsetImage ellipse ctrl). rewrite H. cbn [negb].
  rewrite (@subImage_throws _ _ F). reflexivity.
Qed.

(** An overlap that is not empty fits in both images. *)
Lemma overlap_fits (a b : Image) :
  isEmpty (clip (getBBox a) (getBBox b)) = false ->
  boxFits a (clip (getBBox a) (getBBox b)) = true
  /\ boxFits b (clip (getBBox a) (getBBox b)) = true.
Proof.
  intros E. rewrite !(@boxFits_contains _ _ E). apply clip_inside.
Qed.

(** C4, as the code has it: when the shifted coefficient image is not inside
    the image, the coefficients are clipped to the overlap of the two boxes
    and a view of them is made. Where the two boxes have no pixel in common
    the overlap is the empty box at (0, 0), and unless that corner lies in
    the frame of the coefficient image the constructor of the view throws a
    LengthError: the flags set so far are lost and no result is returned. An
    overlap that is not empty always fits. When the view can be made the
    sinc variant returns with SINC_COEFFS_TRUNCATED set; when the overlap
    does not hold the ellipse's own box, APERTURE_TRUNCATED and FAILURE are
    set as well and the flux and its error are left at their defaults; when
    it does, those two flags stay clear and the flux is the sum of the
    products of the image pixels and the coefficients over the overlap (and,
    for a MaskedImage, the error is the root of the sum of variance times
    coefficient squared there). *)
Theorem sinc_flux_truncation_flags (mimage : MaskedImage) (ellipse : Ellipse) (ctrl : Control) :
  let image := getImagePlane mimage in
  let T := pixelType image in
  let c := shiftedCoeffs sincCoeffs offsetImage ellipse ctrl in
  let overlap := clip (getBBox c) (getBBox image) in
  let pixels := window (pixel image) (imX0 image) (imY0 image) overlap in
  let variances := window (variancePlane mimage) (imX0 image) (imY0 image) overlap in
  let coeffs := window (pixel c) (imX0 c) (imY0 c) overlap in
  let flux := arraySum T (products T pixels coeffs) in
  let err :=
    as_pixel T (sqrt (arraySum T (products T (map (as_pixel T) variances)
                                            (products T coeffs coeffs)))) in
  contains (getBBox image) (getBBox c) = false ->
  (isEmpty overlap = false -> boxFits c overlap = true)
  /\ (boxFits c overlap = false ->
      sincImage image ellipse ctrl = inl (LengthError "Box does not fit in the image")
      /\ sincMasked mimage ellipse ctrl = inl (LengthError "Box does not fit in the image"))
  /\ (boxFits c overlap = true ->
      contains overlap (ellipseBBox ellipse) = false ->
      sincImage image ellipse ctrl
      = inr (mkResult unset unset
               (Z.setbit (Z.setbit (Z.setbit 0 SINC_COEFFS_TRUNCATED) APERTURE_TRUNCATED)
                  FAILURE))
      /\ sincMasked mimage ellipse ctrl
         = inr (mkResult unset unset
                  (Z.setbit (Z.setbit (Z.setbit 0 SINC_COEFFS_TRUNCATED) APERTURE_TRUNCATED)
                     FAILURE)))
  /\ (isEmpty overlap = false ->
      contains overlap (ellipseBBox ellipse) = true ->
      sincImage image ellipse ctrl = inr (mkResult flux unset (Z.setbit 0 SINC_COEFFS_TRUNCATED))
      /\ sincMasked mimage ellipse ctrl
         = inr (mkResult flux err (Z.setbit 0 SINC_COEFFS_TRUNCATED))).
Proof.
  intros image T c overlap pixels variances coeffs flux err H.
  split; [|split; [|split]].
  - intros E. apply (@overlap_fits c image E).
  - intros F. unfold computeSincFlux_Image, computeSincFlux_MaskedImage. cbv zeta. fold image.
    rewrite (@getSincCoeffs_throws (getBBox image) ellipse (defaultResult unset) ctrl H F).
    split; reflexivity.
  - intros F Hout.
    destruct (@getSincCoeffs_clipped (getBBox image) ellipse (defaultResult unset) ctrl H F)
      as (clipped & E & _).
    fold c in E. fold overlap in E. rewrite Hout in E.
    unfold computeSincFlux_Image, computeSincFlux_MaskedImage. cbv zeta. fold image.
    rewrite E.
    change (getFlag (setFlag (setFlag (setFlag (defaultResult unset) SINC_COEFFS_TRUNCATED)
                        APERTURE_TRUNCATED) FAILURE) APERTURE_TRUNCATED) with true.
    cbv iota. split; reflexivity.
  - intros Hne Hin. destruct (@overlap_fits c image Hne) as [F1 F2].
    destruct (@getSincCoeffs_clipped (getBBox image) ellipse (defaultResult unset) ctrl H F1)
      as (clipped & E & B & Tc & A).
    destruct (@subImage_fits image overlap F2) as (sub & E2 & B2 & T2 & A2).
    fold c in E, B, Tc, A. fold overlap in E, B, A. rewrite Hin in E.
    assert (W : imWidth sub = Geom.getWidth overlap /\ imHeight sub = Geom.getHeight overlap)
      by (rewrite <- (box_eta (getBBox sub)) in B2; injection B2; auto).
    destruct W as [W1 W2].
    unfold computeSincFlux_Image, computeSincFlux_MaskedImage. cbv zeta. fold image.
    rewrite E.
    change (getFlag (setFlag (defaultResult unset) SINC_COEFFS_TRUNCATED) APERTURE_TRUNCATED)
      with false.
    cbv iota. rewrite B, E2.
    unfold setInstFlux, setInstFluxErr. cbn [instFlux instFluxErr resultFlags].
    rewrite A, A2, W1, W2, !times_products.
    split; reflexivity.
Qed.

(** C5: [computeFlux] takes the sinc variant exactly when the semi-minor axis
    of the ellipse is at most [maxSincRadius], and the naive variant
    otherwise, for an Image and for a MaskedImage. *)
Theorem computeFlux_selects_by_minor_axis
    (image : Image) (mimage : MaskedImage) (ellipse : Ellipse) (ctrl : Control) :
  let b := getB (axesOf quadrupoleToAxes (getCore ellipse)) in
  ((b <=? maxSincRadius ctrl) = true ->
   fluxImage image ellipse ctrl = sincImage image ellipse ctrl
   /\ fluxMasked mimage ellipse ctrl = sincMasked mimage ellipse ctrl)
  /\ ((b <=? maxSincRadius ctrl) = false ->
      fluxImage image ellipse ctrl = inr (naiveImage image ellipse ctrl)
      /\ fluxMasked mimage ellipse ctrl = inr (naiveMasked mimage ellipse ctrl)).
Proof.
  intros b. unfold computeFlux_Image, computeFlux_MaskedImage. fold b.
  split; intros ->; split; reflexivity.
Qed.

Lemma sumSpans_fold (px : Z -> Z -> float) (X0 Y0 : Z) (region : list Span) :
  forall acc, sumSpans px X0 Y0 region acc = fold_left add (map (spanTotal px X0 Y0) region) acc.
Proof.
  induction region as [|span rest IH]; intros acc; cbn [sumSpans map fold_left].
  - reflexivity.
  - rewrite IH. reflexivity.
Qed.

(** C6, as the code has it: when the box of the pixel region is not inside
    the image the naive variant sets APERTURE_TRUNCATED and FAILURE and
    leaves the flux and its error at their defaults; otherwise no flag is
    set, the flux is the sum over the spans of the pixels of each span, and
    for a MaskedImage the error is the square root of the same sum over the
    variance plane, which is at least 0 exactly when that sum is, and NaN
    when it is not. *)
Theorem naive_flux_sums_spans (mimage : MaskedImage) (ellipse : Ellipse) (ctrl : Control) :
  let image := getImagePlane mimage in
  let region := pixelRegion ellipse in
  let total := regionTotal (pixel image) (imX0 image) (imY0 image) (spans region) in
  let vtotal := regionTotal (variancePlane mimage) (imX0 image) (imY0 image) (spans region) in
  (contains (getBBox image) (regionBBox region) = false ->
   naiveImage image ellipse ctrl
   = mkResult unset unset (Z.setbit (Z.setbit 0 APERTURE_TRUNCATED) FAILURE)
   /\ naiveMasked mimage ellipse ctrl
      = mkResult unset unset (Z.setbit (Z.setbit 0 APERTURE_TRUNCATED) FAILURE))
  /\ (contains (getBBox image) (regionBBox region) = true ->
      naiveImage image ellipse ctrl = mkResult total unset 0
      /\ naiveMasked mimage ellipse ctrl = mkResult total (sqrt vtotal) 0
      /\ geb (instFluxErr (naiveMasked mimage ellipse ctrl)) 0 = geb vtotal 0
      /\ (geb vtotal 0 = false ->
          isnan (instFluxErr (naiveMasked mimage ellipse ctrl)) = true)).
Proof.
  intros image region total vtotal.
  unfold computeNaiveFlux_Image, computeNaiveFlux_MaskedImage. cbv zeta.
  fold image. fold region.
  split; intros ->; cbn [negb].
  - split; reflexivity.
  - rewrite !sumSpans_fold. fold total.
    unfold setInstFlux, setInstFluxErr, defaultResult. cbn [instFlux instFluxErr resultFlags].
    fold (regionTotal (variancePlane mimage) (imX0 image) (imY0 image) (spans region)).
    fold vtotal.
    repeat split; try reflexivity; apply sqrt_nonneg_iff.
Qed.
End ApertureFacts.


Section ApertureRuns.
Import Ieee Geom Ellipses Images ApertureFlux Statements.
Local Open Scope float_scope.

Local Abbreviation demoSinc :=
  (computeSincFlux_Image nan Demo.demoCoeffs Demo.demoOffset Demo.demoEllipseBBox
     Demo.demoArraySum).
Local Abbreviation demoSincMasked :=
  (computeSincFlux_MaskedImage nan Demo.demoCoeffs Demo.demoOffset Demo.demoEllipseBBox
     Demo.demoArraySum).
Local Abbreviation rampSinc :=
  (computeSincFlux_Image nan Demo.rampCoeffs Demo.demoOffset Demo.demoEllipseBBox
     Demo.demoArraySum).
Local Abbreviation rampSincMasked :=
  (computeSincFlux_MaskedImage nan Demo.rampCoeffs Demo.demoOffset Demo.demoEllipseBBox
     Demo.demoArraySum).
Local Abbreviation demoNaiveMasked := (computeNaiveFlux_MaskedImage nan Demo.demoPixelRegion).
Local Abbreviation demoFlux :=
  (computeFlux_Image nan Demo.demoCoeffs Demo.demoOffset Demo.demoEllipseBBox
     Demo.demoPixelRegion Demo.demoQuadrupoleToAxes Demo.demoArraySum).

(** Witness of C4: on the 8x8 ramp, an aperture centred on (1, 4) loses a
    column of coefficients only, and one centred on (0, 4) loses a column of
    the aperture itself; one centred on (100, 100) misses the image, and the
    view of the empty overlap cannot be made. *)
Lemma sinc_flux_witness :
  (rampSinc Demo.rampImage (Demo.circle 1 4 1) Demo.demoAperture
   = inr (mkResult 3307.5 nan 4)
   /\ rampSincMasked Demo.rampMasked (Demo.circle 1 4 1) Demo.demoAperture
      = inr (mkResult 3307.5 0x1.bc85afe8dd2a1p+4 4))
  /\ (rampSinc Demo.rampImage (Demo.circle 0 4 1) Demo.demoAperture
      = inr (mkResult nan nan 7)
      /\ rampSincMasked Demo.rampMasked (Demo.circle 0 4 1) Demo.demoAperture
         = inr (mkResult nan nan 7))
  /\ (rampSinc Demo.rampImage (Demo.circle 100 100 1) Demo.demoAperture
      = inl (LengthError "Box does not fit in the image")
      /\ rampSincMasked Demo.rampMasked (Demo.circle 100 100 1) Demo.demoAperture
         = inl (LengthError "Box does not fit in the image")).
Proof.
  split; [|split].
  - destruct (@sinc_flux_truncation_flags nan Demo.rampCoeffs Demo.demoOffset
                Demo.demoEllipseBBox Demo.demoArraySum Demo.rampMasked
                (Demo.circle 1 4 1) Demo.demoAperture eq_refl) as (_ & _ & _ & Hin).
    destruct (Hin eq_refl eq_refl) as [A B].
    split; (etransitivity; [first [exact A | exact B]|]); vm_compute; reflexivity.
  - destruct (@sinc_flux_truncation_flags nan Demo.rampCoeffs Demo.demoOffset
                Demo.demoEllipseBBox Demo.demoArraySum Demo.rampMasked
                (Demo.circle 0 4 1) Demo.demoAperture eq_refl) as (_ & _ & Hout & _).
    destruct (Hout eq_refl eq_refl) as [A B].
    split; (etransitivity; [first [exact A | exact B]|]); vm_compute; reflexivity.
  - destruct (@sinc_flux_truncation_flags nan Demo.rampCoeffs Demo.demoOffset
                Demo.demoEllipseBBox Demo.demoArraySum Demo.rampMasked
                (Demo.circle 100 100 1) Demo.demoAperture eq_refl) as (_ & Hthrow & _).
    exact (Hthrow eq_refl).
Defined.

(** Witness of C5: a radius of 3 is measured with the sinc variant, a
    radius of 12 with the naive one. *)
Lemma computeFlux_witness :
  demoFlux Demo.onesImage (Demo.circle 4 4 3) Demo.demoAperture
  = demoSinc Demo.onesImage (Demo.circle 4 4 3) Demo.demoAperture
  /\ demoFlux Demo.onesImage (Demo.circle 4 4 12) Demo.demoAperture
     = inr (computeNaiveFlux_Image nan Demo.demoPixelRegion Demo.onesImage
              (Demo.circle 4 4 12) Demo.demoAperture).
Proof.
  split.
  - apply (proj1 (@computeFlux_selects_by_minor_axis nan Demo.demoCoeffs Demo.demoOffset
                    Demo.demoEllipseBBox Demo.demoPixelRegion Demo.demoQuadrupoleToAxes
                    Demo.demoArraySum Demo.onesImage (Demo.onesMasked 1)
                    (Demo.circle 4 4 3) Demo.demoAperture)).
    reflexivity.
  - apply (proj2 (@computeFlux_selects_by_minor_axis nan Demo.demoCoeffs Demo.demoOffset
                    Demo.demoEllipseBBox Demo.demoPixelRegion Demo.demoQuadrupoleToAxes
                    Demo.demoArraySum Demo.onesImage (Demo.onesMasked 1)
                    (Demo.circle 4 4 12) Demo.demoAperture)).
    reflexivity.
Defined.

(** Counterexample to C6: the aperture fits in the image and the flux is 9,
    but with a variance of -1 in every pixel the error is the square root of
    -9, and with a NaN variance it is the square root of NaN: a NaN both
    times, which is not at least 0. *)
Lemma naive_flux_error_not_nonneg :
  contains (getBBox Demo.onesImage) (regionBBox (Demo.demoPixelRegion (Demo.circle 4 4 1))) = true
  /\ instFlux (demoNaiveMasked (Demo.onesMasked (-1)) (Demo.circle 4 4 1) Demo.demoAperture) = 9
  /\ geb (instFluxErr (demoNaiveMasked (Demo.onesMasked (-1)) (Demo.circle 4 4 1)
                         Demo.demoAperture)) 0 = false
  /\ geb (instFluxErr (demoNaiveMasked (Demo.onesMasked nan) (Demo.circle 4 4 1)
                         Demo.demoAperture)) 0 = false.
Proof. vm_compute. auto. Qed.

(** Witness of C6: with a variance of 4 in every pixel the flux is 9 and the
    error is 6. *)
Lemma naive_flux_witness :
  demoNaiveMasked (Demo.onesMasked 4) (Demo.circle 4 4 1) Demo.demoAperture = mkResult 9 6 0.
Proof.
  destruct (proj2 (@naive_flux_sums_spans nan Demo.demoPixelRegion (Demo.onesMasked 4)
                     (Demo.circle 4 4 1) Demo.demoAperture) eq_refl) as (_ & E & _).
  rewrite E. vm_compute. reflexivity.
Defined.
End ApertureRuns.

(** ** The shape guard *)

Section GuardFacts.
Import Ieee Ellipses InputUtilities Statements.
Local Open Scope float_scope.

(** X2: a shape that fails the test of the code is never returned: the call
    raises a runtime error when the flag key is missing or the flag is not
    set, and a measurement error with the failure flag number otherwise. *)
Lemma SafeShapeExtractor_raises (record : SourceRecord) (flags : FlagHandler) :
  shapeKeyValid record = true ->
  fails_shape_test (getShape record) = true ->
  SafeShapeExtractor_call record flags
  = if negb (shapeFlagKeyValid record) then
      inl (RuntimeError "Shape slot value is NaN, but there is no Shape slot flag")
    else if negb (getShapeFlag record) then
      inl (RuntimeError "Shape slot value is NaN, but the Shape slot flag is not set")
    else
      inl (MeasurementError "Shape needed, and Shape slot measurement failed."
             (getFailureFlagNumber flags)).
Proof.
  unfold SafeShapeExtractor_call, fails_shape_test. intros -> H. cbn [negb]. cbv zeta.
  rewrite H. reflexivity.
Qed.

(** Witness of X2: the shape (1, 1, 2), whose determinant is -3, with its
    flag set, raises the measurement error with the failure flag. *)
Lemma SafeShapeExtractor_raises_witness :
  SafeShapeExtractor_call (mkRecord true true (mkQuadrupole 1 1 2) true 0) (mkHandler 5)
  = inl (MeasurementError "Shape needed, and Shape slot measurement failed." 5).
Proof.
  exact (@SafeShapeExtractor_raises (mkRecord true true (mkQuadrupole 1 1 2) true 0)
           (mkHandler 5) eq_refl eq_refl).
Defined.

(** C8: a shape slot holding (0, 0, 0) has Ixx*Iyy = (1 + 1e-6)*Ixy^2, yet
    the call raises nothing and returns that quadrupole, flag key or not. *)
Theorem SafeShapeExtractor_returns_degenerate_shape (flagKey flag : bool) (flags : FlagHandler) :
  exists record',
    SafeShapeExtractor_call (mkRecord true flagKey (mkQuadrupole 0 0 0) flag 0) flags
    = inr (mkQuadrupole 0 0 0, record')
    /\ geb ((1 + 0x1.0c6f7a0b5ed8dp-20) * 0 * 0) (0 * 0) = true.
Proof.
  unfold SafeShapeExtractor_call. cbn [shapeKeyValid negb getShape].
  cbv zeta.
  change (isnan (getIxx (mkQuadrupole 0 0 0)) || isnan (getIyy (mkQuadrupole 0 0 0))
          || isnan (getIxy (mkQuadrupole 0 0 0))
          || (getIxx (mkQuadrupole 0 0 0) * getIyy (mkQuadrupole 0 0 0)
              <? (1 + 0x1.0c6f7a0b5ed8dp-20) * getIxy (mkQuadrupole 0 0 0)
                 * getIxy (mkQuadrupole 0 0 0))) with false.
  cbv iota.
  destruct (shapeFlagKeyValid _ && getShapeFlag _); eexists; split; reflexivity.
Qed.
End GuardFacts.

(** ** Comparisons of numbers *)

Lemma SFcompare_antisym (a b : spec_float) :
  SFcompare b a = option_map CompOpp (SFcompare a b).
Proof.
  destruct a as [sa|sa| |sa ma ea], b as [sb|sb| |sb mb eb]; cbn;
    try reflexivity; try (destruct sa; reflexivity); try (destruct sb; reflexivity);
    try (destruct sa, sb; reflexivity).
  destruct sa, sb; cbn; try reflexivity;
    rewrite (Z.compare_antisym ea eb); destruct (ea ?= eb)%Z; cbn; try reflexivity;
    rewrite (Pos.compare_cont_antisym ma mb Eq); cbn;
    destruct (Pos.compare_cont Eq ma mb); reflexivity.
Qed.

Lemma SFcompare_numbers (a b : float) :
  Ieee.isnan a = false -> Ieee.isnan b = false ->
  exists c, SFcompare (Prim2SF a) (Prim2SF b) = Some c.
Proof.
  unfold Ieee.isnan, is_nan. rewrite !eqb_spec. unfold SFeqb.
  destruct (Prim2SF a) as [sa|sa| |sa ma ea], (Prim2SF b) as [sb|sb| |sb mb eb]; cbn;
    intros Ha Hb; try discriminate; eauto.
Qed.

(** Among numbers, [a <= b] fails exactly when [b < a] holds. *)
Lemma leb_negb_ltb (a b : float) :
  Ieee.isnan a = false -> Ieee.isnan b = false -> (a <=? b)%float = negb (b <? a)%float.
Proof.
  intros Ha Hb. rewrite leb_spec, ltb_spec. unfold SFleb, SFltb.
  rewrite (SFcompare_antisym (Prim2SF a) (Prim2SF b)).
  destruct (@SFcompare_numbers a b Ha Hb) as [c ->]. destruct c; reflexivity.
Qed.

(** A comparison with a NaN on either side is false. *)
Lemma ltb_nan_l (a b : float) : Ieee.isnan a = true -> (a <? b)%float = false.
Proof.
  unfold Ieee.isnan, is_nan. rewrite eqb_spec, ltb_spec. unfold SFeqb, SFltb.
  destruct (Prim2SF a) as [sa|sa| |sa ma ea]; cbn; try discriminate; try reflexivity.
  - destruct sa; discriminate.
  - rewrite Z.compare_refl, Pos.compare_cont_refl. destruct sa; discriminate.
Qed.

Lemma ltb_nan_r (a b : float) : Ieee.isnan b = true -> (a <? b)%float = false.
Proof.
  unfold Ieee.isnan, is_nan. rewrite eqb_spec, ltb_spec. unfold SFeqb, SFltb.
  destruct (Prim2SF b) as [sb|sb| |sb mb eb]; cbn; try discriminate.
  - destruct sb; discriminate.
  - intros _. destruct (Prim2SF a); reflexivity.
  - rewrite Z.compare_refl, Pos.compare_cont_refl. destruct sb; discriminate.
Qed.

Lemma leb_nan_l (a b : float) : Ieee.isnan a = true -> (a <=? b)%float = false.
Proof.
  unfold Ieee.isnan, is_nan. rewrite eqb_spec, leb_spec. unfold SFeqb, SFleb.
  destruct (Prim2SF a) as [sa|sa| |sa ma ea]; cbn; try discriminate; try reflexivity.
  - destruct sa; discriminate.
  - rewrite Z.compare_refl, Pos.compare_cont_refl. destruct sa; discriminate.
Qed.

Lemma leb_nan_r (a b : float) : Ieee.isnan b = true -> (a <=? b)%float = false.
Proof.
  unfold Ieee.isnan, is_nan. rewrite eqb_spec, leb_spec. unfold SFeqb, SFleb.
  destruct (Prim2SF b) as [sb|sb| |sb mb eb]; cbn; try discriminate.
  - destruct sb; discriminate.
  - intros _. destruct (Prim2SF a); reflexivity.
  - rewrite Z.compare_refl, Pos.compare_cont_refl. destruct sb; discriminate.
Qed.

(** ** The solver: flags and exceptions *)

Section SolverFacts.
Import Ieee Geom Ellipses Images SdssShape Statements.
Local Open Scope float_scope.

Variable approxExp : float -> float.
Variable pow : float -> float -> float.
Variable quadrupoleToAxes : Quadrupole -> Axes.
Variable axesToQuadrupole : Axes -> Quadrupole.
Variable inverse2 : Matrix2 -> Matrix2.
Variable inverse4 : Matrix4 -> Matrix4.
Variable mimage : ImageT.
Variable bkgd xcen ycen : float.
Variable maxIter : Z.
Variable tol1 tol2 : float.

Local Abbreviation iterationOf shiftmax :=
  (iteration approxExp pow quadrupoleToAxes axesToQuadrupole inverse2 mimage bkgd xcen ycen
     shiftmax tol1 tol2).
Local Abbreviation iterateOf shiftmax :=
  (iterate approxExp pow quadrupoleToAxes axesToQuadrupole inverse2 mimage bkgd xcen ycen
     shiftmax maxIter tol1 tol2).
Local Abbreviation unweightedOf :=
  (unweighted_moments approxExp pow quadrupoleToAxes axesToQuadrupole inverse2 mimage bkgd
     xcen ycen).
Local Abbreviation finishOf :=
  (finish approxExp pow quadrupoleToAxes axesToQuadrupole inverse2 inverse4 mimage bkgd
     xcen ycen maxIter).
Local Abbreviation solverOf shiftmax :=
  (getAdaptiveMoments approxExp pow quadrupoleToAxes axesToQuadrupole inverse2 inverse4
     mimage bkgd xcen ycen shiftmax maxIter tol1 tol2).

Ltac split_test :=
  match goal with
  | |- context [match ?c with (_, _) => _ end] => destruct c eqn:?
  | |- context [if ?c then _ else _] => destruct c eqn:?
  end.

(** The loop writes two flags only: UNWEIGHTED and SHIFT. *)
Lemma iteration_other_flags (shiftmax : float) (st : LoopState) (n : Z) :
  n <> UNWEIGHTED -> n <> SHIFT ->
  getFlag (ls_shape (fst (iterationOf shiftmax st))) n = getFlag (ls_shape st) n.
Proof.
  intros H1 H2. apply Z.eqb_neq in H1, H2. unfold iteration. cbv zeta.
  repeat split_test; cbn [fst ls_shape];
    rewrite ?getFlag_setFlag by (unfold UNWEIGHTED; lia);
    rewrite ?update_centroid_flags;
    rewrite ?H2, ?(Z.eqb_sym UNWEIGHTED n), ?H1; reflexivity.
Qed.

Lemma iterate_other_flags (shiftmax : float) (n : Z) (fuel : nat) :
  n <> UNWEIGHTED -> n <> SHIFT ->
  forall st st',
    iterateOf shiftmax fuel st = Some st' ->
    getFlag (ls_shape st') n = getFlag (ls_shape st) n.
Proof.
  intros H1 H2. induction fuel as [|k IH]; intros st st'; cbn [iterate];
    destruct (ls_iter st <? maxIter)%Z; try discriminate;
    try (intros E; injection E as <-; reflexivity).
  pose proof (iteration_other_flags shiftmax st H1 H2) as A.
  destruct (iterationOf shiftmax st) as [a [|]]; cbn [fst] in A.
  - intros E. injection E as <-. exact A.
  - intros E. rewrite (IH _ _ E). exact A.
Qed.

(** How the part after the loop ends, in terms of the flags that the two
    tests after the loop leave. *)
Lemma finish_flags (st : LoopState) :
  match finishOf st with
  | Returned ok sh =>
      if ok then getFlags sh = getFlags (after_loop_flags maxIter st)
      else
        getFlag (after_loop_flags maxIter st) UNWEIGHTED = true
        /\ getFlags sh
           = Z.setbit (Z.clearbit (getFlags (after_loop_flags maxIter st)) UNWEIGHTED)
               UNWEIGHTED_BAD
  | Raised e sh =>
      getFlags sh = getFlags (after_loop_flags maxIter st)
      /\ getFlag (after_loop_flags maxIter st) UNWEIGHTED = false
      /\ e = DomainError "Determinant is too small calculating Fisher matrix"
      /\ exists mi, mimage = Masked mi
  end.
Proof.
  assert (S : forall shape I0 s a b c,
             match store inverse4 mimage xcen ycen shape I0 s a b c with
             | Returned ok sh => ok = true /\ getFlags sh = getFlags shape
             | Raised e sh =>
                 getFlags sh = getFlags shape /\ getFlag shape UNWEIGHTED = false
                 /\ e = DomainError "Determinant is too small calculating Fisher matrix"
                 /\ exists mi, mimage = Masked mi
             end).
  { intros shape I0 s a b c. unfold store. cbv zeta.
    set (t := setIxy4 (setIyy (setIxy (setIxx (setI0 shape I0) a) b) c) (sums4 s / sum s)).
    assert (F : getFlags t = getFlags shape) by reflexivity.
    assert (G : getFlag t UNWEIGHTED = getFlag shape UNWEIGHTED) by reflexivity.
    clearbody t.
    destruct (negb (getIxx t + getIyy t =? 0)); [|auto].
    destruct ((positionToIndex xcen >=? 0)%Z && (positionToIndex xcen <? imWidth (image mimage))%Z
              && (positionToIndex ycen >=? 0)%Z
              && (positionToIndex ycen <? imHeight (image mimage))%Z); [|auto].
    destruct (gtb (to_f32 (getVariance mimage (positionToIndex xcen) (positionToIndex ycen))) 0)
      eqn:Hv; [|auto].
    destruct (getFlag t UNWEIGHTED) eqn:Hu; cbn [negb]; [auto|].
    unfold calc_fisher. cbv zeta.
    destruct (_ <=? double_epsilon).
    - repeat split; auto.
      destruct mimage as [im|mi]; [|eauto].
      cbn [getVariance] in Hv. vm_compute in Hv. discriminate Hv.
    - rewrite (@float_gt_zero_not_le _ Hv). auto. }
  unfold finish. cbv zeta.
  destruct (getFlag (after_loop_flags maxIter st) UNWEIGHTED) eqn:Hu.
  - destruct (unweightedOf st) as [status [I0 s]].
    destruct ((status <? 0)%Z || (sum s <=? 0)).
    + split; [reflexivity|].
      destruct (gtb (sum s) 0); reflexivity.
    + specialize (S (after_loop_flags maxIter st) I0 s (sumxx s / sum s) (sumxy s / sum s)
                    (sumyy s / sum s)).
      destruct (store _ _ _ _ _ _ _ _ _ _) as [ok sh|e sh].
      * destruct S as [-> S]. exact S.
      * destruct S as (_ & S & _). congruence.
  - specialize (S (after_loop_flags maxIter st) (ls_I0 st) (ls_sums st) (ls_sigma11W st)
                  (ls_sigma12W st) (ls_sigma22W st)).
    destruct (store _ _ _ _ _ _ _ _ _ _) as [ok sh|e sh].
    + destruct S as [-> S]. exact S.
    + destruct S as (S1 & _ & S3 & S4). auto.
Qed.

Lemma solver_cases (shiftmax : float) (shape : SdssShapeImpl) (garbage : Sums) :
  (isnan xcen || isnan ycen = true
   /\ solverOf shiftmax shape garbage = Returned false (setFlag shape UNWEIGHTED_BAD))
  \/ (isnan xcen || isnan ycen = false
      /\ exists st,
          iterateOf shiftmax (loop_fuel maxIter) (initial_state shape garbage) = Some st
          /\ solverOf shiftmax shape garbage = finishOf st).
Proof.
  unfold getAdaptiveMoments. destruct (isnan xcen || isnan ycen); [left; auto|right].
  split; [reflexivity|].
  edestruct iterate_from_start_ends as [st Hst]. exists st. rewrite Hst. auto.
Qed.

(** X4: from a shape with UNWEIGHTED_BAD, UNWEIGHTED and MAXITER clear,
    [getAdaptiveMoments] returns false exactly when it leaves UNWEIGHTED_BAD
    set; it never leaves UNWEIGHTED and UNWEIGHTED_BAD set together; and
    MAXITER is never left set without one of the two. *)
Theorem final_flags_are_consistent (shiftmax : float) (shape : SdssShapeImpl) (garbage : Sums) :
  getFlag shape UNWEIGHTED_BAD = false ->
  getFlag shape UNWEIGHTED = false ->
  getFlag shape MAXITER = false ->
  let sh := shapeOf (solverOf shiftmax shape garbage) in
  (getFlag sh UNWEIGHTED_BAD = true <-> exists sh', solverOf shiftmax shape garbage = Returned false sh')
  /\ getFlag sh UNWEIGHTED && getFlag sh UNWEIGHTED_BAD = false
  /\ (getFlag sh MAXITER = true -> getFlag sh UNWEIGHTED || getFlag sh UNWEIGHTED_BAD = true).
Proof.
  intros Hbad Hunw Hmax sh. subst sh.
  destruct (solver_cases shiftmax shape garbage) as [[_ ->] | [_ (st & Hst & ->)]].
  - cbn [shapeOf]. rewrite !getFlag_setFlag by (unfold UNWEIGHTED_BAD; lia).
    rewrite Hunw, Hmax. cbn. split; [|split]; [|reflexivity|discriminate].
    split; [eauto|reflexivity].
  - pose proof (fun n A1 A2 =>
                  @iterate_other_flags shiftmax n (loop_fuel maxIter) A1 A2 _ _ Hst) as K.
    cbn [initial_state ls_shape] in K.
    assert (B : getFlag (after_loop_flags maxIter st) UNWEIGHTED_BAD = false).
    { rewrite after_loop_flags_spec.
      rewrite K by (unfold UNWEIGHTED_BAD, UNWEIGHTED, SHIFT; lia).
      rewrite Hbad.
      unfold UNWEIGHTED_BAD, UNWEIGHTED, MAXITER. cbn. rewrite !andb_false_r. reflexivity. }
    assert (M : getFlag (after_loop_flags maxIter st) MAXITER = true ->
                getFlag (after_loop_flags maxIter st) UNWEIGHTED = true).
    { rewrite !after_loop_flags_spec.
      rewrite (K MAXITER) by (unfold MAXITER, UNWEIGHTED, SHIFT; lia).
      rewrite Hmax.
      unfold UNWEIGHTED, MAXITER. cbn. rewrite !andb_false_r, !orb_false_r.
      intros ->. reflexivity. }
    pose proof (finish_flags st) as F.
    destruct (finishOf st) as [[|] sh|e sh]; cbn [shapeOf].
    + unfold getFlag in *. rewrite F. rewrite B. split; [|split].
      * split; [discriminate|]. intros [sh' E]. discriminate E.
      * apply andb_false_r.
      * intros H. rewrite (M H). reflexivity.
    + destruct F as [_ F]. unfold getFlag in *. rewrite F.
      rewrite !testbit_setbit, !testbit_clearbit by (unfold UNWEIGHTED_BAD, UNWEIGHTED; lia).
      unfold UNWEIGHTED_BAD, UNWEIGHTED, MAXITER. cbn. rewrite !andb_false_r, ?orb_true_r.
      split; [|split]; auto. split; eauto.
    + destruct F as (F & U & _). unfold getFlag in *. rewrite F, B, U. split; [|split].
      * split; [discriminate|]. intros [sh' E]. discriminate E.
      * reflexivity.
      * intros H. rewrite (M H) in U. discriminate U.
Qed.

(** X5: the only exception that leaves [getAdaptiveMoments] is the domain
    error of [calc_fisher] for a small determinant; it needs a MaskedImage
    (an Image has no variance), and it leaves UNWEIGHTED clear. The domain
    error for the background variance is never raised from here. *)
Theorem only_the_fisher_determinant_raises
    (shiftmax : float) (shape : SdssShapeImpl) (garbage : Sums) :
  match solverOf shiftmax shape garbage with
  | Returned _ _ => True
  | Raised e sh =>
      e = DomainError "Determinant is too small calculating Fisher matrix"
      /\ (exists mi, mimage = Masked mi)
      /\ getFlag sh UNWEIGHTED = false
  end.
Proof.
  destruct (solver_cases shiftmax shape garbage) as [[_ ->] | [_ (st & _ & ->)]]; [exact I|].
  pose proof (finish_flags st) as F.
  destruct (finishOf st) as [ok sh|e sh]; [exact I|].
  destruct F as (F & U & E & M). repeat split; auto.
  unfold getFlag in *. rewrite F. exact U.
Qed.

(** A NaN limit makes the test of the shift false. *)
Lemma shift_exceeds_nan (shiftmax : float) (s : Sums) :
  isnan shiftmax = true -> shift_exceeds xcen ycen shiftmax s = false.
Proof.
  intros H. unfold shift_exceeds, gtb. rewrite !(@ltb_nan_l _ _ H). reflexivity.
Qed.

Lemma iteration_nan_shift (shiftmax : float) (st : LoopState) :
  isnan shiftmax = true ->
  getFlag (ls_shape (fst (iterationOf shiftmax st))) SHIFT = getFlag (ls_shape st) SHIFT.
Proof.
  intros H. unfold iteration. cbv zeta.
  repeat split_test; cbn [fst ls_shape];
    rewrite ?getFlag_setFlag by (unfold UNWEIGHTED; lia);
    rewrite ?update_centroid_flags, ?(@shift_exceeds_nan _ _ H), ?andb_false_r;
    reflexivity.
Qed.

Lemma iterate_nan_shift (shiftmax : float) (fuel : nat) :
  isnan shiftmax = true ->
  forall st st',
    iterateOf shiftmax fuel st = Some st' ->
    getFlag (ls_shape st') SHIFT = getFlag (ls_shape st) SHIFT.
Proof.
  intros H. induction fuel as [|k IH]; intros st st'; cbn [iterate];
    destruct (ls_iter st <? maxIter)%Z; try discriminate;
    try (intros E; injection E as <-; reflexivity).
  pose proof (@iteration_nan_shift shiftmax st H) as A.
  destruct (iterationOf shiftmax st) as [a [|]]; cbn [fst] in A.
  - intros E. injection E as <-. exact A.
  - intros E. rewrite (IH _ _ E). exact A.
Qed.

(** With a NaN limit the solver leaves SHIFT as it found it. *)
Lemma solver_nan_shift (shiftmax : float) (shape : SdssShapeImpl) (garbage : Sums) :
  isnan shiftmax = true ->
  getFlag (shapeOf (solverOf shiftmax shape garbage)) SHIFT = getFlag shape SHIFT.
Proof.
  intros H.
  destruct (solver_cases shiftmax shape garbage) as [[_ ->] | [_ (st & Hst & ->)]].
  - cbn [shapeOf]. rewrite getFlag_setFlag by (unfold UNWEIGHTED_BAD; lia). reflexivity.
  - pose proof (@iterate_nan_shift shiftmax _ H _ _ Hst) as K.
    cbn [initial_state ls_shape] in K. rewrite <- K.
    assert (A : getFlag (after_loop_flags maxIter st) SHIFT = getFlag (ls_shape st) SHIFT).
    { rewrite after_loop_flags_spec. unfold SHIFT, UNWEIGHTED, MAXITER. cbn.
      rewrite !andb_false_r. reflexivity. }
    rewrite <- A.
    pose proof (finish_flags st) as F.
    destruct (finishOf st) as [[|] sh|e sh]; cbn [shapeOf]; unfold getFlag in *.
    + rewrite F. reflexivity.
    + destruct F as [_ F]. rewrite F.
      rewrite !testbit_setbit, !testbit_clearbit by (unfold UNWEIGHTED_BAD, UNWEIGHTED; lia).
      unfold UNWEIGHTED_BAD, UNWEIGHTED, SHIFT. cbn. rewrite andb_true_r. reflexivity.
    + destruct F as (F & _). rewrite F. reflexivity.
Qed.
End SolverFacts.

(** ** The solver: what it reads *)

Section ReadFacts.
Import Ieee Geom Ellipses Images SdssShape Statements.
Local Open Scope float_scope.

Variable approxExp : float -> float.
Variable pow : float -> float -> float.
Variable quadrupoleToAxes : Quadrupole -> Axes.
Variable axesToQuadrupole : Axes -> Quadrupole.
Variable inverse2 : Matrix2 -> Matrix2.
Variable inverse4 : Matrix4 -> Matrix4.

Lemma for_count_ext (S : Type) (f g : Z -> S -> S) (n : nat) :
  forall (lo : Z) (s : S),
    (forall i s', (lo <= i < lo + Z.of_nat n)%Z -> f i s' = g i s') ->
    for_count f n lo s = for_count g n lo s.
Proof.
  induction n as [|k IH]; intros lo s H; cbn [for_count]; [reflexivity|].
  rewrite (H lo s) by lia. apply IH. intros i s' Hi. apply H. lia.
Qed.

Lemma for_range_ext (S : Type) (f g : Z -> S -> S) (lo hi : Z) (s : S) :
  (forall i s', (lo <= i <= hi)%Z -> f i s' = g i s') ->
  for_range f lo hi s = for_range g lo hi s.
Proof.
  intros H. unfold for_range. apply for_count_ext. intros i s' Hi. apply H. lia.
Qed.

(** [calcmom] reads no pixel outside the image. *)
Lemma calcmom_same_inside (a b : Image) (fluxOnly : bool) (xc yc : float) (bbox : BoxI)
    (bg : float) (interpflag : bool) (w11 w12 w22 : float) (psum psums4 : bool)
    (outs : float * Sums) :
  same_pixels_inside a b ->
  calcmom approxExp pow quadrupoleToAxes axesToQuadrupole inverse2 fluxOnly a xc yc bbox bg
    interpflag w11 w12 w22 psum psums4 outs
  = calcmom approxExp pow quadrupoleToAxes axesToQuadrupole inverse2 fluxOnly b xc yc bbox bg
      interpflag w11 w12 w22 psum psums4 outs.
Proof.
  intros (T & W & H & P). unfold calcmom. cbv zeta. rewrite <- T, <- W, <- H.
  destruct (gtb (fabs w11) 1e6 || gtb (fabs w12) 1e6 || gtb (fabs w22) 1e6); [reflexivity|].
  destruct ((getMinX bbox <? 0)%Z || (getMaxX bbox >=? imWidth a)%Z || (getMinY bbox <? 0)%Z
            || (getMaxY bbox >=? imHeight a)%Z) eqn:G; [reflexivity|].
  apply orb_false_iff in G. destruct G as [G G4].
  apply orb_false_iff in G. destruct G as [G G3].
  apply orb_false_iff in G. destruct G as [G1 G2].
  apply Z.ltb_ge in G1, G3. rewrite Z.geb_leb in G2, G4. apply Z.leb_gt in G2, G4.
  match goal with
  | |- context [for_range ?f (getMinY bbox) (getMaxY bbox) zeroSums] =>
      match goal with
      | |- context [sum (for_range ?g (getMinY bbox) (getMaxY bbox) zeroSums) / _] =>
          first [ constr_eq f g; fail 1
                | assert (E : for_range f (getMinY bbox) (getMaxY bbox) zeroSums
                              = for_range g (getMinY bbox) (getMaxY bbox) zeroSums) ]
      end
  end.
  { apply for_range_ext. intros i s Hi. apply for_range_ext. intros j s' Hj.
    rewrite (P j i) by lia. reflexivity. }
  rewrite E. reflexivity.
Qed.

Lemma same_inside_image (m1 m2 : ImageT) :
  same_inside m1 m2 -> same_pixels_inside (getImage m1) (getImage m2).
Proof.
  destruct m1 as [i1|k1], m2 as [i2|k2]; cbn [same_inside getImage]; tauto.
Qed.

Lemma same_inside_variance (m1 m2 : ImageT) (ix iy : Z) :
  same_inside m1 m2 ->
  (0 <= ix < imWidth (getImage m1))%Z -> (0 <= iy < imHeight (getImage m1))%Z ->
  getVariance m1 ix iy = getVariance m2 ix iy.
Proof.
  destruct m1 as [i1|k1], m2 as [i2|k2]; cbn [same_inside getImage getVariance];
    try tauto. intros [_ V]. apply V.
Qed.

Variable bkgd xcen ycen shiftmax : float.
Variable maxIter : Z.
Variable tol1 tol2 : float.

Lemma iteration_same_inside (m1 m2 : ImageT) (st : LoopState) :
  same_inside m1 m2 ->
  iteration approxExp pow quadrupoleToAxes axesToQuadrupole inverse2 m1 bkgd xcen ycen
    shiftmax tol1 tol2 st
  = iteration approxExp pow quadrupoleToAxes axesToQuadrupole inverse2 m2 bkgd xcen ycen
      shiftmax tol1 tol2 st.
Proof.
  intros H. pose proof (@same_inside_image m1 m2 H) as I.
  destruct I as (T & W & Hh & P).
  unfold iteration, image. cbv zeta. rewrite <- W, <- Hh.
  destruct (negb (w_ok _)); [reflexivity|].
  rewrite (@calcmom_same_inside (getImage m1) (getImage m2)) by (repeat split; assumption).
  reflexivity.
Qed.

Lemma iterate_same_inside (m1 m2 : ImageT) (fuel : nat) :
  same_inside m1 m2 ->
  forall st,
    iterate approxExp pow quadrupoleToAxes axesToQuadrupole inverse2 m1 bkgd xcen ycen
      shiftmax maxIter tol1 tol2 fuel st
    = iterate approxExp pow quadrupoleToAxes axesToQuadrupole inverse2 m2 bkgd xcen ycen
        shiftmax maxIter tol1 tol2 fuel st.
Proof.
  intros H. induction fuel as [|k IH]; intros st; cbn [iterate]; [reflexivity|].
  rewrite (@iteration_same_inside m1 m2 st H).
  destruct (ls_iter st <? maxIter)%Z; [|reflexivity].
  destruct (iteration _ _ _ _ _ m2 _ _ _ _ _ _ st) as [st' [|]]; [reflexivity|apply IH].
Qed.

Lemma store_same_inside (m1 m2 : ImageT) (shape : SdssShapeImpl) (I0 : float) (s : Sums)
    (a b c : float) :
  same_inside m1 m2 ->
  store inverse4 m1 xcen ycen shape I0 s a b c = store inverse4 m2 xcen ycen shape I0 s a b c.
Proof.
  intros H. pose proof (@same_inside_image m1 m2 H) as (T & W & Hh & P).
  unfold store, image. cbv zeta. rewrite <- W, <- Hh.
  destruct (negb _); [|reflexivity].
  destruct ((positionToIndex xcen >=? 0)%Z && (positionToIndex xcen <? imWidth (getImage m1))%Z
            && (positionToIndex ycen >=? 0)%Z
            && (positionToIndex ycen <? imHeight (getImage m1))%Z) eqn:G; [|reflexivity].
  apply andb_true_iff in G. destruct G as [G G4].
  apply andb_true_iff in G. destruct G as [G G3].
  apply andb_true_iff in G. destruct G as [G1 G2].
  rewrite Z.geb_leb in G1, G3. apply Z.leb_le in G1, G3. apply Z.ltb_lt in G2, G4.
  rewrite (@same_inside_variance m1 m2 _ _ H) by lia. reflexivity.
Qed.

(** X6: [getAdaptiveMoments] reads no pixel and no variance outside the
    bounds of the image: on two images of the same type and size that agree
    inside their bounds it ends the same way, whatever they hold elsewhere. *)
Theorem getAdaptiveMoments_reads_inside_the_image
    (m1 m2 : ImageT) (shape : SdssShapeImpl) (garbage : Sums) :
  same_inside m1 m2 ->
  getAdaptiveMoments approxExp pow quadrupoleToAxes axesToQuadrupole inverse2 inverse4
    m1 bkgd xcen ycen shiftmax maxIter tol1 tol2 shape garbage
  = getAdaptiveMoments approxExp pow quadrupoleToAxes axesToQuadrupole inverse2 inverse4
      m2 bkgd xcen ycen shiftmax maxIter tol1 tol2 shape garbage.
Proof.
  intros H. pose proof (@same_inside_image m1 m2 H) as I.
  unfold getAdaptiveMoments. rewrite (@iterate_same_inside m1 m2 _ H).
  destruct (isnan xcen || isnan ycen); [reflexivity|].
  destruct (iterate _ _ _ _ _ m2 _ _ _ _ _ _ _ _ _) as [st|]; [|reflexivity].
  unfold finish, unweighted_moments, image. cbv zeta.
  rewrite (@calcmom_same_inside (getImage m1) (getImage m2)) by assumption.
  destruct (getFlag _ UNWEIGHTED).
  - destruct (calcmom _ _ _ _ _ _ _ _ _ _ _ _ _ _ _ _ _ _) as [status [I0 s]].
    destruct ((status <? 0)%Z || (sum s <=? 0)); [reflexivity|].
    apply store_same_inside, H.
  - apply store_same_inside, H.
Qed.
End ReadFacts.

(** ** The solver: edge cases *)

Section EdgeFacts.
Import Ieee Geom Ellipses Images SdssShape Statements.
Local Open Scope float_scope.

Variable approxExp : float -> float.
Variable pow : float -> float -> float.
Variable quadrupoleToAxes : Quadrupole -> Axes.
Variable axesToQuadrupole : Axes -> Quadrupole.
Variable inverse2 : Matrix2 -> Matrix2.
Variable inverse4 : Matrix4 -> Matrix4.

(** X7: [getWeights] reports success exactly when no moment is NaN and the
    determinant is a number that is not below float epsilon; the weights
    are then the entries of the inverse matrix, and on failure all three
    are NaN. *)
Theorem getWeights_succeeds_iff (sigma11 sigma12 sigma22 : float) (careful : bool) :
  let w := getWeights pow quadrupoleToAxes axesToQuadrupole inverse2 sigma11 sigma12 sigma22
             careful in
  let det := sigma11 * sigma22 - sigma12 * sigma12 in
  w_ok w = negb (isnan sigma11 || isnan sigma12 || isnan sigma22 || isnan det
                 || (det <? float_epsilon))
  /\ (w_ok w = true ->
      geb det float_epsilon = true
      /\ w = mkWeights true det (sigma22 / det) (- sigma12 / det) (sigma11 / det))
  /\ (w_ok w = false ->
      isnan (w_11 w) = true /\ isnan (w_12 w) = true /\ isnan (w_22 w) = true).
Proof.
  intros w det. subst w. unfold getWeights. fold det.
  destruct (isnan sigma11 || isnan sigma12 || isnan sigma22); cbn [orb negb].
  { repeat split; try discriminate; reflexivity. }
  cbv zeta. fold det.
  destruct (isnan det) eqn:Hn; cbn [orb negb].
  { repeat split; try discriminate; reflexivity. }
  destruct (det <? float_epsilon) eqn:Hd; cbn [negb w_ok].
  { repeat split; try discriminate; reflexivity. }
  split; [reflexivity|]. split; [|discriminate]. intros _. split; [|reflexivity].
  unfold geb. rewrite leb_negb_ltb by (try assumption; reflexivity). rewrite Hd. reflexivity.
Qed.

(** X8: with [maxIter = 0] the loop body never runs, and for a centroid that
    is not NaN [getAdaptiveMoments] returns false, whatever the image holds:
    the un-weighted pass over the empty box it starts with sums nothing.
    The shape is left with UNWEIGHTED_BAD and MAXITER set and UNWEIGHTED
    clear, and all its numbers as they were. *)
Theorem no_iteration_returns_false
    (mimage : ImageT) (bkgd xcen ycen shiftmax tol1 tol2 : float)
    (shape : SdssShapeImpl) (garbage : Sums) :
  isnan xcen || isnan ycen = false ->
  (0 <= imWidth (getImage mimage))%Z ->
  (0 <= imHeight (getImage mimage))%Z ->
  exists fl,
    getAdaptiveMoments approxExp pow quadrupoleToAxes axesToQuadrupole inverse2 inverse4
      mimage bkgd xcen ycen shiftmax 0 tol1 tol2 shape garbage
    = Returned false (withFlags shape fl)
    /\ Z.testbit fl UNWEIGHTED_BAD = true
    /\ Z.testbit fl MAXITER = true
    /\ Z.testbit fl UNWEIGHTED = false.
Proof.
  intros Hnan Hw Hh. unfold getAdaptiveMoments. rewrite Hnan.
  change (loop_fuel 0) with 1%nat. cbn [iterate].
  change (ls_iter (initial_state shape garbage) <? 0)%Z with false. cbv iota.
  unfold finish. cbv zeta.
  set (st := initial_state shape garbage).
  assert (F : exists f0, after_loop_flags 0 st = withFlags shape f0
                         /\ Z.testbit f0 UNWEIGHTED = true /\ Z.testbit f0 MAXITER = true).
  { unfold after_loop_flags. cbv zeta. subst st. unfold initial_state.
    cbn [ls_iter ls_shape ls_sums].
    change (0 =? 0)%Z with true. cbv iota.
    unfold setFlag, withFlags.
    cbn [getFlags getI0 SdssShape.getX SdssShape.getY getIxx getIxy getIyy getIxy4 getCovar].
    destruct (sumxx garbage + sumyy garbage =? 0); eexists; (split; [reflexivity|]);
      rewrite !testbit_setbit by (unfold UNWEIGHTED, MAXITER; lia);
      unfold UNWEIGHTED, MAXITER; cbn [Z.eqb Pos.eqb orb]; rewrite ?orb_true_r;
      split; reflexivity. }
  destruct F as (f0 & -> & U & M).
  unfold getFlag, withFlags. cbn [getFlags]. rewrite U.
  assert (C : unweighted_moments approxExp pow quadrupoleToAxes axesToQuadrupole inverse2
                mimage bkgd xcen ycen st
              = ((-1)%Z,
                 (0 / (PI * sqrt (w_11 (getWeights pow quadrupoleToAxes axesToQuadrupole
                                          inverse2 0 0 0 true)
                                  * w_22 (getWeights pow quadrupoleToAxes axesToQuadrupole
                                            inverse2 0 0 0 true)
                                  - pow (w_12 (getWeights pow quadrupoleToAxes axesToQuadrupole
                                                 inverse2 0 0 0 true)) 2)),
                  mkSums 0 0 0 0 0 0 (sums4 garbage)))).
  { unfold unweighted_moments, calcmom, image. subst st. unfold initial_state.
    cbn [ls_bbox ls_interpflag ls_I0 ls_sums].
    change (gtb (fabs 0) 1e6) with false. cbn [orb].
    change (getMinX emptyBox) with 0%Z. change (getMaxX emptyBox) with (-1)%Z.
    change (getMinY emptyBox) with 0%Z. change (getMaxY emptyBox) with (-1)%Z.
    change (0 <? 0)%Z with false. cbn [orb].
    rewrite !Z.geb_leb.
    replace (imWidth (getImage mimage) <=? -1)%Z with false by (symmetry; apply Z.leb_gt; lia).
    replace (imHeight (getImage mimage) <=? -1)%Z with false by (symmetry; apply Z.leb_gt; lia).
    cbn [orb]. cbv zeta. unfold for_range at 1.
    change (Z.to_nat (-1 - 0 + 1)) with 0%nat. cbn [for_count].
    reflexivity. }
  rewrite C. cbv iota. change (-1 <? 0)%Z with true. cbn [orb sum].
  change (gtb 0 0) with false. cbv iota.
  unfold setFlag, resetFlag, withFlags. cbn [getFlags getI0 SdssShape.getX SdssShape.getY
    getIxx getIxy getIyy getIxy4 getCovar].
  eexists. split; [reflexivity|].
  rewrite !testbit_setbit, !testbit_clearbit by (unfold UNWEIGHTED_BAD, UNWEIGHTED; lia).
  rewrite M, U. repeat split; reflexivity.
Qed.
End EdgeFacts.

(** ** apply: the shift limit and the flags *)

Section ShiftFacts.
Import Ieee Geom Ellipses Images SdssShape Statements.
Local Open Scope float_scope.

Variable approxExp : float -> float.
Variable pow : float -> float -> float.
Variable quadrupoleToAxes : Quadrupole -> Axes.
Variable axesToQuadrupole : Axes -> Quadrupole.
Variable inverse2 : Matrix2 -> Matrix2.
Variable inverse4 : Matrix4 -> Matrix4.
Variable defaultImpl : SdssShapeImpl.
Variable getXErr getYErr getIxxErr getIyyErr getIxyErr : SdssShapeImpl -> float.

Local Abbreviation solveOf :=
  (solve approxExp pow quadrupoleToAxes axesToQuadrupole inverse2 inverse4 defaultImpl).
Local Abbreviation applyOf :=
  (apply approxExp pow quadrupoleToAxes axesToQuadrupole inverse2 inverse4 defaultImpl
     getXErr getYErr getIxxErr getIyyErr getIxyErr).

Lemma to_f32_nan (v : float) : isnan v = true -> to_f32 v = v.
Proof.
  unfold isnan, is_nan, to_f32. rewrite eqb_spec. unfold SFeqb.
  destruct (Prim2SF v) as [s|s| |s m e]; cbn; try reflexivity.
  rewrite Z.compare_refl, Pos.compare_cont_refl. destruct s; discriminate.
Qed.

Lemma clampShift_nan (maxShift : float) :
  isnan maxShift = true -> clampShift maxShift = maxShift.
Proof.
  intros H. unfold clampShift. cbv zeta. rewrite (@to_f32_nan _ H).
  unfold gtb. rewrite (@ltb_nan_l _ _ H), (@ltb_nan_r _ _ H). reflexivity.
Qed.

(** X9: the limit on the shift that [apply] hands to the solver lies between
    2 and 10 whenever [maxShift], as a [float], is a number; a NaN
    [maxShift] is handed on as it is. *)
Theorem clampShift_range (maxShift : float) :
  (isnan maxShift = true -> clampShift maxShift = maxShift)
  /\ (isnan (to_f32 maxShift) = false ->
      geb (clampShift maxShift) 2 = true /\ (clampShift maxShift <=? 10) = true).
Proof.
  split; [apply clampShift_nan|]. unfold clampShift. cbv zeta.
  - intros H. unfold gtb, geb.
    destruct (to_f32 maxShift <? 2) eqn:L; [split; reflexivity|].
    destruct (10 <? to_f32 maxShift) eqn:G; [split; reflexivity|].
    rewrite !leb_negb_ltb by (try assumption; reflexivity). rewrite L, G. split; reflexivity.
Qed.

(** The flags of the result after the flag loop, bit by bit. *)
Lemma apply_copyFlags_bits (shapeImpl : SdssShapeImpl) (flags0 : Z) (m : Z) :
  Z.testbit (copyFlags shapeImpl flags0) m
  = Z.testbit flags0 m
    || ((m =? FAILURE)%Z
        && (getFlag shapeImpl 0 || getFlag shapeImpl 1 || getFlag shapeImpl 2
            || getFlag shapeImpl 3))
    || ((1 <=? m)%Z && (m <=? 4)%Z && getFlag shapeImpl (m - 1)).
Proof.
  rewrite copyFlags_unrolled. cbv zeta. unfold FAILURE.
  assert (Hcase : m = 0%Z \/ m = 1%Z \/ m = 2%Z \/ m = 3%Z \/ m = 4%Z \/ (m < 0 \/ 4 < m)%Z)
    by lia.
  destruct Hcase as [-> | [-> | [-> | [-> | [-> | Hout]]]]].
  1-5: cbn [Z.sub Z.eqb Z.leb Z.compare Pos.compare Pos.compare_cont Z.pos_sub Z.opp
            Z.add Pos.pred_double andb];
       destruct (getFlag shapeImpl 0), (getFlag shapeImpl 1),
                (getFlag shapeImpl 2), (getFlag shapeImpl 3);
       rewrite ?testbit_setbit by lia; cbn; rewrite ?orb_false_r, ?orb_true_r; reflexivity.
  replace (m =? 0)%Z with false by (symmetry; apply Z.eqb_neq; lia).
  replace ((1 <=? m)%Z && (m <=? 4)%Z) with false
    by (symmetry; apply andb_false_iff; rewrite Z.leb_gt, Z.leb_gt; lia).
  cbn [andb]. rewrite !orb_false_r.
  destruct (getFlag shapeImpl 0), (getFlag shapeImpl 1),
           (getFlag shapeImpl 2), (getFlag shapeImpl 3);
    rewrite ?testbit_setbit by lia;
    repeat match goal with
    | |- context [(?k =? m)%Z] =>
        replace (k =? m)%Z with false by (symmetry; apply Z.eqb_neq; lia)
    end; reflexivity.
Qed.

(** X10: the result of [apply] carries exactly the flags of the solver: flag
    [n + 1] is set if and only if the solver left its flag [n] set, the
    general failure flag if and only if the solver threw or left a flag
    set, and no other bit is set. *)
Theorem apply_sets_exactly_the_solver_flags
    (mimage : MaskedImage) (centerX centerY : float) (control : SdssShapeControl)
    (garbage : Sums) (m : Z) :
  let outcome := solveOf mimage centerX centerY control garbage in
  let sh := shapeOf outcome in
  let threw := match outcome with Raised _ _ => true | Returned _ _ => false end in
  Z.testbit (flags (applyOf mimage centerX centerY control garbage)) m
  = ((m =? FAILURE)%Z
     && (threw || getFlag sh UNWEIGHTED_BAD || getFlag sh UNWEIGHTED || getFlag sh SHIFT
         || getFlag sh MAXITER))
    || ((1 <=? m)%Z && (m <=? N_FLAGS)%Z && getFlag sh (m - 1)).
Proof.
  intros outcome sh threw. unfold apply. cbv zeta. cbn [flags].
  fold outcome. fold sh. rewrite apply_copyFlags_bits.
  unfold UNWEIGHTED_BAD, UNWEIGHTED, SHIFT, MAXITER, N_FLAGS.
  subst threw. destruct outcome as [ok s|e s].
  - rewrite Z.testbit_0_l. cbn [orb]. reflexivity.
  - rewrite testbit_setbit by (unfold FAILURE; lia). rewrite Z.testbit_0_l, orb_false_r.
    unfold FAILURE. rewrite (Z.eqb_sym 0 m).
    destruct (m =? 0)%Z; cbn [andb orb]; reflexivity.
Qed.

(** X11: a NaN [maxShift] is not clamped, and the test of the shift, a
    comparison with NaN, is then never true: the result of [apply] does not
    have the shift flag, for a fresh shape that does not have it. *)
Theorem nan_maxShift_never_flags_shift
    (mimage : MaskedImage) (centerX centerY : float) (control : SdssShapeControl)
    (garbage : Sums) :
  isnan (maxShift control) = true ->
  getFlag defaultImpl SHIFT = false ->
  Z.testbit (flags (applyOf mimage centerX centerY control garbage)) RESULT_SHIFT = false.
Proof.
  intros Hnan Hd. unfold apply. cbv zeta. cbn [flags]. rewrite apply_copyFlags_bits.
  assert (S : getFlag (shapeOf (solveOf mimage centerX centerY control garbage)) SHIFT = false).
  { unfold solve. cbv zeta. rewrite solver_nan_shift; [exact Hd|].
    rewrite (@clampShift_nan _ Hnan). exact Hnan. }
  unfold RESULT_SHIFT, FAILURE. cbn [Z.eqb Z.leb Z.compare Pos.compare Pos.compare_cont andb
    Z.sub Z.pos_sub Z.add Z.opp Pos.pred_double orb].
  unfold SHIFT in S. rewrite S.
  destruct (solveOf mimage centerX centerY control garbage) as [ok s|e s];
    rewrite ?testbit_setbit by lia; rewrite ?Z.testbit_0_l; reflexivity.
Qed.

Variable getFluxScale getI0Err : SdssShapeImpl -> float.

(** Where a sub-pixel loop is over within its fuel, more fuel changes
    nothing: the model of the loop is then the loop. *)
Lemma step_quarter_fuel (S : Type) (body : float -> S -> S) (hi : float) (fuel : nat) :
  forall V s more,
    step_quarter_ends fuel V hi = true ->
    step_quarter body (fuel + more) V hi s = step_quarter body fuel V hi s.
Proof.
  induction fuel as [|k IH]; intros V s more H; cbn [step_quarter_ends] in H.
  - apply negb_true_iff in H. cbn [Nat.add step_quarter].
    destruct more as [|m]; cbn [step_quarter]; [reflexivity|]. rewrite H. reflexivity.
  - cbn [Nat.add step_quarter]. destruct (V <=? hi); [|reflexivity]. apply IH, H.
Qed.

(** Without interpolation [calcmom] has no sub-pixel loop to wait for. *)
Lemma calcmom_ends_plain (image : Image) (xc yc : float) (bbox : BoxI) (w11 w12 w22 : float) :
  calcmom_ends image xc yc bbox false w11 w12 w22 = true.
Proof.
  unfold calcmom_ends. cbv zeta. cbn [negb].
  repeat match goal with |- context [if ?c then _ else _] => destruct c end; reflexivity.
Qed.

(** X12: [getFixedMomentsFlux] returns (NaN, NaN), and throws nothing, when
    [getWeights] rejects the moments of the shape. When it accepts them, the
    call comes to an end exactly when the sub-pixel loops of [calcmom] are
    over within their passes, which they are whenever the shape is not
    interpolated. With the centre on a pixel of the image, where the
    variance can be read, it then throws a domain error when that variance
    is at most 0, and a domain error is all it ever throws. *)
Theorem getFixedMomentsFlux_failures
    (image : ImageT) (bkgd xcen ycen : float) (shape_ : SdssShapeImpl) :
  let flux := getFixedMomentsFlux approxExp pow quadrupoleToAxes axesToQuadrupole inverse2
                inverse4 getFluxScale getI0Err image bkgd xcen ycen shape_ in
  let w := getWeights pow quadrupoleToAxes axesToQuadrupole inverse2
             (getIxx shape_) (getIxy shape_) (getIyy shape_) true in
  let interp := shouldInterp (getIxx shape_) (getIyy shape_) (w_det w) in
  let im := getImage image in
  let ends :=
    calcmom_ends im (to_f32 (xcen - of_int (imX0 im))) (to_f32 (ycen - of_int (imY0 im)))
      (set_amom_bbox (imWidth im) (imHeight im) (to_f32 xcen) (to_f32 ycen)
         (getIxx shape_) (getIxy shape_) (getIyy shape_) default_maxRad)
      interp (w_11 w) (w_12 w) (w_22 w) in
  let ix := static_cast_int (xcen - of_int (imX0 im)) in
  let iy := static_cast_int (ycen - of_int (imY0 im)) in
  let inside := ((0 <=? ix) && (ix <? imWidth im) && (0 <=? iy) && (iy <? imHeight im))%Z in
  let bkgd_var := to_f32 (getVariance image ix iy) in
  (w_ok w = false -> flux = Some (inr (NaN, NaN)))
  /\ (flux = None <-> w_ok w = true /\ ends = false)
  /\ (interp = false -> ends = true)
  /\ (inside = true -> w_ok w = true -> ends = true -> (bkgd_var <=? 0) = true ->
      exists msg, flux = Some (inl (DomainError msg)))
  /\ (inside = true -> forall e, flux = Some (inl e) -> exists msg, e = DomainError msg).
Proof.
  intros flux w interp im ends ix iy inside bkgd_var. clearbody inside.
  subst flux. unfold getFixedMomentsFlux. cbv zeta.
  fold w. fold interp. fold im. fold ends.
  assert (Hplain : interp = false -> ends = true)
    by (intros Hi; unfold ends; rewrite Hi; apply calcmom_ends_plain).
  destruct (w_ok w); cbn [negb].
  - destruct ends; cbn [negb].
    + fold ix iy. fold bkgd_var. split; [discriminate|].
      unfold calc_fisher. cbv zeta.
      destruct (_ <=? double_epsilon).
      * split; [split; [discriminate | intros [_ K]; discriminate K]|].
        split; [exact Hplain|]. split; [eauto|]. intros _ e E. injection E as <-. eauto.
      * destruct (bkgd_var <=? 0).
        -- split; [split; [discriminate | intros [_ K]; discriminate K]|].
           split; [exact Hplain|]. split; [eauto|]. intros _ e E. injection E as <-. eauto.
        -- split; [split; [discriminate | intros [_ K]; discriminate K]|].
           split; [exact Hplain|]. split; [discriminate|]. intros _ e E. discriminate E.
    + split; [discriminate|]. split; [split; auto|].
      split; [exact Hplain|]. split; [discriminate|]. intros _ e E. discriminate E.
  - split; [reflexivity|]. split; [split; [discriminate | intros [K _]; discriminate K]|].
    split; [exact Hplain|]. split; [discriminate|]. intros _ e E. discriminate E.
Qed.
End ShiftFacts.

(** ** Field names *)

Section FieldFacts.
Import Ieee ApertureFlux.
Local Open Scope float_scope.

Variable formatRadius : float -> string.

Lemma replace_all_copy_absent (s : string) (from to : ascii) :
  from <> to -> ~ In from (list_ascii_of_string (replace_all_copy s from to)).
Proof.
  intros Hne. induction s as [|c rest IH]; cbn [replace_all_copy list_ascii_of_string];
    [intros []|].
  intros [H | H]; [|exact (IH H)].
  destruct (Ascii.eqb c from) eqn:E.
  - apply Hne. symmetry. exact H.
  - apply Ascii.eqb_neq in E. apply E. exact H.
Qed.

Lemma replace_all_copy_length (s : string) (from to : ascii) :
  String.length (replace_all_copy s from to) = String.length s.
Proof.
  induction s as [|c rest IH]; cbn [replace_all_copy String.length]; congruence.
Qed.

Lemma length_append (s t : string) :
  String.length (s ++ t) = (String.length s + String.length t)%nat.
Proof.
  induction s as [|c rest IH]; cbn [String.append String.length Nat.add]; congruence.
Qed.

(** X13: a field prefix never holds a dot, whatever the name of the algorithm
    and the print of the radius are: the dots of the name are replaced as
    well as the decimal point. The prefix is as long as the name, one
    underscore and the printed radius together. *)
Theorem makeFieldPrefix_has_no_dot (name : string) (radius : float) :
  ~ In "."%char (list_ascii_of_string (makeFieldPrefix formatRadius name radius))
  /\ String.length (makeFieldPrefix formatRadius name radius)
     = (String.length name + 1 + String.length (formatRadius radius))%nat.
Proof.
  unfold makeFieldPrefix. cbv zeta. split.
  - apply replace_all_copy_absent. discriminate.
  - rewrite replace_all_copy_length, !length_append. cbn [String.length]. lia.
Qed.

Lemma keys_match_transform (ctrl : Control) (name : string) (radius : float) :
  isnan (maxSincRadius ctrl) = false -> isnan radius = false ->
  flat_map
    (fun flag =>
       if gtb radius (maxSincRadius ctrl) && isSincCoeffsTruncated flag then []
       else [(makeFieldPrefix formatRadius name radius ++ "_" ++ flagName flag)%string])
    flagDefinitions
  = keysFlagFields (makeFieldPrefix formatRadius name radius) (radius <=? maxSincRadius ctrl).
Proof.
  intros Hm Hr. unfold gtb. rewrite (@leb_negb_ltb radius (maxSincRadius ctrl) Hr Hm).
  unfold keysFlagFields, flagDefinitions.
  destruct (maxSincRadius ctrl <? radius); reflexivity.
Qed.

(** X14: when [maxSincRadius] and the radii are numbers, the constructor of
    the transform looks up exactly the flag fields that the constructor of
    the algorithm added to the schema, in the same order. *)
Theorem transform_maps_the_declared_flag_fields (ctrl : Control) (name : string) :
  isnan (maxSincRadius ctrl) = false ->
  (forall radius, In radius (radii ctrl) -> isnan radius = false) ->
  transformFlagFields formatRadius ctrl name = algorithmFlagFields formatRadius ctrl name.
Proof.
  intros Hm Hr. unfold transformFlagFields, algorithmFlagFields.
  induction (radii ctrl) as [|radius rest IH]; cbn [flat_map]; [reflexivity|].
  rewrite (@keys_match_transform ctrl name radius Hm) by (apply Hr; left; reflexivity).
  f_equal. apply IH. intros r Hin. apply Hr. right. exact Hin.
Qed.
End FieldFacts.

(** ** Aperture fluxes: flags and overloads *)

Section FluxFacts.
Import Ieee Geom Ellipses Images ApertureFlux Statements.
Local Open Scope float_scope.

Variable unset : float.
Variable sincCoeffs : EllipseCore -> float -> Image.
Variable offsetImage : Image -> float -> float -> string -> Image.
Variable ellipseBBox : Ellipse -> BoxI.
Variable pixelRegion : Ellipse -> PixelRegion.
Variable quadrupoleToAxes : Quadrupole -> Axes.
Variable arraySum : PixelType -> list float -> float.

Local Abbreviation sincImage := (computeSincFlux_Image unset sincCoeffs offsetImage ellipseBBox arraySum).
Local Abbreviation sincMasked :=
  (computeSincFlux_MaskedImage unset sincCoeffs offsetImage ellipseBBox arraySum).
Local Abbreviation naiveImage := (computeNaiveFlux_Image unset pixelRegion).
Local Abbreviation naiveMasked := (computeNaiveFlux_MaskedImage unset pixelRegion).
Local Abbreviation fluxImage :=
  (computeFlux_Image unset sincCoeffs offsetImage ellipseBBox pixelRegion quadrupoleToAxes arraySum).
Local Abbreviation fluxMasked :=
  (computeFlux_MaskedImage unset sincCoeffs offsetImage ellipseBBox pixelRegion
     quadrupoleToAxes arraySum).

(** What [getSincCoeffs] does when the coefficient image fits. *)
Lemma getSincCoeffs_fits (bbox : BoxI) (ellipse : Ellipse) (result : Result) (ctrl : Control) :
  contains bbox (getBBox (shiftedCoeffs sincCoeffs offsetImage ellipse ctrl)) = true ->
  getSincCoeffs sincCoeffs offsetImage ellipseBBox bbox ellipse result ctrl
  = inr (shiftedCoeffs sincCoeffs offsetImage ellipse ctrl, result).
Proof.
  intros H. unfold getSincCoeffs. cbv zeta.
  fold (shiftedCoeffs sincCoeffs offsetImage ellipse ctrl). rewrite H. reflexivity.
Qed.

(** The arrays of the source, element by element: [getArray] holds the
    pixel of column [c] and row [r] at the index [r * width + c]. *)
Lemma nth_rows (A : Type) (f : nat -> list A) (n : nat) (d : A) :
  (forall i, List.length (f i) = n) ->
  forall m start i j,
    (i < m)%nat -> (j < n)%nat ->
    nth (i * n + j) (flat_map f (seq start m)) d = nth j (f (start + i)%nat) d.
Proof.
  intros L. induction m as [|m IH]; intros start i j Hi Hj; [lia|].
  cbn [seq flat_map]. destruct i as [|i].
  - rewrite app_nth1 by (rewrite L; lia). rewrite Nat.add_0_r. reflexivity.
  - rewrite app_nth2 by (rewrite L; lia). rewrite L.
    replace (Datatypes.S i * n + j - n)%nat with (i * n + j)%nat by lia.
    rewrite IH by lia. f_equal. f_equal. lia.
Qed.

Lemma length_row_pixels (px : Z -> Z -> float) (c r n : Z) :
  List.length (row_pixels px c r n) = Z.to_nat n.
Proof. unfold row_pixels. rewrite length_map, length_seq. reflexivity. Qed.

Lemma nth_row_pixels (px : Z -> Z -> float) (c r n k : Z) (d : float) :
  (0 <= k < n)%Z -> nth (Z.to_nat k) (row_pixels px c r n) d = px (c + k)%Z r.
Proof.
  intros Hk. unfold row_pixels.
  rewrite (nth_indep _ d (px (c + Z.of_nat 0)%Z r)) by (rewrite length_map, length_seq; lia).
  rewrite (map_nth (fun k => px (c + Z.of_nat k)%Z r)), seq_nth by lia.
  cbn [Nat.add]. rewrite Z2Nat.id by lia. reflexivity.
Qed.

Lemma length_getArray (px : Z -> Z -> float) (w h : Z) :
  List.length (getArray px w h) = (Z.to_nat h * Z.to_nat w)%nat.
Proof.
  unfold getArray. generalize 0%nat. induction (Z.to_nat h) as [|m IH]; intros start.
  - reflexivity.
  - cbn [seq flat_map]. rewrite length_app, IH, length_row_pixels. lia.
Qed.

Lemma nth_getArray (px : Z -> Z -> float) (w h c r : Z) (d : float) :
  (0 <= c < w)%Z -> (0 <= r < h)%Z ->
  nth (Z.to_nat (r * w + c)) (getArray px w h) d = px c r.
Proof.
  intros Hc Hr. unfold getArray.
  replace (Z.to_nat (r * w + c)) with (Z.to_nat r * Z.to_nat w + Z.to_nat c)%nat by nia.
  rewrite (@nth_rows float (fun r => row_pixels px 0 (Z.of_nat r) w) (Z.to_nat w) d)
    by (try (intros i; apply length_row_pixels); lia).
  cbn [Nat.add]. rewrite nth_row_pixels by lia. rewrite Z2Nat.id by lia. reflexivity.
Qed.

(** The sinc variant when the coefficient image needs no clipping and the
    view of the image under it can be made. *)
Lemma sinc_fits (mimage : MaskedImage) (ellipse : Ellipse) (ctrl : Control) :
  let image := getImagePlane mimage in
  let T := pixelType image in
  let c := shiftedCoeffs sincCoeffs offsetImage ellipse ctrl in
  let pixels := window (pixel image) (imX0 image) (imY0 image) (getBBox c) in
  let variances := window (variancePlane mimage) (imX0 image) (imY0 image) (getBBox c) in
  let coeffs := getArray (pixel c) (imWidth c) (imHeight c) in
  contains (getBBox image) (getBBox c) = true ->
  boxFits image (getBBox c) = true ->
  sincImage image ellipse ctrl = inr (mkResult (arraySum T (times T pixels coeffs)) unset 0)
  /\ sincMasked mimage ellipse ctrl
     = inr (mkResult (arraySum T (times T pixels coeffs))
              (as_pixel T (sqrt (arraySum T (times T (map (as_pixel T) variances)
                                                       (times T coeffs coeffs)))))
              0).
Proof.
  intros image T c pixels variances coeffs H F.
  destruct (@subImage_fits image (getBBox c) F) as (sub & E & B & Ts & A).
  assert (W : imWidth sub = imWidth c /\ imHeight sub = imHeight c)
    by (unfold getBBox in B; injection B; auto).
  destruct W as [W1 W2].
  split.
  - unfold computeSincFlux_Image. rewrite (@getSincCoeffs_fits _ ellipse _ ctrl H).
    fold c. change (getFlag (defaultResult unset) APERTURE_TRUNCATED) with false. cbv iota.
    rewrite E. cbv zeta. rewrite A. reflexivity.
  - unfold computeSincFlux_MaskedImage. cbv zeta. fold image.
    rewrite (@getSincCoeffs_fits _ ellipse _ ctrl H).
    fold c. change (getFlag (defaultResult unset) APERTURE_TRUNCATED) with false. cbv iota.
    rewrite E. rewrite A, W1, W2. reflexivity.
Qed.

(** X15: when the shifted coefficient image is not empty and fits in the
    image, the sinc variant sets no flag and throws nothing. Every
    coefficient lies over a pixel of the image; the flux is the sum of the
    products of each coefficient and the pixel under it, and for a
    MaskedImage the error is the root of the sum of the variance under each
    coefficient times the squared coefficient. The three arrays are given
    element by element: the index [j * width + i] holds what belongs to
    column [i] and row [j] of the coefficient image. *)
Theorem sinc_flux_when_coefficients_fit
    (mimage : MaskedImage) (ellipse : Ellipse) (ctrl : Control) :
  let image := getImagePlane mimage in
  let T := pixelType image in
  let c := shiftedCoeffs sincCoeffs offsetImage ellipse ctrl in
  let dx := (imX0 c - imX0 image)%Z in
  let dy := (imY0 c - imY0 image)%Z in
  let pixels := window (pixel image) (imX0 image) (imY0 image) (getBBox c) in
  let variances := window (variancePlane mimage) (imX0 image) (imY0 image) (getBBox c) in
  let coeffs := getArray (pixel c) (imWidth c) (imHeight c) in
  let area := (Z.to_nat (imHeight c) * Z.to_nat (imWidth c))%nat in
  contains (getBBox image) (getBBox c) = true ->
  isEmpty (getBBox c) = false ->
  (List.length pixels = area /\ List.length variances = area
   /\ List.length coeffs = area)
  /\ (forall i j : Z,
         (0 <= i < imWidth c)%Z -> (0 <= j < imHeight c)%Z ->
         ((0 <= i + dx < imWidth image)%Z /\ (0 <= j + dy < imHeight image)%Z)
         /\ nth (Z.to_nat (j * imWidth c + i)) pixels 0 = pixel image (i + dx)%Z (j + dy)%Z
         /\ nth (Z.to_nat (j * imWidth c + i)) variances 0
            = variancePlane mimage (i + dx)%Z (j + dy)%Z
         /\ nth (Z.to_nat (j * imWidth c + i)) coeffs 0 = pixel c i j)
  /\ sincImage image ellipse ctrl = inr (mkResult (arraySum T (products T pixels coeffs)) unset 0)
  /\ sincMasked mimage ellipse ctrl
     = inr (mkResult (arraySum T (products T pixels coeffs))
              (as_pixel T (sqrt (arraySum T (products T (map (as_pixel T) variances)
                                                          (products T coeffs coeffs)))))
              0).
Proof.
  intros image T c dx dy pixels variances coeffs area H Hne.
  assert (F : boxFits image (getBBox c) = true)
    by (rewrite (@boxFits_contains image (getBBox c) Hne); exact H).
  split; [|split].
  - unfold pixels, variances, coeffs, window, area. rewrite !length_getArray.
    repeat split; reflexivity.
  - intros i j Hi Hj. split; [|split; [|split]].
    + revert H Hne. unfold contains, isEmpty, getBBox, getMinX, getMinY, getMaxX, getMaxY.
      cbn [minX minY dimX dimY]. intros H Hne. rewrite Hne in H. cbn [orb] in H.
      rewrite !andb_true_iff, !Z.leb_le in H. unfold dx, dy. lia.
    + unfold pixels, window. unfold Geom.getWidth, Geom.getHeight, getBBox.
      cbn [minX minY dimX dimY getMinX getMinY].
      rewrite nth_getArray by assumption. unfold dx, dy. f_equal; lia.
    + unfold variances, window. unfold Geom.getWidth, Geom.getHeight, getBBox.
      cbn [minX minY dimX dimY getMinX getMinY].
      rewrite nth_getArray by assumption. unfold dx, dy. f_equal; lia.
    + unfold coeffs. apply nth_getArray; assumption.
  - rewrite <- !times_products. apply (@sinc_fits mimage ellipse ctrl H F).
Qed.

(** The two overloads of the sinc variant, side by side. Either both return
    a result, with the same flags and the same flux, or the constructor of a
    view throws in both: that takes an empty overlap of the coefficient
    image and the image. *)
Lemma sinc_results (mimage : MaskedImage) (ellipse : Ellipse) (ctrl : Control) :
  (exists flux err fl,
      sincImage (getImagePlane mimage) ellipse ctrl = inr (mkResult flux unset fl)
      /\ sincMasked mimage ellipse ctrl = inr (mkResult flux err fl)
      /\ Z.testbit fl FAILURE = Z.testbit fl APERTURE_TRUNCATED
      /\ (Z.testbit fl FAILURE = true -> flux = unset /\ err = unset)
      /\ (forall n, Z.testbit fl n = true ->
                    n = FAILURE \/ n = APERTURE_TRUNCATED \/ n = SINC_COEFFS_TRUNCATED))
  \/ (sincImage (getImagePlane mimage) ellipse ctrl
      = inl (LengthError "Box does not fit in the image")
      /\ sincMasked mimage ellipse ctrl = inl (LengthError "Box does not fit in the image")
      /\ isEmpty (clip (getBBox (shiftedCoeffs sincCoeffs offsetImage ellipse ctrl))
                    (getBBox (getImagePlane mimage))) = true).
Proof.
  set (image := getImagePlane mimage).
  set (c := shiftedCoeffs sincCoeffs offsetImage ellipse ctrl).
  destruct (contains (getBBox image) (getBBox c)) eqn:H.
  - destruct (boxFits image (getBBox c)) eqn:F.
    + destruct (@sinc_fits mimage ellipse ctrl H F) as [E1 E2].
      fold image in E1. left. do 3 eexists. split; [exact E1|]. split; [exact E2|].
      split; [reflexivity|]. split.
      * rewrite Z.testbit_0_l. discriminate.
      * intros n. rewrite Z.testbit_0_l. discriminate.
    + right.
      assert (Hemp : isEmpty (getBBox c) = true).
      { destruct (isEmpty (getBBox c)) eqn:Hemp; [reflexivity|].
        rewrite (@boxFits_contains image (getBBox c) Hemp) in F. congruence. }
      unfold computeSincFlux_Image, computeSincFlux_MaskedImage. cbv zeta. fold image.
      rewrite (@getSincCoeffs_fits _ ellipse _ ctrl H). fold c.
      change (getFlag (defaultResult unset) APERTURE_TRUNCATED) with false. cbv iota.
      rewrite (@subImage_throws _ _ F).
      split; [reflexivity|]. split; [reflexivity|].
      unfold clip. rewrite Hemp. exact Hemp.
  - destruct (boxFits c (clip (getBBox c) (getBBox image))) eqn:F1.
    + destruct (@getSincCoeffs_clipped sincCoeffs offsetImage ellipseBBox (getBBox image) ellipse
                  (defaultResult unset) ctrl H F1) as (clipped & E & B & Tc & A).
      fold c in E, B.
      unfold computeSincFlux_Image, computeSincFlux_MaskedImage. cbv zeta. fold image.
      rewrite E.
      destruct (contains (clip (getBBox c) (getBBox image)) (ellipseBBox ellipse)).
      * change (getFlag (setFlag (defaultResult unset) SINC_COEFFS_TRUNCATED) APERTURE_TRUNCATED)
          with false. cbv iota. rewrite B.
        destruct (boxFits image (clip (getBBox c) (getBBox image))) eqn:F2.
        -- destruct (@subImage_fits image _ F2) as (sub & E2 & _). rewrite E2.
           left. do 3 eexists. split; [reflexivity|]. split; [reflexivity|].
           cbn [resultFlags setFlag defaultResult].
           rewrite !testbit_setbit by (unfold SINC_COEFFS_TRUNCATED; lia).
           split; [reflexivity|]. split; [discriminate|].
           intros n. rewrite testbit_setbit by (unfold SINC_COEFFS_TRUNCATED; lia).
           rewrite Z.testbit_0_l, orb_false_r. intros Hn. apply Z.eqb_eq in Hn. auto.
        -- rewrite (@subImage_throws _ _ F2). right.
           split; [reflexivity|]. split; [reflexivity|].
           destruct (isEmpty (clip (getBBox c) (getBBox image))) eqn:Hemp; [reflexivity|].
           destruct (@overlap_fits c image Hemp) as [_ K]. congruence.
      * change (getFlag (setFlag (setFlag (setFlag (defaultResult unset) SINC_COEFFS_TRUNCATED)
                            APERTURE_TRUNCATED) FAILURE) APERTURE_TRUNCATED) with true.
        cbv iota. left. do 3 eexists. split; [reflexivity|]. split; [reflexivity|].
        cbn [resultFlags setFlag defaultResult instFlux instFluxErr].
        split; [reflexivity|]. split; [auto|].
        intros n.
        rewrite !testbit_setbit
          by (unfold SINC_COEFFS_TRUNCATED, APERTURE_TRUNCATED, FAILURE; lia).
        rewrite Z.testbit_0_l, orb_false_r. intros Hn.
        apply orb_true_iff in Hn. destruct Hn as [Hn | Hn]; [apply Z.eqb_eq in Hn; auto|].
        apply orb_true_iff in Hn. destruct Hn as [Hn | Hn]; apply Z.eqb_eq in Hn; auto.
    + right.
      unfold computeSincFlux_Image, computeSincFlux_MaskedImage. cbv zeta. fold image.
      rewrite (@getSincCoeffs_throws sincCoeffs offsetImage ellipseBBox (getBBox image) ellipse
                 (defaultResult unset) ctrl H F1).
      split; [reflexivity|]. split; [reflexivity|].
      destruct (isEmpty (clip (getBBox c) (getBBox image))) eqn:Hemp; [reflexivity|].
      destruct (@overlap_fits c image Hemp) as [K _]. congruence.
Qed.

(** The same for the naive variant. *)
Lemma naive_results (mimage : MaskedImage) (ellipse : Ellipse) (ctrl : Control) :
  exists flux err fl,
    naiveImage (getImagePlane mimage) ellipse ctrl = mkResult flux unset fl
    /\ naiveMasked mimage ellipse ctrl = mkResult flux err fl
    /\ Z.testbit fl FAILURE = Z.testbit fl APERTURE_TRUNCATED
    /\ (Z.testbit fl FAILURE = true -> flux = unset /\ err = unset)
    /\ (forall n, Z.testbit fl n = true -> n = FAILURE \/ n = APERTURE_TRUNCATED).
Proof.
  unfold computeNaiveFlux_Image, computeNaiveFlux_MaskedImage. cbv zeta.
  destruct (contains (getBBox (getImagePlane mimage)) (regionBBox (pixelRegion ellipse)));
    cbn [negb]; do 3 eexists; (split; [reflexivity|]); (split; [reflexivity|]).
  - split; [reflexivity|]. split.
    + rewrite Z.testbit_0_l. discriminate.
    + intros n. rewrite Z.testbit_0_l. discriminate.
  - cbn [resultFlags setFlag defaultResult instFlux instFluxErr].
    split; [reflexivity|]. split; [auto|].
    intros n. rewrite !testbit_setbit by (unfold APERTURE_TRUNCATED, FAILURE; lia).
    rewrite Z.testbit_0_l, orb_false_r. intros Hn.
    apply orb_true_iff in Hn. destruct Hn as [Hn | Hn]; apply Z.eqb_eq in Hn; auto.
Qed.

(** X16: with collaborators that return, [computeFlux] throws nothing but
    the LengthError of the constructor of a view, in the sinc variant only,
    and only when the coefficient image and the image have no pixel in
    common; with an overlap that is not empty it returns, in both overloads.
    In every result it returns, the general failure flag is set exactly when
    APERTURE_TRUNCATED is, the flux and its error are then left at their
    defaults, and SINC_COEFFS_TRUNCATED is set by the sinc variant only. *)
Theorem computeFlux_fails_exactly_when_truncated
    (mimage : MaskedImage) (ellipse : Ellipse) (ctrl : Control) :
  let image := getImagePlane mimage in
  let overlap :=
    clip (getBBox (shiftedCoeffs sincCoeffs offsetImage ellipse ctrl)) (getBBox image) in
  let sinc := getB (axesOf quadrupoleToAxes (getCore ellipse)) <=? maxSincRadius ctrl in
  match fluxImage image ellipse ctrl with
  | inr r =>
      getFlag r FAILURE = getFlag r APERTURE_TRUNCATED
      /\ (getFlag r FAILURE = true -> instFlux r = unset /\ instFluxErr r = unset)
      /\ (getFlag r SINC_COEFFS_TRUNCATED = true -> sinc = true)
  | inl e =>
      e = LengthError "Box does not fit in the image" /\ sinc = true /\ isEmpty overlap = true
  end
  /\ match fluxMasked mimage ellipse ctrl with
     | inr r =>
         getFlag r FAILURE = getFlag r APERTURE_TRUNCATED
         /\ (getFlag r FAILURE = true -> instFlux r = unset /\ instFluxErr r = unset)
         /\ (getFlag r SINC_COEFFS_TRUNCATED = true -> sinc = true)
     | inl e =>
         e = LengthError "Box does not fit in the image" /\ sinc = true
         /\ isEmpty overlap = true
     end
  /\ (sinc && isEmpty overlap = false ->
      exists r rm, fluxImage image ellipse ctrl = inr r /\ fluxMasked mimage ellipse ctrl = inr rm).
Proof.
  intros image overlap sinc. subst sinc.
  unfold computeFlux_Image, computeFlux_MaskedImage.
  destruct (getB (axesOf quadrupoleToAxes (getCore ellipse)) <=? maxSincRadius ctrl).
  - destruct (sinc_results mimage ellipse ctrl)
      as [(flux & err & fl & E1 & E2 & F & U & _) | (E1 & E2 & Hemp)];
      fold image in E1; rewrite E1, E2.
    + unfold getFlag. cbn [resultFlags instFlux instFluxErr].
      split; [|split]; [| |eauto].
      * split; [exact F|]. split; [|reflexivity]. intros H. split; [apply U, H|reflexivity].
      * split; [exact F|]. split; [exact U|reflexivity].
    + fold image overlap in Hemp. rewrite Hemp. repeat split; try reflexivity. discriminate.
  - destruct (naive_results mimage ellipse ctrl) as (flux & err & fl & E1 & E2 & F & U & N).
    fold image in E1. rewrite E1, E2.
    unfold getFlag. cbn [resultFlags instFlux instFluxErr].
    split; [|split]; [| |eauto].
    + split; [exact F|]. split.
      * intros H. split; [apply U, H|reflexivity].
      * intros H. destruct (N _ H) as [K | K]; discriminate K.
    + split; [exact F|]. split; [exact U|].
      intros H. destruct (N _ H) as [K | K]; discriminate K.
Qed.

(** X17: the two overloads of [computeFlux] end the same way. Where one
    throws, the other throws the same exception; where they return, the
    flags and the flux on a MaskedImage are those of the Image overload on
    its image plane, which leaves the error at its default. *)
Theorem computeFlux_overloads_agree (mimage : MaskedImage) (ellipse : Ellipse) (ctrl : Control) :
  match fluxImage (getImagePlane mimage) ellipse ctrl, fluxMasked mimage ellipse ctrl with
  | inr r, inr rm =>
      instFlux rm = instFlux r /\ resultFlags rm = resultFlags r /\ instFluxErr r = unset
  | inl e, inl em => e = em
  | _, _ => False
  end.
Proof.
  unfold computeFlux_Image, computeFlux_MaskedImage.
  destruct (getB (axesOf quadrupoleToAxes (getCore ellipse)) <=? maxSincRadius ctrl).
  - destruct (sinc_results mimage ellipse ctrl)
      as [(flux & err & fl & E1 & E2 & _) | (E1 & E2 & _)]; rewrite E1, E2.
    + repeat split; reflexivity.
    + reflexivity.
  - destruct (naive_results mimage ellipse ctrl) as (flux & err & fl & E1 & E2 & _).
    rewrite E1, E2. repeat split; reflexivity.
Qed.
End FluxFacts.

(** ** Aperture fluxes: translation and bounds *)

Section NaiveFacts.
Import Ieee Geom Ellipses Images ApertureFlux Statements.
Local Open Scope float_scope.

Variable unset : float.
Variable sincCoeffs : EllipseCore -> float -> Image.
Variable offsetImage : Image -> float -> float -> string -> Image.
Variable ellipseBBox : Ellipse -> BoxI.
Variable pixelRegion : Ellipse -> PixelRegion.
Variable quadrupoleToAxes : Quadrupole -> Axes.
Variable arraySum : PixelType -> list float -> float.

Local Abbreviation sincImage := (computeSincFlux_Image unset sincCoeffs offsetImage ellipseBBox arraySum).
Local Abbreviation sincMasked :=
  (computeSincFlux_MaskedImage unset sincCoeffs offsetImage ellipseBBox arraySum).
Local Abbreviation naiveImage := (computeNaiveFlux_Image unset pixelRegion).
Local Abbreviation naiveMasked := (computeNaiveFlux_MaskedImage unset pixelRegion).
Local Abbreviation fluxImage :=
  (computeFlux_Image unset sincCoeffs offsetImage ellipseBBox pixelRegion quadrupoleToAxes arraySum).
Local Abbreviation fluxMasked :=
  (computeFlux_MaskedImage unset sincCoeffs offsetImage ellipseBBox pixelRegion
     quadrupoleToAxes arraySum).

Lemma contains_translate (dx dy : Z) (a b : BoxI) :
  contains (translate_box dx dy a) (translate_box dx dy b) = contains a b.
Proof.
  unfold contains, isEmpty, getMinX, getMinY, getMaxX, getMaxY, translate_box.
  cbn [minX minY dimX dimY].
  f_equal. f_equal; [f_equal; [f_equal|]|].
  all: match goal with
       | |- (?a <=? ?b)%Z = (?c <=? ?d)%Z =>
           destruct (Z.leb_spec a b), (Z.leb_spec c d); try reflexivity; lia
       end.
Qed.

Lemma sumSpans_translate (px : Z -> Z -> float) (X0 Y0 dx dy : Z) (region : list Span) :
  forall acc,
    sumSpans px (X0 + dx) (Y0 + dy) (map (translate_span dx dy) region) acc
    = sumSpans px X0 Y0 region acc.
Proof.
  induction region as [|span rest IH]; intros acc; cbn [map sumSpans]; [reflexivity|].
  rewrite IH. unfold translate_span. cbn [getBeginX getY ApertureFlux.getWidth].
  replace (getBeginX span + dx - (X0 + dx))%Z with (getBeginX span - X0)%Z by lia.
  replace (getY span + dy - (Y0 + dy))%Z with (getY span - Y0)%Z by lia.
  reflexivity.
Qed.

(** X18: the naive flux does not change when the image and the pixel region
    of the ellipse are moved together by whole pixels: the flags, the flux
    and its error are the same. *)
Theorem naive_flux_is_translation_invariant
    (mimage : MaskedImage) (ellipse moved : Ellipse) (ctrl : Control) (dx dy : Z) :
  pixelRegion moved = translate_region dx dy (pixelRegion ellipse) ->
  naiveImage (translate_image dx dy (getImagePlane mimage)) moved ctrl
  = naiveImage (getImagePlane mimage) ellipse ctrl
  /\ naiveMasked (translate_masked dx dy mimage) moved ctrl = naiveMasked mimage ellipse ctrl.
Proof.
  intros H. unfold computeNaiveFlux_Image, computeNaiveFlux_MaskedImage. cbv zeta.
  rewrite H. unfold translate_masked. cbn [getImagePlane variancePlane].
  change (getBBox (translate_image dx dy (getImagePlane mimage)))
    with (translate_box dx dy (getBBox (getImagePlane mimage))).
  cbn [translate_region regionBBox spans].
  rewrite contains_translate.
  cbn [translate_image imX0 imY0 pixel].
  rewrite !sumSpans_translate. split; reflexivity.
Qed.

Lemma flat_map_ext_in (A B : Type) (f g : A -> list B) (l : list A) :
  (forall a, In a l -> f a = g a) -> flat_map f l = flat_map g l.
Proof.
  induction l as [|a rest IH]; intros H; cbn [flat_map]; [reflexivity|].
  rewrite (H a) by (left; reflexivity). f_equal. apply IH. intros b Hb. apply H. right. exact Hb.
Qed.

Lemma row_pixels_ext (f g : Z -> Z -> float) (c r n : Z) :
  (forall k, (c <= k < c + n)%Z -> f k r = g k r) ->
  row_pixels f c r n = row_pixels g c r n.
Proof.
  intros H. unfold row_pixels. apply map_ext_in. intros k Hk.
  apply in_seq in Hk. apply H. lia.
Qed.

Lemma getArray_ext (f g : Z -> Z -> float) (w h : Z) :
  (forall c r, (0 <= c < w)%Z -> (0 <= r < h)%Z -> f c r = g c r) ->
  getArray f w h = getArray g w h.
Proof.
  intros H. unfold getArray. apply flat_map_ext_in. intros r Hr.
  apply in_seq in Hr. apply row_pixels_ext. intros k Hk. apply H; lia.
Qed.

(** A position in a box of which a view can be made is inside the bounds of
    the image. *)
Lemma fitting_position (im : Image) (box : BoxI) (c r : Z) :
  boxFits im box = true ->
  (0 <= c < Geom.getWidth box)%Z -> (0 <= r < Geom.getHeight box)%Z ->
  (0 <= c + getMinX box - imX0 im < imWidth im)%Z
  /\ (0 <= r + getMinY box - imY0 im < imHeight im)%Z.
Proof.
  unfold boxFits. cbv zeta. intros F Hc Hr.
  rewrite negb_true_iff, !orb_false_iff, !Z.ltb_ge, !Z.gtb_ltb, !Z.ltb_ge in F. lia.
Qed.

Lemma sinc_same_inside (m1 m2 : MaskedImage) (ellipse : Ellipse) (ctrl : Control) :
  same_inside (SdssShape.Masked m1) (SdssShape.Masked m2) ->
  imX0 (getImagePlane m1) = imX0 (getImagePlane m2) ->
  imY0 (getImagePlane m1) = imY0 (getImagePlane m2) ->
  sincImage (getImagePlane m1) ellipse ctrl = sincImage (getImagePlane m2) ellipse ctrl
  /\ sincMasked m1 ellipse ctrl = sincMasked m2 ellipse ctrl.
Proof.
  intros [(T & W & H & P) V] HX HY.
  assert (B : getBBox (getImagePlane m1) = getBBox (getImagePlane m2))
    by (unfold getBBox; congruence).
  unfold computeSincFlux_Image, computeSincFlux_MaskedImage. cbv zeta. rewrite <- B, <- T.
  destruct (getSincCoeffs _ _ _ _ _ _ _) as [e|[cImage result]]; [split; reflexivity|].
  destruct (getFlag result APERTURE_TRUNCATED); [split; reflexivity|].
  assert (F : boxFits (getImagePlane m2) (getBBox cImage)
              = boxFits (getImagePlane m1) (getBBox cImage))
    by (unfold boxFits; rewrite HX, HY, W, H; reflexivity).
  unfold subImage. rewrite F, <- T, <- HX, <- HY.
  destruct (boxFits (getImagePlane m1) (getBBox cImage)) eqn:C; [|split; reflexivity].
  cbn [pixel imWidth imHeight].
  assert (E1 : getArray
                 (fun c r => pixel (getImagePlane m1)
                               (c + getMinX (getBBox cImage) - imX0 (getImagePlane m1))
                               (r + getMinY (getBBox cImage) - imY0 (getImagePlane m1)))
                 (Geom.getWidth (getBBox cImage)) (Geom.getHeight (getBBox cImage))
               = getArray
                   (fun c r => pixel (getImagePlane m2)
                                 (c + getMinX (getBBox cImage) - imX0 (getImagePlane m1))
                                 (r + getMinY (getBBox cImage) - imY0 (getImagePlane m1)))
                   (Geom.getWidth (getBBox cImage)) (Geom.getHeight (getBBox cImage))).
  { apply getArray_ext. intros c r Hc Hr.
    destruct (@fitting_position _ _ c r C Hc Hr). apply P; assumption. }
  assert (E2 : getArray
                 (fun c r => variancePlane m1
                               (c + getMinX (getBBox cImage) - imX0 (getImagePlane m1))
                               (r + getMinY (getBBox cImage) - imY0 (getImagePlane m1)))
                 (Geom.getWidth (getBBox cImage)) (Geom.getHeight (getBBox cImage))
               = getArray
                   (fun c r => variancePlane m2
                                 (c + getMinX (getBBox cImage) - imX0 (getImagePlane m1))
                                 (r + getMinY (getBBox cImage) - imY0 (getImagePlane m1)))
                   (Geom.getWidth (getBBox cImage)) (Geom.getHeight (getBBox cImage))).
  { apply getArray_ext. intros c r Hc Hr.
    destruct (@fitting_position _ _ c r C Hc Hr). apply V; assumption. }
  rewrite E1, E2. split; reflexivity.
Qed.

Lemma sumSpans_same_inside (f g : Z -> Z -> float) (im : Image) (box : BoxI)
    (region : list Span) :
  contains (getBBox im) box = true ->
  (forall c r, (0 <= c < imWidth im)%Z -> (0 <= r < imHeight im)%Z -> f c r = g c r) ->
  (forall span, In span region -> span_inside box span) ->
  forall acc,
    sumSpans f (imX0 im) (imY0 im) region acc = sumSpans g (imX0 im) (imY0 im) region acc.
Proof.
  intros C P. induction region as [|span rest IH]; intros S acc; cbn [sumSpans]; [reflexivity|].
  rewrite IH by (intros s Hs; apply S; right; exact Hs). f_equal. f_equal. f_equal.
  apply row_pixels_ext. intros k Hk.
  destruct (S span (or_introl eq_refl)) as (Sy & Sx1 & Sx2).
  revert C. unfold contains, isEmpty, getBBox, getMinX, getMinY, getMaxX, getMaxY in *.
  cbn [minX minY dimX dimY] in *. intros C.
  apply orb_true_iff in C. destruct C as [C | C].
  - apply andb_true_iff in C. destruct C as [_ C]. apply Z.eqb_eq in C. lia.
  - rewrite !andb_true_iff, !Z.leb_le in C. apply P; lia.
Qed.

Lemma naive_same_inside (m1 m2 : MaskedImage) (ellipse : Ellipse) (ctrl : Control) :
  same_inside (SdssShape.Masked m1) (SdssShape.Masked m2) ->
  imX0 (getImagePlane m1) = imX0 (getImagePlane m2) ->
  imY0 (getImagePlane m1) = imY0 (getImagePlane m2) ->
  (forall span, In span (spans (pixelRegion ellipse)) ->
                span_inside (regionBBox (pixelRegion ellipse)) span) ->
  naiveImage (getImagePlane m1) ellipse ctrl = naiveImage (getImagePlane m2) ellipse ctrl
  /\ naiveMasked m1 ellipse ctrl = naiveMasked m2 ellipse ctrl.
Proof.
  intros [(T & W & H & P) V] HX HY S.
  assert (B : getBBox (getImagePlane m1) = getBBox (getImagePlane m2))
    by (unfold getBBox; congruence).
  unfold computeNaiveFlux_Image, computeNaiveFlux_MaskedImage. cbv zeta.
  rewrite <- B, <- HX, <- HY.
  destruct (contains (getBBox (getImagePlane m1)) (regionBBox (pixelRegion ellipse))) eqn:C;
    cbn [negb]; [|split; reflexivity].
  rewrite (@sumSpans_same_inside (pixel (getImagePlane m1)) (pixel (getImagePlane m2))
             (getImagePlane m1) _ _ C P S).
  cbn [instFluxErr setInstFluxErr setInstFlux].
  rewrite (@sumSpans_same_inside (variancePlane m1) (variancePlane m2)
             (getImagePlane m1) _ _ C V S).
  split; reflexivity.
Qed.

(** X19: [computeFlux] reads no pixel and no variance outside the bounds of
    the image, provided the spans of the pixel region lie in the box the
    region reports: on two MaskedImages of the same type, size and origin
    that agree inside their bounds, both overloads give the same result. *)
Theorem computeFlux_reads_inside_the_image
    (m1 m2 : MaskedImage) (ellipse : Ellipse) (ctrl : Control) :
  same_inside (SdssShape.Masked m1) (SdssShape.Masked m2) ->
  imX0 (getImagePlane m1) = imX0 (getImagePlane m2) ->
  imY0 (getImagePlane m1) = imY0 (getImagePlane m2) ->
  (forall span, In span (spans (pixelRegion ellipse)) ->
                span_inside (regionBBox (pixelRegion ellipse)) span) ->
  fluxImage (getImagePlane m1) ellipse ctrl = fluxImage (getImagePlane m2) ellipse ctrl
  /\ fluxMasked m1 ellipse ctrl = fluxMasked m2 ellipse ctrl.
Proof.
  intros I HX HY S. unfold computeFlux_Image, computeFlux_MaskedImage.
  destruct (@sinc_same_inside m1 m2 ellipse ctrl I HX HY) as [A1 A2].
  destruct (@naive_same_inside m1 m2 ellipse ctrl I HX HY S) as [B1 B2].
  rewrite A1, A2, B1, B2. split; reflexivity.
Qed.
End NaiveFacts.

(** ** The extractors and the scaled aperture *)

Section ExtractorFacts.
Import Ieee Ellipses InputUtilities Statements.
Local Open Scope float_scope.

(** X20: when [SafeShapeExtractor] returns, the shape is the slot value, it
    passed the test of the code, and the record is untouched but for the
    failure flag, which is set exactly when the slot has a flag and it is
    set. *)
Theorem SafeShapeExtractor_returns_the_slot_value
    (record record' : SourceRecord) (flags : FlagHandler) (q : Quadrupole) :
  SafeShapeExtractor_call record flags = inr (q, record') ->
  shapeKeyValid record = true
  /\ q = getShape record
  /\ fails_shape_test q = false
  /\ record' = if shapeFlagKeyValid record && getShapeFlag record
               then setValue record (getFailureFlagNumber flags) else record.
Proof.
  unfold SafeShapeExtractor_call, fails_shape_test. cbv zeta.
  destruct (shapeKeyValid record); cbn [negb]; [|discriminate].
  destruct (isnan (getIxx (getShape record)) || isnan (getIyy (getShape record))
            || isnan (getIxy (getShape record))
            || (getIxx (getShape record) * getIyy (getShape record)
                <? (1 + 0x1.0c6f7a0b5ed8dp-20) * getIxy (getShape record)
                   * getIxy (getShape record))) eqn:T.
  - destruct (negb (shapeFlagKeyValid record)); [discriminate|].
    destruct (negb (getShapeFlag record)); discriminate.
  - destruct (shapeFlagKeyValid record && getShapeFlag record);
      intros E; injection E as <- <-; rewrite T; auto.
Qed.

(** X21: a consumer of the centroid slot never gets a NaN slot value back:
    the point returned is the slot value, with no NaN in it, or, when the
    slot value has a NaN and the slot flag is set, the first peak of the
    footprint. The record is untouched but for the failure flag, which is
    set exactly when the slot has a flag and it is set. *)
Theorem consumer_gets_a_usable_centroid
    (record record' : CentroidRecord) (flags : FlagHandler) (p : Point2D) :
  SafeCentroidExtractor_call false record flags = inr (p, record') ->
  centroidKeyValid record = true
  /\ ((isnan (getX (getCentroid record)) || isnan (getY (getCentroid record)) = false
       /\ p = getCentroid record)
      \/ (isnan (getX (getCentroid record)) || isnan (getY (getCentroid record)) = true
          /\ extractPeak record = inr p
          /\ centroidFlagKeyValid record = true /\ getCentroidFlag record = true))
  /\ record' = if centroidFlagKeyValid record && getCentroidFlag record
               then setCentroidValue record (getFailureFlagNumber flags) else record.
Proof.
  unfold SafeCentroidExtractor_call. cbv zeta.
  destruct (centroidKeyValid record); cbn [negb]; [|discriminate].
  destruct (isnan (getX (getCentroid record)) || isnan (getY (getCentroid record))).
  - destruct (centroidFlagKeyValid record); cbn [negb andb]; [|discriminate].
    destruct (getCentroidFlag record); cbn [negb andb]; [|discriminate].
    destruct (extractPeak record) as [e|peak]; [discriminate|].
    intros E. injection E as <- <-. split; [reflexivity|]. split; [|reflexivity].
    right. auto.
  - cbn [andb]. destruct (centroidFlagKeyValid record && getCentroidFlag record);
      intros E; injection E as <- <-; auto.
Qed.

(** X22: a centroider never touches the record and never looks at the slot
    flag: it returns the slot value when the slot is defined and holds no
    NaN, and the first peak of the footprint otherwise; the only errors are
    those of a missing footprint and of a footprint without peaks. *)
Theorem centroider_falls_back_on_the_peak (record : CentroidRecord) (flags : FlagHandler) :
  SafeCentroidExtractor_call true record flags
  = if centroidKeyValid record
       && negb (isnan (getX (getCentroid record)) || isnan (getY (getCentroid record)))
    then inr (getCentroid record, record)
    else
      match getFootprint record with
      | None =>
          inl (RuntimeError "Centroid slot value is NaN, but no Footprint attached to record")
      | Some footprint =>
          match getPeaks footprint with
          | [] => inl (RuntimeError "Centroid slot value is NaN, but Footprint has no Peaks")
          | peak :: _ => inr (mkPoint (getFx peak) (getFy peak), record)
          end
      end.
Proof.
  unfold SafeCentroidExtractor_call, extractPeak. cbv zeta.
  destruct (centroidKeyValid record); cbn [negb andb].
  - destruct (isnan (getX (getCentroid record)) || isnan (getY (getCentroid record)));
      cbn [negb]; [|reflexivity].
    destruct (centroidFlagKeyValid record); cbn [negb andb];
      [rewrite andb_false_r|];
      destruct (getFootprint record) as [fp|]; try reflexivity;
      destruct (getPeaks fp); reflexivity.
  - destruct (getFootprint record) as [fp|]; try reflexivity.
    destruct (getPeaks fp); reflexivity.
Qed.
End ExtractorFacts.

Section MeasureFacts.
Import Ieee Geom Ellipses Images InputUtilities ScaledApertureFlux Statements.
Local Open Scope float_scope.

Variable isCentroider : bool.
Variable psfRadius : Point2D -> float.
Variable log2 : float.
Variable unset : float.
Variable sincCoeffs : EllipseCore -> float -> Image.
Variable offsetImage : Image -> float -> float -> string -> Image.
Variable ellipseBBox : Ellipse -> BoxI.
Variable arraySum : PixelType -> list float -> float.

Local Abbreviation measureOf :=
  (measure isCentroider psfRadius log2 unset sincCoeffs offsetImage ellipseBBox arraySum).

Lemma measure_copyFlags_bits (result : ApertureFlux.Result) (record : CentroidRecord) (n : Z) :
  Z.testbit (centroidAlgorithmFlags (copyFlags result record)) n
  = Z.testbit (centroidAlgorithmFlags record) n
    || ((0 <=? n)%Z && (n <=? 2)%Z && ApertureFlux.getFlag result n).
Proof.
  unfold copyFlags, ApertureFlux.flagDefinitions. cbn [fold_left ApertureFlux.flagNumber].
  unfold ApertureFlux.FAILURE, ApertureFlux.APERTURE_TRUNCATED,
    ApertureFlux.SINC_COEFFS_TRUNCATED.
  assert (Hcase : n = 0%Z \/ n = 1%Z \/ n = 2%Z \/ (n < 0 \/ 2 < n)%Z) by lia.
  destruct Hcase as [-> | [-> | [-> | Hout]]].
  1-3: destruct (ApertureFlux.getFlag result 0), (ApertureFlux.getFlag result 1),
                (ApertureFlux.getFlag result 2);
       cbn [setCentroidValue centroidAlgorithmFlags];
       rewrite ?testbit_setbit by lia; cbn; rewrite ?orb_false_r, ?orb_true_r; reflexivity.
  replace ((0 <=? n)%Z && (n <=? 2)%Z) with false
    by (symmetry; apply andb_false_iff; rewrite Z.leb_gt, Z.leb_gt; lia).
  cbn [andb]. rewrite orb_false_r.
  destruct (ApertureFlux.getFlag result 0), (ApertureFlux.getFlag result 1),
           (ApertureFlux.getFlag result 2);
    cbn [setCentroidValue centroidAlgorithmFlags];
    rewrite ?testbit_setbit by lia;
    repeat match goal with
    | |- context [(?k =? n)%Z] =>
        replace (k =? n)%Z with false by (symmetry; apply Z.eqb_neq; lia)
    end; reflexivity.
Qed.

(** X23: [measure] throws what the centroid extractor throws, and the
    record is then as it was; or the LengthError of the sinc variant, for an
    aperture whose coefficients have no pixel in common with the exposure,
    and the record is then as the extractor left it, the two numbers
    untouched. Otherwise it stores the flux and the error of the sinc
    variant on a circle around the centre the extractor gave, and sets, on
    top of the flags the extractor left, exactly the flags of that result.
    It clears no flag. *)
Theorem measure_stores_the_sinc_flux
    (ctrl : Control) (measRecord : MeasRecord) (exposure : MaskedImage) :
  let circle center :=
    mkEllipse (CoreAxes (mkAxes (scale ctrl * (2 * sqrt (2 * log2) * psfRadius center))
                           (scale ctrl * (2 * sqrt (2 * log2) * psfRadius center)) 0))
      (getX center) (getY center) in
  let apCtrl :=
    ApertureFlux.mkControl [3; 4.5; 6; 9; 12; 17; 25; 35; 50; 70] 10 (shiftKernel ctrl) in
  match measureOf ctrl measRecord exposure with
  | Thrown e record =>
      (record = measRecord
       /\ SafeCentroidExtractor_call isCentroider (source measRecord) flagHandler = inl e)
      \/ (exists center src,
             SafeCentroidExtractor_call isCentroider (source measRecord) flagHandler
             = inr (center, src)
             /\ ApertureFlux.computeSincFlux_MaskedImage unset sincCoeffs offsetImage
                  ellipseBBox arraySum exposure (circle center) apCtrl
                = inl e
             /\ e = LengthError "Box does not fit in the image"
             /\ isEmpty (clip (getBBox (shiftedCoeffs sincCoeffs offsetImage (circle center)
                                          apCtrl))
                           (getBBox (getImagePlane exposure))) = true
             /\ record = mkMeasRecord src (instFluxField measRecord)
                           (instFluxErrField measRecord))
  | Done record =>
      exists center src result,
        SafeCentroidExtractor_call isCentroider (source measRecord) flagHandler
        = inr (center, src)
        /\ ApertureFlux.computeSincFlux_MaskedImage unset sincCoeffs offsetImage ellipseBBox
             arraySum exposure (circle center) apCtrl
           = inr result
        /\ instFluxField record = ApertureFlux.instFlux result
        /\ instFluxErrField record = ApertureFlux.instFluxErr result
        /\ forall n,
            Z.testbit (centroidAlgorithmFlags (source record)) n
            = Z.testbit (centroidAlgorithmFlags src) n
              || ((0 <=? n)%Z && (n <=? 2)%Z && ApertureFlux.getFlag result n)
  end.
Proof.
  intros circle apCtrl. unfold measure.
  destruct (SafeCentroidExtractor_call isCentroider (source measRecord) flagHandler)
    as [e|[center src]]; [auto|].
  cbv zeta.
  change (aperture psfRadius log2 ctrl center) with (circle center).
  change (ApertureFlux.mkControl (ApertureFlux.radii ApertureFlux.defaultControl)
            (ApertureFlux.maxSincRadius ApertureFlux.defaultControl) (shiftKernel ctrl))
    with apCtrl.
  destruct (@sinc_results unset sincCoeffs offsetImage ellipseBBox arraySum exposure
              (circle center) apCtrl)
    as [(flux & err & fl & _ & E & _) | (_ & E & Hemp)]; rewrite E.
  - exists center, src. eexists. split; [reflexivity|].
    split; [exact E|]. cbn [instFluxField instFluxErrField source].
    split; [reflexivity|]. split; [reflexivity|]. intros n. apply measure_copyFlags_bits.
  - right. exists center, src. split; [reflexivity|]. split; [exact E|].
    split; [reflexivity|]. split; [exact Hemp|reflexivity].
Qed.
End MeasureFacts.

(** ** The record of the shape algorithm *)

Section RecordFacts.
Import Ieee Images InputUtilities SdssShape SdssShapeAlgorithm.
Local Open Scope float_scope.

Lemma set_flag_bits (src : CentroidRecord) (fl : Z) (n : Z) :
  Z.testbit
    (centroidAlgorithmFlags
       (for_range (fun n src => setFlagValue src n (Z.testbit fl n)) 0%Z (N_FLAGS - 1)%Z src)) n
  = if (0 <=? n)%Z && (n <=? 4)%Z then Z.testbit fl n
    else Z.testbit (centroidAlgorithmFlags src) n.
Proof.
  change (for_range (fun n src => setFlagValue src n (Z.testbit fl n)) 0%Z (N_FLAGS - 1)%Z src)
    with (setFlagValue (setFlagValue (setFlagValue (setFlagValue (setFlagValue src
            0 (Z.testbit fl 0)) 1 (Z.testbit fl 1)) 2 (Z.testbit fl 2)) 3 (Z.testbit fl 3))
            4 (Z.testbit fl 4)).
  unfold setFlagValue. cbn [centroidAlgorithmFlags].
  assert (Hcase : n = 0%Z \/ n = 1%Z \/ n = 2%Z \/ n = 3%Z \/ n = 4%Z \/ (n < 0 \/ 4 < n)%Z)
    by lia.
  destruct Hcase as [-> | [-> | [-> | [-> | [-> | Hout]]]]].
  1-5: cbn [Z.leb Z.compare Pos.compare Pos.compare_cont andb];
       destruct (Z.testbit fl 0), (Z.testbit fl 1), (Z.testbit fl 2), (Z.testbit fl 3),
                (Z.testbit fl 4);
       repeat (first [rewrite testbit_setbit by lia | rewrite testbit_clearbit by lia]);
       cbn [Z.eqb Pos.eqb negb orb andb];
       rewrite ?andb_true_r, ?andb_false_r, ?orb_false_r, ?orb_true_r; reflexivity.
  replace ((0 <=? n)%Z && (n <=? 4)%Z) with false
    by (symmetry; apply andb_false_iff; rewrite Z.leb_gt, Z.leb_gt; lia).
  destruct (Z.testbit fl 0), (Z.testbit fl 1), (Z.testbit fl 2), (Z.testbit fl 3),
           (Z.testbit fl 4);
    repeat (first [rewrite testbit_setbit by lia | rewrite testbit_clearbit by lia]);
    repeat match goal with
    | |- context [(?k =? n)%Z] =>
        replace (k =? n)%Z with false by (symmetry; apply Z.eqb_neq; lia)
    end; cbn [negb orb andb]; rewrite ?andb_true_r; reflexivity.
Qed.

Lemma get_flag_bits (src : CentroidRecord) (n : Z) :
  Z.testbit
    (for_range
       (fun n fl => if getFlagValue src n then Z.setbit fl n else Z.clearbit fl n)
       0%Z (N_FLAGS - 1)%Z 0%Z) n
  = (0 <=? n)%Z && (n <=? 4)%Z && Z.testbit (centroidAlgorithmFlags src) n.
Proof.
  set (f := fun (n : Z) (fl : Z) =>
              if getFlagValue src n then Z.setbit fl n else Z.clearbit fl n).
  change (for_range f 0%Z (N_FLAGS - 1)%Z 0%Z)
    with (f 4%Z (f 3%Z (f 2%Z (f 1%Z (f 0%Z 0%Z))))).
  subst f. cbv beta. unfold getFlagValue.
  assert (Hcase : n = 0%Z \/ n = 1%Z \/ n = 2%Z \/ n = 3%Z \/ n = 4%Z \/ (n < 0 \/ 4 < n)%Z)
    by lia.
  destruct Hcase as [-> | [-> | [-> | [-> | [-> | Hout]]]]].
  1-5: cbn [Z.leb Z.compare Pos.compare Pos.compare_cont andb Z.add Pos.add Pos.succ];
       destruct (Z.testbit (centroidAlgorithmFlags src) 0),
                (Z.testbit (centroidAlgorithmFlags src) 1),
                (Z.testbit (centroidAlgorithmFlags src) 2),
                (Z.testbit (centroidAlgorithmFlags src) 3),
                (Z.testbit (centroidAlgorithmFlags src) 4);
       repeat (first [rewrite testbit_setbit by lia | rewrite testbit_clearbit by lia]);
       cbn [Z.eqb Pos.eqb negb orb andb];
       rewrite ?Z.testbit_0_l, ?andb_true_r, ?andb_false_r, ?orb_false_r, ?orb_true_r;
       reflexivity.
  replace ((0 <=? n)%Z && (n <=? 4)%Z) with false
    by (symmetry; apply andb_false_iff; rewrite Z.leb_gt, Z.leb_gt; lia).
  cbn [andb Z.add Pos.add Pos.succ].
  destruct (Z.testbit (centroidAlgorithmFlags src) 0),
           (Z.testbit (centroidAlgorithmFlags src) 1),
           (Z.testbit (centroidAlgorithmFlags src) 2),
           (Z.testbit (centroidAlgorithmFlags src) 3),
           (Z.testbit (centroidAlgorithmFlags src) 4);
    repeat (first [rewrite testbit_setbit by lia | rewrite testbit_clearbit by lia]);
    repeat match goal with
    | |- context [(?k =? n)%Z] =>
        replace (k =? n)%Z with false by (symmetry; apply Z.eqb_neq; lia)
    end; cbn [negb orb andb]; rewrite ?andb_true_r, ?Z.testbit_0_l; reflexivity.
Qed.

(** X24: reading a record back after [SdssShapeResultKey::set] gives the five
    flags that were written, whatever the flag fields held before, and no
    other flag. *)
Theorem flags_survive_set_and_get (record : MeasRecord) (value : SdssShapeResult) (n : Z) :
  Z.testbit (flags (SdssShapeResultKey_get (SdssShapeResultKey_set record value))) n
  = (0 <=? n)%Z && (n <=? 4)%Z && Z.testbit (flags value) n.
Proof.
  unfold SdssShapeResultKey_get. cbv zeta. cbn [flags].
  rewrite get_flag_bits. unfold SdssShapeResultKey_set. cbn [source].
  rewrite set_flag_bits. destruct ((0 <=? n)%Z && (n <=? 4)%Z); reflexivity.
Qed.

Variable isCentroider : bool.
Variable approxExp : float -> float.
Variable pow : float -> float -> float.
Variable quadrupoleToAxes : Ellipses.Quadrupole -> Ellipses.Axes.
Variable axesToQuadrupole : Ellipses.Axes -> Ellipses.Quadrupole.
Variable inverse2 : Ellipses.Matrix2 -> Ellipses.Matrix2.
Variable inverse4 : Matrix4 -> Matrix4.
Variable defaultImpl : SdssShapeImpl.
Variable getXErr getYErr getIxxErr getIyyErr getIxyErr : SdssShapeImpl -> float.

Local Abbreviation applyOf :=
  (apply approxExp pow quadrupoleToAxes axesToQuadrupole inverse2 inverse4 defaultImpl
     getXErr getYErr getIxxErr getIyyErr getIxyErr).
Local Abbreviation measureOf :=
  (measure isCentroider approxExp pow quadrupoleToAxes axesToQuadrupole inverse2 inverse4
     defaultImpl getXErr getYErr getIxxErr getIyyErr getIxyErr).

(** X25: [measure] throws when the record has no footprint, before it looks
    at the centroid, and otherwise, of its own, only what the centroid
    extractor throws; the record is then as it was. When it returns, the five flag fields of
    the record are the flags of the result of [apply] at the extracted
    centre: the failure flag that the extractor may have set is written
    over with that of the result. *)
Theorem measure_writes_the_flags_of_the_result
    (ctrl : SdssShapeControl) (measRecord : MeasRecord) (exposure : MaskedImage)
    (garbage : Sums) :
  match measureOf ctrl measRecord exposure garbage with
  | Thrown e record =>
      record = measRecord
      /\ ((getFootprint (source measRecord) = None
           /\ e = RuntimeError "No Footprint attached to SourceRecord")
          \/ SafeCentroidExtractor_call isCentroider (source measRecord) flagHandler = inl e)
  | Done record =>
      exists center src,
        SafeCentroidExtractor_call isCentroider (source measRecord) flagHandler
        = inr (center, src)
        /\ numbers record
           = applyOf exposure (InputUtilities.getX center) (InputUtilities.getY center) ctrl
               garbage
        /\ forall n,
            Z.testbit (centroidAlgorithmFlags (source record)) n
            = if (0 <=? n)%Z && (n <=? 4)%Z
              then Z.testbit
                     (flags (applyOf exposure (InputUtilities.getX center)
                               (InputUtilities.getY center) ctrl garbage)) n
              else Z.testbit (centroidAlgorithmFlags src) n
  end.
Proof.
  unfold measure.
  destruct (getFootprint (source measRecord)) as [fp|]; [|auto].
  destruct (SafeCentroidExtractor_call isCentroider (source measRecord) flagHandler)
    as [e|[center src]]; [auto|].
  cbv zeta. exists center, src. split; [reflexivity|]. split; [reflexivity|].
  intros n. unfold SdssShapeResultKey_set. cbn [source]. apply set_flag_bits.
Qed.
End RecordFacts.

Section FisherFacts.
Import Ieee SdssShape.
Local Open Scope float_scope.

(** X26: when [calc_fisher] returns, the matrix has four rows of four entries
    and is symmetric. *)
Theorem calc_fisher_is_symmetric (shape : SdssShapeImpl) (bkgd_var : float) (fisher : Matrix4) :
  calc_fisher shape bkgd_var = inr fisher ->
  List.length fisher = 4%nat
  /\ (forall row, In row fisher -> List.length row = 4%nat)
  /\ forall i j : nat,
      (i < 4)%nat -> (j < 4)%nat ->
      nth j (nth i fisher []) 0 = nth i (nth j fisher []) 0.
Proof.
  unfold calc_fisher. cbv zeta.
  destruct (_ <=? double_epsilon); [discriminate|].
  destruct (bkgd_var <=? 0); [discriminate|].
  intros E. injection E as <-. split; [reflexivity|]. split.
  - intros row [<- | [<- | [<- | [<- | []]]]]; reflexivity.
  - intros i j Hi Hj.
    destruct i as [|[|[|[|i]]]]; try lia;
      destruct j as [|[|[|[|j]]]]; try lia; reflexivity.
Qed.
End FisherFacts.

(** ** Runs of the further properties *)

Section FurtherRuns.
Import Ieee Geom Ellipses Images Statements.
Local Open Scope float_scope.

(** Witness of X4: the run on the 3x3 image with pixels of both signs, from
    a fresh shape. *)
Lemma final_flags_witness :
  (SdssShape.getFlag (SdssShape.shapeOf (Demo.solveDemo (SdssShape.Plain Demo.crossImage) 1 1 2))
     SdssShape.UNWEIGHTED_BAD = true
   <-> exists sh',
       Demo.solveDemo (SdssShape.Plain Demo.crossImage) 1 1 2 = SdssShape.Returned false sh')
  /\ SdssShape.getFlag
       (SdssShape.shapeOf (Demo.solveDemo (SdssShape.Plain Demo.crossImage) 1 1 2))
       SdssShape.UNWEIGHTED
     && SdssShape.getFlag
          (SdssShape.shapeOf (Demo.solveDemo (SdssShape.Plain Demo.crossImage) 1 1 2))
          SdssShape.UNWEIGHTED_BAD = false
  /\ (SdssShape.getFlag
        (SdssShape.shapeOf (Demo.solveDemo (SdssShape.Plain Demo.crossImage) 1 1 2))
        SdssShape.MAXITER = true ->
      SdssShape.getFlag
        (SdssShape.shapeOf (Demo.solveDemo (SdssShape.Plain Demo.crossImage) 1 1 2))
        SdssShape.UNWEIGHTED
      || SdssShape.getFlag
           (SdssShape.shapeOf (Demo.solveDemo (SdssShape.Plain Demo.crossImage) 1 1 2))
           SdssShape.UNWEIGHTED_BAD = true).
Proof.
  exact (@final_flags_are_consistent Demo.demoExp Demo.demoPow Demo.demoQuadrupoleToAxes
           Demo.demoAxesToQuadrupole Demo.demoInverse2 Demo.demoInverse4
           (SdssShape.Plain Demo.crossImage) 0 1 1 100 Demo.tol1 Demo.tol2 2 Demo.nanShape
           Demo.zeroGarbage eq_refl eq_refl eq_refl).
Defined.

Lemma inBounds_inside (w h c r : Z) :
  (0 <= c < w)%Z -> (0 <= r < h)%Z -> Demo.inBounds w h c r = true.
Proof.
  intros Hc Hr. unfold Demo.inBounds.
  rewrite !andb_true_iff, !Z.leb_le, !Z.ltb_lt. lia.
Qed.

(** Witness of X6: the solver runs the same on the image with one bright
    pixel and on its copy that holds 7 outside the bounds. *)
Lemma reads_inside_witness :
  Demo.solveDemo (SdssShape.Plain Demo.dotImage) 4 4 2
  = Demo.solveDemo (SdssShape.Plain Demo.paddedDotImage) 4 4 2.
Proof.
  unfold Demo.solveDemo.
  apply getAdaptiveMoments_reads_inside_the_image.
  cbn [same_inside]. repeat split.
  intros c r Hc Hr. cbn [Demo.paddedDotImage pixel].
  rewrite (@inBounds_inside 15 15 c r Hc Hr). reflexivity.
Defined.

(** Witness of X8: no iteration allowed on the image with one bright
    pixel. *)
Lemma no_iteration_witness :
  exists fl,
    SdssShape.getAdaptiveMoments Demo.demoExp Demo.demoPow Demo.demoQuadrupoleToAxes
      Demo.demoAxesToQuadrupole Demo.demoInverse2 Demo.demoInverse4
      (SdssShape.Plain Demo.dotImage) 0 7 7 2 0 Demo.tol1 Demo.tol2 Demo.nanShape
      Demo.zeroGarbage
    = SdssShape.Returned false (SdssShape.withFlags Demo.nanShape fl)
    /\ Z.testbit fl SdssShape.UNWEIGHTED_BAD = true
    /\ Z.testbit fl SdssShape.MAXITER = true
    /\ Z.testbit fl SdssShape.UNWEIGHTED = false.
Proof.
  apply no_iteration_returns_false; [reflexivity | cbn; lia | cbn; lia].
Defined.

(** Witness of X11: the run that sets the shift flag under the default
    control does not set it when [maxShift] is NaN. *)
Lemma nan_maxShift_witness :
  Z.testbit
    (SdssShape.flags
       (SdssShape.apply Demo.demoExp Demo.demoPow Demo.demoQuadrupoleToAxes
          Demo.demoAxesToQuadrupole Demo.demoInverse2 Demo.demoInverse4 Demo.nanShape
          Demo.noErr Demo.noErr Demo.noErr Demo.noErr Demo.noErr
          (mkMaskedImage Demo.dotImage (fun _ _ => 0)) 4 4 Demo.nanShiftControl
          Demo.zeroGarbage))
    SdssShape.RESULT_SHIFT = false.
Proof.
  apply nan_maxShift_never_flags_shift; reflexivity.
Defined.

(** Witness of X12: on the 8x8 image of ones with a variance of 0, the
    narrow shape is sampled below the pixel scale, the loops come to an end
    and the call throws for the variance; with the origin of the image five
    million rows away, the rows of the long shape lie where adding 0.25 moves
    no [float], and the call does not come to an end. *)
Lemma fixed_moments_witness :
  (exists msg,
      Demo.fixedFluxDemo (Demo.onesMasked 0) 4 4 Demo.thinShape
      = Some (inl (DomainError msg)))
  /\ SdssShape.shouldInterp 0.125 0.125 (0.125 * 0.125) = true
  /\ Demo.fixedFluxDemo Demo.farMasked 4 4 Demo.tallShape = None.
Proof.
  split; [|split; [reflexivity|]].
  - apply (@getFixedMomentsFlux_failures Demo.demoExp Demo.demoPow Demo.demoQuadrupoleToAxes
             Demo.demoAxesToQuadrupole Demo.demoInverse2 Demo.demoInverse4 Demo.noErr
             Demo.noErr (SdssShape.Masked (Demo.onesMasked 0)) 0 4 4 Demo.thinShape);
      vm_compute; reflexivity.
  - apply (@getFixedMomentsFlux_failures Demo.demoExp Demo.demoPow Demo.demoQuadrupoleToAxes
             Demo.demoAxesToQuadrupole Demo.demoInverse2 Demo.demoInverse4 Demo.noErr
             Demo.noErr (SdssShape.Masked Demo.farMasked) 0 4 4 Demo.tallShape).
    split; vm_compute; reflexivity.
Defined.

(** Witness of X14: the default radii. *)
Lemma transform_flag_fields_witness :
  ApertureFlux.transformFlagFields Demo.demoFormatRadius ApertureFlux.defaultControl
    "base_CircularApertureFlux"
  = ApertureFlux.algorithmFlagFields Demo.demoFormatRadius ApertureFlux.defaultControl
      "base_CircularApertureFlux".
Proof.
  apply transform_maps_the_declared_flag_fields; [reflexivity|].
  intros radius Hin. cbn [ApertureFlux.defaultControl ApertureFlux.radii In] in Hin.
  repeat (destruct Hin as [<- | Hin]; [reflexivity|]). destruct Hin.
Defined.

(** Witness of X15: the 5x5 ramp of coefficients in the middle of the 8x8
    ramp, where neither the pixels nor the coefficients are all alike: the
    flux is 4212.5, and the coefficient of column 2 and row 1 lies over the
    pixel of column 4 and row 3, which holds 34. *)
Lemma sinc_fits_witness :
  ApertureFlux.computeSincFlux_Image nan Demo.rampCoeffs Demo.demoOffset Demo.demoEllipseBBox
    Demo.demoArraySum Demo.rampImage (Demo.circle 4 4 1) Demo.demoAperture
  = inr (ApertureFlux.mkResult 4212.5 nan 0)
  /\ ApertureFlux.computeSincFlux_MaskedImage nan Demo.rampCoeffs Demo.demoOffset
       Demo.demoEllipseBBox Demo.demoArraySum Demo.rampMasked (Demo.circle 4 4 1)
       Demo.demoAperture
     = inr (ApertureFlux.mkResult 4212.5 0x1.5425a3904e395p+5 0)
  /\ nth 7 (window (pixel Demo.rampImage) 0 0 (Geom.mkBoxI 2 2 5 5)) 0 = 34.
Proof.
  destruct (@sinc_flux_when_coefficients_fit nan Demo.rampCoeffs Demo.demoOffset
              Demo.demoEllipseBBox Demo.demoArraySum Demo.rampMasked (Demo.circle 4 4 1)
              Demo.demoAperture eq_refl eq_refl) as (_ & P & E1 & E2).
  split; [|split].
  - etransitivity; [exact E1|]. vm_compute. reflexivity.
  - etransitivity; [exact E2|]. vm_compute. reflexivity.
  - destruct (P 2%Z 1%Z) as (_ & V & _); [vm_compute; split; congruence ..|].
    etransitivity; [exact V|]. vm_compute. reflexivity.
Defined.

(** Witness of X16: an aperture centred on (100, 100) misses the 8x8 ramp:
    the sinc variant is chosen, the overlap is empty and the call throws; an
    aperture centred on (0, 4) overlaps it and the call returns. *)
Lemma flux_outcome_witness :
  (Demo.rampFlux (Demo.circle 100 100 1) = inl (LengthError "Box does not fit in the image")
   /\ Geom.isEmpty
        (Geom.clip (getBBox (shiftedCoeffs Demo.rampCoeffs Demo.demoOffset
                               (Demo.circle 100 100 1) Demo.demoAperture))
           (getBBox Demo.rampImage)) = true)
  /\ exists r rm,
      Demo.rampFlux (Demo.circle 0 4 1) = inr r
      /\ Demo.rampFluxMasked (Demo.circle 0 4 1) = inr rm.
Proof.
  split.
  - pose proof (@computeFlux_fails_exactly_when_truncated nan Demo.rampCoeffs Demo.demoOffset
                  Demo.demoEllipseBBox Demo.demoPixelRegion Demo.demoQuadrupoleToAxes
                  Demo.demoArraySum Demo.rampMasked (Demo.circle 100 100 1) Demo.demoAperture)
      as H.
    cbv zeta in H. destruct H as (H & _).
    change (getImagePlane Demo.rampMasked) with Demo.rampImage in H.
    fold (Demo.rampFlux (Demo.circle 100 100 1)) in H.
    destruct (Demo.rampFlux (Demo.circle 100 100 1)) as [e|r] eqn:E;
      [|vm_compute in E; discriminate E].
    destruct H as (-> & _ & H). split; [reflexivity | exact H].
  - apply (@computeFlux_fails_exactly_when_truncated nan Demo.rampCoeffs Demo.demoOffset
             Demo.demoEllipseBBox Demo.demoPixelRegion Demo.demoQuadrupoleToAxes
             Demo.demoArraySum Demo.rampMasked (Demo.circle 0 4 1) Demo.demoAperture).
    vm_compute. reflexivity.
Defined.

(** Witness of X17: on the aperture that misses the ramp both overloads
    throw the same exception. *)
Lemma overloads_witness :
  Demo.rampFluxMasked (Demo.circle 100 100 1) = Demo.rampFlux (Demo.circle 100 100 1).
Proof.
  pose proof (@computeFlux_overloads_agree nan Demo.rampCoeffs Demo.demoOffset
                Demo.demoEllipseBBox Demo.demoPixelRegion Demo.demoQuadrupoleToAxes
                Demo.demoArraySum Demo.rampMasked (Demo.circle 100 100 1) Demo.demoAperture)
    as H.
  change (getImagePlane Demo.rampMasked) with Demo.rampImage in H.
  fold (Demo.rampFlux (Demo.circle 100 100 1)) in H.
  fold (Demo.rampFluxMasked (Demo.circle 100 100 1)) in H.
  destruct (Demo.rampFlux (Demo.circle 100 100 1)) as [e|r] eqn:E;
    [|vm_compute in E; discriminate E].
  destruct (Demo.rampFluxMasked (Demo.circle 100 100 1)) as [em|rm]; [|contradiction].
  rewrite H. reflexivity.
Defined.

(** Witness of X23: a record with a flagged centroid at (100, 100): the
    extractor sets the failure flag, the aperture misses the exposure, and
    [measure] throws with the record as the extractor left it. *)
Lemma measure_witness :
  exists record,
    Demo.measureDemo (ScaledApertureFlux.mkMeasRecord Demo.offImageRecord 0 0) Demo.rampMasked
    = ScaledApertureFlux.Thrown (LengthError "Box does not fit in the image") record
    /\ record
       = ScaledApertureFlux.mkMeasRecord (InputUtilities.setCentroidValue Demo.offImageRecord 0)
           0 0.
Proof.
  pose proof (@measure_stores_the_sinc_flux false (fun _ => 1) 0x1.62e42fefa39efp-1 nan
                Demo.rampCoeffs Demo.demoOffset Demo.demoEllipseBBox Demo.demoArraySum
                (ScaledApertureFlux.mkControl 1 "lanczos5")
                (ScaledApertureFlux.mkMeasRecord Demo.offImageRecord 0 0) Demo.rampMasked)
    as H.
  cbv zeta in H.
  fold (Demo.measureDemo (ScaledApertureFlux.mkMeasRecord Demo.offImageRecord 0 0)
          Demo.rampMasked) in H.
  destruct (Demo.measureDemo (ScaledApertureFlux.mkMeasRecord Demo.offImageRecord 0 0)
              Demo.rampMasked) as [record|e record] eqn:E;
    [vm_compute in E; discriminate E|].
  destruct H as [[_ K] | (center & src & X & _ & -> & _ & ->)];
    [vm_compute in K; discriminate K|].
  vm_compute in X. injection X as <- <-.
  eexists. split; reflexivity.
Defined.

(** Witness of X18: the aperture and the image moved by (1, 2). *)
Lemma translation_witness :
  ApertureFlux.computeNaiveFlux_MaskedImage nan Demo.demoPixelRegion
    (translate_masked 1 2 (Demo.onesMasked 4)) (Demo.circle 5 6 1) Demo.demoAperture
  = ApertureFlux.computeNaiveFlux_MaskedImage nan Demo.demoPixelRegion (Demo.onesMasked 4)
      (Demo.circle 4 4 1) Demo.demoAperture.
Proof.
  apply (proj2 (@naive_flux_is_translation_invariant nan Demo.demoPixelRegion
                  (Demo.onesMasked 4) (Demo.circle 4 4 1) (Demo.circle 5 6 1)
                  Demo.demoAperture 1 2 eq_refl)).
Defined.

(** Witness of X19: the 8x8 MaskedImage and its copy that holds -1 outside
    the bounds, under an aperture of radius 12, which is summed naively. *)
Lemma flux_reads_inside_witness :
  ApertureFlux.computeFlux_MaskedImage nan Demo.demoCoeffs Demo.demoOffset Demo.demoEllipseBBox
    Demo.demoPixelRegion Demo.demoQuadrupoleToAxes Demo.demoArraySum
    (Demo.onesMasked 4) (Demo.circle 4 4 12) Demo.demoAperture
  = ApertureFlux.computeFlux_MaskedImage nan Demo.demoCoeffs Demo.demoOffset
      Demo.demoEllipseBBox Demo.demoPixelRegion Demo.demoQuadrupoleToAxes Demo.demoArraySum
      Demo.paddedOnesMasked (Demo.circle 4 4 12) Demo.demoAperture.
Proof.
  assert (I : same_inside (SdssShape.Masked (Demo.onesMasked 4))
                (SdssShape.Masked Demo.paddedOnesMasked)).
  { cbn [same_inside]. repeat split.
    - intros c r Hc Hr. cbn [Demo.paddedOnesMasked Demo.onesMasked getImagePlane pixel
        Demo.onesImage]. rewrite (@inBounds_inside 8 8 c r Hc Hr). reflexivity.
    - intros c r Hc Hr. cbn [Demo.paddedOnesMasked Demo.onesMasked variancePlane].
      rewrite (@inBounds_inside 8 8 c r Hc Hr). reflexivity. }
  assert (S : forall span,
             In span (ApertureFlux.spans (Demo.demoPixelRegion (Demo.circle 4 4 12))) ->
             span_inside (ApertureFlux.regionBBox (Demo.demoPixelRegion (Demo.circle 4 4 12)))
               span).
  { intros span Hin. vm_compute in Hin.
    repeat (destruct Hin as [<- | Hin]; [vm_compute; repeat split; discriminate|]).
    destruct Hin. }
  exact (proj2 (@computeFlux_reads_inside_the_image nan Demo.demoCoeffs Demo.demoOffset
                  Demo.demoEllipseBBox Demo.demoPixelRegion Demo.demoQuadrupoleToAxes
                  Demo.demoArraySum (Demo.onesMasked 4) Demo.paddedOnesMasked
                  (Demo.circle 4 4 12) Demo.demoAperture I eq_refl eq_refl S)).
Defined.

(** Witness of X20: a round shape whose slot flag is set comes back, and the
    failure flag of the algorithm is set. *)
Lemma shape_returned_witness :
  InputUtilities.SafeShapeExtractor_call Demo.flaggedShapeRecord (InputUtilities.mkHandler 0)
  = inr (mkQuadrupole 2 2 1, InputUtilities.setValue Demo.flaggedShapeRecord 0)
  /\ fails_shape_test (mkQuadrupole 2 2 1) = false.
Proof.
  split; [reflexivity|].
  exact (proj1 (proj2 (proj2
           (@SafeShapeExtractor_returns_the_slot_value Demo.flaggedShapeRecord
              (InputUtilities.setValue Demo.flaggedShapeRecord 0) (InputUtilities.mkHandler 0)
              (mkQuadrupole 2 2 1) eq_refl)))).
Defined.

(** Witness of X21: a NaN in a flagged centroid slot: the consumer gets the
    first peak, (3, 4), and the failure flag is set. *)
Lemma consumer_witness :
  InputUtilities.SafeCentroidExtractor_call false Demo.flaggedNanRecord
    (InputUtilities.mkHandler 0)
  = inr (InputUtilities.mkPoint 3 4, InputUtilities.setCentroidValue Demo.flaggedNanRecord 0)
  /\ InputUtilities.extractPeak Demo.flaggedNanRecord = inr (InputUtilities.mkPoint 3 4).
Proof.
  split; [reflexivity|].
  destruct (@consumer_gets_a_usable_centroid Demo.flaggedNanRecord
              (InputUtilities.setCentroidValue Demo.flaggedNanRecord 0)
              (InputUtilities.mkHandler 0) (InputUtilities.mkPoint 3 4) eq_refl)
    as (_ & [[N _] | (_ & P & _)] & _); [discriminate N | exact P].
Defined.

(** Witness of X26: the Fisher matrix of a round shape under a variance
    of 1. *)
Lemma calc_fisher_witness :
  exists fisher,
    SdssShape.calc_fisher Demo.roundShape 1 = inr fisher
    /\ List.length fisher = 4%nat
    /\ nth 1 (nth 0 fisher []) 0 = nth 0 (nth 1 fisher []) 0.
Proof.
  destruct (SdssShape.calc_fisher Demo.roundShape 1) as [e|fisher] eqn:E;
    [vm_compute in E; discriminate E|].
  exists fisher. split; [reflexivity|].
  destruct (@calc_fisher_is_symmetric Demo.roundShape 1 fisher E) as (L & _ & S).
  split; [exact L|]. apply S; lia.
Defined.
End FurtherRuns.
